(** * Passport-photo validation pipeline: a shallow embedding

    This development embeds the validation core of the passport-photo
    application (domain model, check strategies, orchestrating service) and
    proves properties of it.

    Conventions of the embedding:
    - a Python [float] (and an [int] used as a number) is an exact rational
      [Q]; comparisons are the boolean ones of [QArith], so every branch of
      the source is a boolean test here.  Rounding of IEEE doubles is not
      modelled;
    - a Python exception is a value of [exn]; a call that may raise returns
      [result A];
    - a class becomes a [Module] holding the record of its attributes
      ([t]) and its methods, which take [self] first;
    - a [dict] whose keys are looked up is a [gmap string _]; a [dict] that is
      only built and handed on (the [details] of a result) is an association
      list in insertion order;
    - a NumPy image is a list of pixel rows, see [ndarray]. *)

From Stdlib Require Import ZArith QArith Qminmax Qabs List String Bool Lia Lqa.
From Stdlib Require Import Qround.
From stdpp Require Import gmap strings.

Local Open Scope string_scope.
Local Open Scope list_scope.
Local Open Scope Z_scope.

(** ** Exceptions and fallible calls *)

(** The exceptions of the embedding: all of them are subclasses of Python's
    [Exception], which is what [except Exception] catches. *)

Inductive exn : Type :=
| ValueError (msg : string)
| TypeError (msg : string)
| KeyError (key : string)
| cv2_error (msg : string)
| OtherException (msg : string).

Inductive result (A : Type) : Type :=
| Ok (a : A)
| Raise (e : exn).
Arguments Ok {A} a.
Arguments Raise {A} e.

Definition bind {A B : Type} (c : result A) (k : A -> result B) : result B :=
  match c with
  | Ok a => k a
  | Raise e => Raise e
  end.

Declare Scope py_scope.
Delimit Scope py_scope with py.
Notation "x <- c ;; k" := (bind c (fun x => k))
  (at level 100, c at next level, right associativity) : py_scope.
Notation "c ;;; k" := (bind c (fun _ => k))
  (at level 100, right associativity) : py_scope.
Local Open Scope py_scope.

Definition returns {A : Type} (c : result A) : Prop := exists a, c = Ok a.
Definition raises {A : Type} (c : result A) : Prop := exists e, c = Raise e.

(** ** Numbers *)

(** Python's [0.0 <= x <= 1.0]. *)
Definition in_unit_interval (x : Q) : bool :=
  Qle_bool 0 x && Qle_bool x 1.

(** Python's [a < b], [a > b], [a >= b] on numbers. *)
Definition Qlt_bool (a b : Q) : bool := negb (Qle_bool b a).
Definition Qgt_bool (a b : Q) : bool := Qlt_bool b a.
Definition Qge_bool (a b : Q) : bool := Qle_bool b a.

(** Python's [int(x)] on a float: truncation towards zero. *)
Definition py_int (x : Q) : Z := Z.quot (Qnum x) (Zpos (Qden x)).

(** Python's [sum(xs)]: a left fold that starts from 0. *)
Definition py_sum (xs : list Q) : Q := fold_left Qplus xs 0%Q.

(** ** Images *)

(** A NumPy [uint8] image: two-dimensional (one intensity per pixel) or
    three-dimensional (a BGR triple per pixel), as a list of rows.  All rows of
    an array have the same length. *)
Inductive ndarray : Type :=
| Gray (rows : list (list Z))
| Color (rows : list (list (Z * Z * Z))).

(** [a.size], counted in array elements: a colour pixel has three. *)
Definition ndarray_size (a : ndarray) : Z :=
  match a with
  | Gray rows => Z.of_nat (length (concat rows))
  | Color rows => 3 * Z.of_nat (length (concat rows))
  end.

(** [len(a.shape)]. *)
Definition ndarray_ndim (a : ndarray) : Z :=
  match a with Gray _ => 2 | Color _ => 3 end.

(** [a.shape[:2]], as (height, width). *)
Definition ndarray_shape2 (a : ndarray) : Z * Z :=
  match a with
  | Gray rows => (Z.of_nat (length rows), Z.of_nat (length (hd [] rows)))
  | Color rows => (Z.of_nat (length rows), Z.of_nat (length (hd [] rows)))
  end.

(** ** models/photo.py *)

Inductive PhotoStatus : Type := PENDING | APPROVED | REJECTED.

(** [status.value], the string of an enumeration member. *)
Definition PhotoStatus_value (status : PhotoStatus) : string :=
  match status with
  | PENDING => "pending"
  | APPROVED => "approved"
  | REJECTED => "rejected"
  end.

(** Values stored in a [details] or [metadata] dictionary. *)
#[warnings="-register-all"]
Inductive detail : Type :=
| DNum (q : Q)
| DBool (b : bool)
| DStr (s : string)
| DList (l : list detail)
| DDict (d : list (string * detail)).

Module ValidationResult.

Record t : Type := mk {
  validator_name : string;
  is_valid : bool;
  confidence : Q;
  message : string;
  details : option (list (string * detail))
}.

Definition __post_init__ (self : t) : result unit :=
  if negb (in_unit_interval (confidence self))
  then Raise (ValueError "Confidence must be between 0.0 and 1.0")
  else Ok tt.

(** The dataclass constructor: the generated [__init__] stores the fields
    and then runs [__post_init__]. *)
Definition new (validator_name : string) (is_valid : bool) (confidence : Q)
    (message : string) (details : option (list (string * detail))) : result t :=
  let self := mk validator_name is_valid confidence message details in
  __post_init__ self ;;; Ok self.

End ValidationResult.

Module Photo.

Record t : Type := mk {
  image_data : option ndarray;
  timestamp : Z;
  id : option string;
  status : PhotoStatus;
  validation_results : list ValidationResult.t;
  file_path : option string;
  metadata : list (string * detail)
}.

(** [Photo(image_data=..., timestamp=...)]: the other fields take their
    defaults. *)
Definition new (image_data : option ndarray) (timestamp : Z) : t :=
  mk image_data timestamp None PENDING [] None [].

Definition with_results (self : t) (rs : list ValidationResult.t) : t :=
  mk (image_data self) (timestamp self) (id self) (status self) rs
     (file_path self) (metadata self).

Definition with_status (self : t) (s : PhotoStatus) : t :=
  mk (image_data self) (timestamp self) (id self) s (validation_results self)
     (file_path self) (metadata self).

Definition add_validation_result (self : t) (r : ValidationResult.t) : t :=
  with_results self (validation_results self ++ [r]).

Definition is_valid (self : t) : bool :=
  match validation_results self with
  | [] => false
  | _ => forallb ValidationResult.is_valid (validation_results self)
  end.

Definition get_overall_confidence (self : t) : Q :=
  match validation_results self with
  | [] => 0%Q
  | _ =>
      (py_sum (map ValidationResult.confidence (validation_results self))
       / inject_Z (Z.of_nat (length (validation_results self))))%Q
  end.

Definition get_failed_validations (self : t) : list ValidationResult.t :=
  List.filter (fun r => negb (ValidationResult.is_valid r)) (validation_results self).

Definition update_status (self : t) : t :=
  if is_valid self then with_status self APPROVED
  else
    match validation_results self with
    | _ :: _ => with_status self REJECTED
    | [] => with_status self PENDING
    end.

End Photo.

(** A value of the [landmarks] dictionary: a number, or an [(x, y, w, h)]
    region. *)
Inductive landmark_value : Type :=
| LNum (q : Q)
| LBox (b : Z * Z * Z * Z).

Module FaceDetectionResult.

Record t : Type := mk {
  face_found : bool;
  confidence : Q;
  face_bbox : option (Z * Z * Z * Z);
  landmarks : option (gmap string landmark_value)
}.

(** [x + w // 2]: Python's [//] rounds down, as [Z.div] does. *)
Definition get_face_center (self : t) : option (Z * Z) :=
  match face_bbox self with
  | None => None
  | Some (x, y, w, h) => Some (x + w / 2, y + h / 2)
  end.

Definition get_face_size (self : t) : option Z :=
  match face_bbox self with
  | None => None
  | Some (_, _, w, h) => Some (w * h)
  end.

End FaceDetectionResult.

(** ** NumPy and OpenCV *)

Definition GrayImage : Type := list (list Z).
Definition ColorImage : Type := list (list (Z * Z * Z)).

(** Python's [l[lo:hi]]: a negative bound counts from the end, and both bounds
    are clipped to the length. *)
Definition slice_bound (n i : Z) : Z :=
  if i <? 0 then Z.max 0 (i + n) else Z.min i n.

Definition py_slice {A : Type} (lo hi : Z) (l : list A) : list A :=
  let n := Z.of_nat (length l) in
  let lo' := slice_bound n lo in
  let hi' := slice_bound n hi in
  firstn (Z.to_nat (hi' - lo')) (skipn (Z.to_nat lo') l).

(** NumPy's [a[y0:y1, x0:x1]]. *)
Definition crop {A : Type} (y0 y1 x0 x1 : Z) (rows : list (list A)) : list (list A) :=
  map (py_slice x0 x1) (py_slice y0 y1 rows).

Definition ndarray_crop (y0 y1 x0 x1 : Z) (a : ndarray) : ndarray :=
  match a with
  | Gray rows => Gray (crop y0 y1 x0 x1 rows)
  | Color rows => Color (crop y0 y1 x0 x1 rows)
  end.

Definition Zsum (xs : list Z) : Z := fold_left Z.add xs 0.

(** [np.mean] of the listed values, and [np.mean(gray)] of an image. *)
Definition mean_of (xs : list Z) : Q :=
  (inject_Z (Zsum xs) / inject_Z (Z.of_nat (length xs)))%Q.
Definition np_mean (gray : GrayImage) : Q := mean_of (concat gray).

(** [np.sum(gray > t)] and [np.sum(gray < t)]. *)
Definition count_gt (t : Z) (gray : GrayImage) : Z :=
  Z.of_nat (length (List.filter (fun v => t <? v) (concat gray))).
Definition count_lt (t : Z) (gray : GrayImage) : Z :=
  Z.of_nat (length (List.filter (fun v => v <? t) (concat gray))).

(** [cv2.calcHist([gray], [0], None, [256], [0, 256])]: bin [k] counts the
    pixels of intensity [k]. *)
Definition calcHist (gray : GrayImage) : list Z :=
  map (fun k => Z.of_nat (length (List.filter (Z.eqb (Z.of_nat k)) (concat gray))))
      (seq 0 256).

(** [cv2.threshold(img, thresh, 255, cv2.THRESH_BINARY)[1]] and the
    [THRESH_BINARY_INV] variant. *)
Definition threshold_binary (thresh : Z) (img : GrayImage) : GrayImage :=
  map (map (fun v => if thresh <? v then 255 else 0)) img.
Definition threshold_binary_inv (thresh : Z) (img : GrayImage) : GrayImage :=
  map (map (fun v => if thresh <? v then 0 else 255)) img.

(** [cv2.inRange(img, lower, upper)]. *)
Definition inRange (lower upper : Z * Z * Z) (img : ColorImage) : GrayImage :=
  let '(l0, l1, l2) := lower in
  let '(u0, u1, u2) := upper in
  map (map (fun p : Z * Z * Z =>
              let '(c0, c1, c2) := p in
              if (l0 <=? c0) && (c0 <=? u0) && (l1 <=? c1) && (c1 <=? u1)
                 && (l2 <=? c2) && (c2 <=? u2)
              then 255 else 0)) img.

(** [cv2.bitwise_or] of two masks of the same shape and [cv2.bitwise_not]. *)
Definition bitwise_or (a b : GrayImage) : GrayImage :=
  map (fun rs => map (fun vs => Z.lor (fst vs) (snd vs)) (combine (fst rs) (snd rs)))
      (combine a b).
Definition bitwise_not (a : GrayImage) : GrayImage :=
  map (map (fun v => 255 - v)) a.

(** The image operations of OpenCV and NumPy whose result is not a simple
    per-pixel formula are taken as parameters of the development.  Each may
    raise [cv2.error]. *)
Class OpenCV : Type := {
  (** [cv2.cvtColor(img, cv2.COLOR_BGR2GRAY)] on a three-channel image *)
  cvtColor_BGR2GRAY : ColorImage -> GrayImage;
  (** [cv2.cvtColor(img, cv2.COLOR_BGR2HSV)] on a three-channel image *)
  cvtColor_BGR2HSV : ColorImage -> ColorImage;
  (** [cv2.Laplacian(gray, cv2.CV_64F).var()] *)
  Laplacian_var : GrayImage -> result Q;
  (** [cv2.morphologyEx(mask, cv2.MORPH_OPEN, np.ones((k, k), np.uint8))] *)
  morphologyEx_OPEN : Z -> GrayImage -> result GrayImage;
  (** [cv2.connectedComponentsWithStats(mask, connectivity=8)]: for every
      label, background first, its area and its centroid *)
  connectedComponentsWithStats : GrayImage -> result (list (Z * (Q * Q)));
  (** [cv2.Canny(img, lo, hi)] *)
  Canny : Z -> Z -> GrayImage -> result GrayImage;
  (** [np.std] of the listed values *)
  np_std : list Z -> Q
}.

(** ** validators/base_validator.py *)

Module ValidatorConfig.
Definition BRIGHTNESS_MIN : Q := 50.
Definition BRIGHTNESS_MAX : Q := 230.
Definition BRIGHTNESS_THRESHOLD : Q := 0.5.
Definition SHARPNESS_MIN_VARIANCE : Q := 50.
Definition SHARPNESS_THRESHOLD : Q := 0.5.
Definition FACE_CENTER_TOLERANCE : Q := 0.30.
Definition FACE_SIZE_MIN_RATIO : Q := 0.05.
Definition FACE_SIZE_MAX_RATIO : Q := 0.70.
Definition FACE_POSITION_THRESHOLD : Q := 0.5.
Definition EXPRESSION_THRESHOLD : Q := 0.4.
Definition MOUTH_OPEN_THRESHOLD : Q := 0.5.
Definition EYE_VISIBILITY_THRESHOLD : Q := 0.4.
Definition EYE_ASPECT_RATIO_MIN : Q := 0.12.
Definition REFLECTION_BRIGHTNESS_THRESHOLD : Z := 250.
Definition REFLECTION_MAX_RATIO : Q := 0.12.
Definition REFLECTION_THRESHOLD : Q := 0.5.
Definition SHADOW_DARKNESS_THRESHOLD : Z := 35.
Definition SHADOW_MAX_RATIO : Q := 0.20.
Definition SHADOW_THRESHOLD : Q := 0.5.
Definition FACE_DETECTION_CONFIDENCE_MIN : Q := 0.4.
End ValidatorConfig.

(** An object that implements the abstract class [IValidator]: its three
    methods, closed over the object's attributes.  [validate] reads the photo
    it is handed and does not modify it, as the nine validators of the
    repository do. *)
Module IValidator.
Record t : Type := mk {
  validate : Photo.t -> option FaceDetectionResult.t -> result ValidationResult.t;
  get_name : string;
  get_description : string
}.
End IValidator.

Module BaseValidator.

Record t : Type := mk { _threshold : Q }.

(** [BaseValidator.__init__(self, threshold)] *)
Definition new (threshold : Q) : result t :=
  if negb (in_unit_interval threshold)
  then Raise (ValueError "Threshold must be between 0.0 and 1.0")
  else Ok (mk threshold).

(** The [threshold] property. *)
Definition threshold (self : t) : Q := _threshold self.

(** The [threshold] setter: the object after the assignment, and whether the
    assignment returned or raised. *)
Definition set_threshold (self : t) (value : Q) : t * result unit :=
  if negb (in_unit_interval value)
  then (self, Raise (ValueError "Threshold must be between 0.0 and 1.0"))
  else (mk value, Ok tt).

(** [self._create_result(...)]; [name] is [self.get_name()]. *)
Definition _create_result (name : string) (is_valid : bool) (confidence : Q)
    (message : string) (details : option (list (string * detail)))
  : result ValidationResult.t :=
  ValidationResult.new name is_valid confidence message details.

Definition _get_grayscale_image `{OpenCV} (photo : Photo.t) : result GrayImage :=
  match Photo.image_data photo with
  | None => Raise (OtherException "AttributeError")
  | Some (Gray rows) => Ok rows
  | Some (Color rows) => Ok (cvtColor_BGR2GRAY rows)
  end.

Definition _validate_image_data (photo : Photo.t) : result unit :=
  match Photo.image_data photo with
  | None => Raise (ValueError "Photo has no image data")
  | Some img =>
      if ndarray_size img =? 0
      then Raise (ValueError "Photo image data is empty")
      else Ok tt
  end.

End BaseValidator.

(** Python's [a / b] on floats. *)
Definition py_div (a b : Q) : result Q :=
  if Qeq_bool b 0 then Raise (OtherException "ZeroDivisionError")
  else Ok (a / b)%Q.

(** The test [face_detection and face_detection.face_found] of the checks. *)
Definition face_present (face_detection : option FaceDetectionResult.t) : bool :=
  match face_detection with
  | None => false
  | Some fd => FaceDetectionResult.face_found fd
  end.

(** The test [face_detection and face_detection.face_found and
    face_detection.face_bbox], with the box it guards. *)
Definition face_box (face_detection : option FaceDetectionResult.t)
  : option (Z * Z * Z * Z) :=
  match face_detection with
  | None => None
  | Some fd =>
      if FaceDetectionResult.face_found fd then FaceDetectionResult.face_bbox fd
      else None
  end.

Definition gray_height (gray : GrayImage) : Z := Z.of_nat (length gray).
Definition gray_width (gray : GrayImage) : Z := Z.of_nat (length (hd [] gray)).
Definition gray_size (gray : GrayImage) : Z := Z.of_nat (length (concat gray)).

(** ** validators/brightness_validator.py *)

Module BrightnessValidator.

Record t : Type := mk {
  base : BaseValidator.t;
  _min_brightness : Q;
  _max_brightness : Q
}.

Definition new (threshold min_brightness max_brightness : Q) : result t :=
  b <- BaseValidator.new threshold ;;
  Ok (mk b min_brightness max_brightness).

Definition default : result t :=
  new ValidatorConfig.BRIGHTNESS_THRESHOLD ValidatorConfig.BRIGHTNESS_MIN
      ValidatorConfig.BRIGHTNESS_MAX.

Definition get_name : string := "BrightnessValidator".
Definition get_description : string :=
  "Controleert of de belichting van de foto correct is".

Section Validate.
Context `{OpenCV}.

Definition validate (self : t) (photo : Photo.t)
    (face_detection : option FaceDetectionResult.t) : result ValidationResult.t :=
  BaseValidator._validate_image_data photo ;;;
  gray <- BaseValidator._get_grayscale_image photo ;;
  let mean_brightness := np_mean gray in
  let hist := calcHist gray in
  let hist_sum := inject_Z (Zsum hist) in
  let hist_normalized := map (fun c => (inject_Z c / hist_sum)%Q) hist in
  let overexposed_ratio := py_sum (skipn 240 hist_normalized) in
  let underexposed_ratio := py_sum (firstn 15 hist_normalized) in
  let brightness_score :=
    if Qle_bool (_min_brightness self) mean_brightness
       && Qle_bool mean_brightness (_max_brightness self)
    then 1%Q
    else
      let distance :=
        if Qlt_bool mean_brightness (_min_brightness self)
        then (_min_brightness self - mean_brightness)%Q
        else (mean_brightness - _max_brightness self)%Q in
      Qmax 0 (1 - distance / 30) in
  let extreme_score :=
    (1 - Qmin 1 ((overexposed_ratio + underexposed_ratio) * 2))%Q in
  let confidence := (brightness_score * 0.7 + extreme_score * 0.3)%Q in
  let is_valid := Qge_bool confidence (BaseValidator.threshold (base self)) in
  let message :=
    if is_valid then "Belichting is correct"
    else if Qlt_bool mean_brightness (_min_brightness self)
    then "Foto is te donker. Zorg voor meer licht"
    else if Qgt_bool mean_brightness (_max_brightness self)
    then "Foto is te licht. Verminder de belichting"
    else if Qgt_bool overexposed_ratio 0.05
    then "Te veel overbelichting gedetecteerd"
    else if Qgt_bool underexposed_ratio 0.05
    then "Te veel onderbelichting gedetecteerd"
    else "Belichting is niet optimaal" in
  let details := [
    ("mean_brightness", DNum mean_brightness);
    ("overexposed_ratio", DNum overexposed_ratio);
    ("underexposed_ratio", DNum underexposed_ratio);
    ("brightness_score", DNum brightness_score);
    ("extreme_score", DNum extreme_score)
  ] in
  BaseValidator._create_result get_name is_valid confidence message (Some details).

Definition as_IValidator (self : t) : IValidator.t :=
  IValidator.mk (validate self) get_name get_description.

End Validate.

End BrightnessValidator.

(** ** validators/sharpness_validator.py *)

Module SharpnessValidator.

Record t : Type := mk {
  base : BaseValidator.t;
  _min_variance : Q
}.

Definition new (threshold min_variance : Q) : result t :=
  b <- BaseValidator.new threshold ;;
  Ok (mk b min_variance).

Definition default : result t :=
  new ValidatorConfig.SHARPNESS_THRESHOLD ValidatorConfig.SHARPNESS_MIN_VARIANCE.

Definition get_name : string := "SharpnessValidator".
Definition get_description : string :=
  "Controleert of de foto voldoende scherp is en niet wazig".

Section Validate.
Context `{OpenCV}.

Definition validate (self : t) (photo : Photo.t)
    (face_detection : option FaceDetectionResult.t) : result ValidationResult.t :=
  BaseValidator._validate_image_data photo ;;;
  gray <- BaseValidator._get_grayscale_image photo ;;
  let gray :=
    match face_box face_detection with
    | Some (x, y, w, h) =>
        let padding := py_int (inject_Z (Z.min w h) * 0.1) in
        let x := Z.max 0 (x - padding) in
        let y := Z.max 0 (y - padding) in
        let w := Z.min (gray_width gray - x) (w + 2 * padding) in
        let h := Z.min (gray_height gray - y) (h + 2 * padding) in
        crop y (y + h) x (x + w) gray
    | None => gray
    end in
  variance <- Laplacian_var gray ;;
  let confidence :=
    if Qge_bool variance (_min_variance self)
    then Qmin 1 (variance / (_min_variance self * 2))
    else (variance / _min_variance self)%Q in
  let is_valid := Qge_bool confidence (BaseValidator.threshold (base self)) in
  let message :=
    if is_valid then "Foto is voldoende scherp"
    else if Qlt_bool variance (_min_variance self * 0.5)
    then "Foto is wazig. Houd de camera stil en zorg voor goede focus"
    else "Foto is niet scherp genoeg. Probeer opnieuw" in
  let details := [
    ("laplacian_variance", DNum variance);
    ("min_variance_threshold", DNum (_min_variance self));
    ("focused_on_face", DBool (face_present face_detection))
  ] in
  BaseValidator._create_result get_name is_valid confidence message (Some details).

Definition as_IValidator (self : t) : IValidator.t :=
  IValidator.mk (validate self) get_name get_description.

End Validate.

End SharpnessValidator.

(** ** validators/face_position_validator.py *)

Module FacePositionValidator.

Record t : Type := mk {
  base : BaseValidator.t;
  _center_tolerance : Q;
  _min_size_ratio : Q;
  _max_size_ratio : Q
}.

Definition new (threshold center_tolerance min_size_ratio max_size_ratio : Q)
  : result t :=
  b <- BaseValidator.new threshold ;;
  Ok (mk b center_tolerance min_size_ratio max_size_ratio).

Definition default : result t :=
  new ValidatorConfig.FACE_POSITION_THRESHOLD ValidatorConfig.FACE_CENTER_TOLERANCE
      ValidatorConfig.FACE_SIZE_MIN_RATIO ValidatorConfig.FACE_SIZE_MAX_RATIO.

Definition get_name : string := "FacePositionValidator".
Definition get_description : string :=
  "Controleert of het gezicht correct gepositioneerd en gecentreerd is".

(** The part of [validate] after the face, its box, its centre and its size
    have been found. *)
Definition score (self : t) (img_height img_width : Z) (bbox : Z * Z * Z * Z)
    (face_center : Z * Z) (face_size : Z) : result ValidationResult.t :=
  let img_center_x := (inject_Z img_width / 2)%Q in
  let img_center_y := (inject_Z img_height / 2)%Q in
  let '(x, y, w, h) := bbox in
  let '(face_x, face_y) := face_center in
  center_offset_x <-
    py_div (Qabs (inject_Z face_x - img_center_x)) (inject_Z img_width) ;;
  center_offset_y <-
    py_div (Qabs (inject_Z face_y - img_center_y)) (inject_Z img_height) ;;
  let max_center_offset := Qmax center_offset_x center_offset_y in
  centering_score <-
    (if Qle_bool max_center_offset (_center_tolerance self) then Ok 1%Q
     else
       d <- py_div (max_center_offset - _center_tolerance self)
                   (_center_tolerance self) ;;
       Ok (Qmax 0 (1 - d))) ;;
  let img_size := img_width * img_height in
  face_size_ratio <- py_div (inject_Z face_size) (inject_Z img_size) ;;
  size_score <-
    (if Qle_bool (_min_size_ratio self) face_size_ratio
        && Qle_bool face_size_ratio (_max_size_ratio self)
     then Ok 1%Q
     else if Qlt_bool face_size_ratio (_min_size_ratio self)
     then
       let distance := (_min_size_ratio self - face_size_ratio)%Q in
       d <- py_div distance (_min_size_ratio self) ;;
       Ok (Qmax 0 (1 - d))
     else
       let distance := (face_size_ratio - _max_size_ratio self)%Q in
       d <- py_div distance (_max_size_ratio self) ;;
       Ok (Qmax 0 (1 - d))) ;;
  let aspect_ratio := if 0 <? h then (inject_Z w / inject_Z h)%Q else 0%Q in
  let aspect_score :=
    if Qle_bool 0.55 aspect_ratio && Qle_bool aspect_ratio 1.1 then 1%Q
    else
      let aspect_distance :=
        if Qlt_bool aspect_ratio 0.55 then (0.55 - aspect_ratio)%Q
        else (aspect_ratio - 1.1)%Q in
      Qmax 0 (1 - aspect_distance * 2) in
  let confidence :=
    (centering_score * 0.4 + size_score * 0.4 + aspect_score * 0.2)%Q in
  let is_valid := Qge_bool confidence (BaseValidator.threshold (base self)) in
  let message :=
    if is_valid then "Gezichtspositie is correct"
    else if Qlt_bool centering_score 0.7 then
      if Qgt_bool center_offset_x center_offset_y then
        if Qlt_bool (inject_Z face_x) img_center_x
        then "Beweeg meer naar rechts in beeld"
        else "Beweeg meer naar links in beeld"
      else
        if Qlt_bool (inject_Z face_y) img_center_y
        then "Beweeg meer naar beneden in beeld"
        else "Beweeg meer naar boven in beeld"
    else if Qlt_bool size_score 0.7 then
      if Qlt_bool face_size_ratio (_min_size_ratio self)
      then "Kom dichter bij de camera"
      else "Ga verder van de camera af"
    else if Qlt_bool aspect_score 0.7
    then "Houd uw hoofd recht en kijk frontaal in de camera"
    else "Pas uw positie aan voor een betere pasfoto" in
  let details := [
    ("center_offset_x", DNum center_offset_x);
    ("center_offset_y", DNum center_offset_y);
    ("face_size_ratio", DNum face_size_ratio);
    ("aspect_ratio", DNum aspect_ratio);
    ("centering_score", DNum centering_score);
    ("size_score", DNum size_score);
    ("aspect_score", DNum aspect_score)
  ] in
  BaseValidator._create_result get_name is_valid confidence message (Some details).

Definition validate (self : t) (photo : Photo.t)
    (face_detection : option FaceDetectionResult.t) : result ValidationResult.t :=
  BaseValidator._validate_image_data photo ;;;
  match face_detection with
  | None =>
      BaseValidator._create_result get_name false 0
        "Geen gezicht gedetecteerd. Zorg dat uw gezicht zichtbaar is"
        (Some [("error", DStr "no_face_detected")])
  | Some fd =>
      if negb (FaceDetectionResult.face_found fd) then
        BaseValidator._create_result get_name false 0
          "Geen gezicht gedetecteerd. Zorg dat uw gezicht zichtbaar is"
          (Some [("error", DStr "no_face_detected")])
      else
        match FaceDetectionResult.face_bbox fd with
        | None =>
            BaseValidator._create_result get_name false 0
              "Gezicht kon niet worden gelokaliseerd"
              (Some [("error", DStr "no_bounding_box")])
        | Some bbox =>
            match Photo.image_data photo with
            | None => Raise (OtherException "AttributeError")
            | Some img =>
                let '(img_height, img_width) := ndarray_shape2 img in
                match FaceDetectionResult.get_face_center fd,
                      FaceDetectionResult.get_face_size fd with
                | Some face_center, Some face_size =>
                    if face_size =? 0 then
                      BaseValidator._create_result get_name false 0
                        "Gezicht kon niet worden geanalyseerd"
                        (Some [("error", DStr "invalid_face_data")])
                    else score self img_height img_width bbox face_center face_size
                | _, _ =>
                    BaseValidator._create_result get_name false 0
                      "Gezicht kon niet worden geanalyseerd"
                      (Some [("error", DStr "invalid_face_data")])
                end
            end
        end
  end.

Definition as_IValidator (self : t) : IValidator.t :=
  IValidator.mk (validate self) get_name get_description.

End FacePositionValidator.

(** ** Reading the [landmarks] dictionary *)

(** [landmarks[key]] used as a number: with a region stored under the key, the
    arithmetic or comparison that follows raises [TypeError]. *)
Definition landmark_number (landmarks : gmap string landmark_value) (key : string)
  : result Q :=
  match landmarks !! key with
  | None => Raise (KeyError key)
  | Some (LNum q) => Ok q
  | Some (LBox _) => Raise (TypeError "unsupported operand type(s)")
  end.

(** [x, y, w, h = landmarks[key]]. *)
Definition landmark_box (landmarks : gmap string landmark_value) (key : string)
  : result (Z * Z * Z * Z) :=
  match landmarks !! key with
  | None => Raise (KeyError key)
  | Some (LBox b) => Ok b
  | Some (LNum _) => Raise (TypeError "cannot unpack non-iterable object")
  end.

(** [key in landmarks]. *)
Definition has_key (landmarks : gmap string landmark_value) (key : string) : bool :=
  match landmarks !! key with Some _ => true | None => false end.

(** The truth value of an optional dictionary: [None] and [{}] are false. *)
Definition nonempty_landmarks (l : option (gmap string landmark_value))
  : option (gmap string landmark_value) :=
  match l with
  | None => None
  | Some m => if bool_decide (m = ∅) then None else Some m
  end.

(** ** validators/expression_validator.py *)

Module FacialExpressionValidator.

Record t : Type := mk {
  base : BaseValidator.t;
  _mouth_open_threshold : Q
}.

Definition new (threshold mouth_open_threshold : Q) : result t :=
  b <- BaseValidator.new threshold ;;
  Ok (mk b mouth_open_threshold).

Definition default : result t :=
  new ValidatorConfig.EXPRESSION_THRESHOLD ValidatorConfig.MOUTH_OPEN_THRESHOLD.

Definition get_name : string := "FacialExpressionValidator".
Definition get_description : string :=
  "Controleert of de gezichtsuitdrukking neutraal is en de mond gesloten".

Definition _calculate_mouth_aspect_ratio (landmarks : gmap string landmark_value)
  : result Q :=
  if has_key landmarks "mouth_upper" && has_key landmarks "mouth_lower"
     && has_key landmarks "mouth_width"
  then
    lower <- landmark_number landmarks "mouth_lower" ;;
    upper <- landmark_number landmarks "mouth_upper" ;;
    let mouth_height := Qabs (lower - upper) in
    mouth_width <- landmark_number landmarks "mouth_width" ;;
    if Qeq_bool mouth_width 0 then Ok 0%Q
    else Ok (mouth_height / mouth_width)%Q
  else Ok 0.1%Q.

Definition _analyze_facial_features (landmarks : gmap string landmark_value)
  : result Q :=
  let score := 1%Q in
  score <-
    (if has_key landmarks "eyebrow_raise" then
       eyebrow_raise <- landmark_number landmarks "eyebrow_raise" ;;
       Ok (if Qgt_bool eyebrow_raise 0.3 then (score - 0.3)%Q else score)
     else Ok score) ;;
  score <-
    (if has_key landmarks "mouth_symmetry" then
       symmetry <- landmark_number landmarks "mouth_symmetry" ;;
       Ok (if Qlt_bool symmetry 0.7 then (score - 0.2)%Q else score)
     else Ok score) ;;
  Ok (Qmax 0 (Qmin 1 score)).

Definition validate (self : t) (photo : Photo.t)
    (face_detection : option FaceDetectionResult.t) : result ValidationResult.t :=
  BaseValidator._validate_image_data photo ;;;
  match face_detection with
  | None =>
      BaseValidator._create_result get_name false 0 "Geen gezicht gedetecteerd"
        (Some [("error", DStr "no_face_detected")])
  | Some fd =>
      if negb (FaceDetectionResult.face_found fd) then
        BaseValidator._create_result get_name false 0 "Geen gezicht gedetecteerd"
          (Some [("error", DStr "no_face_detected")])
      else
        match nonempty_landmarks (FaceDetectionResult.landmarks fd) with
        | None =>
            BaseValidator._create_result get_name false 0
              "Gezichtskenmerken konden niet worden gedetecteerd"
              (Some [("error", DStr "no_landmarks")])
        | Some landmarks =>
            mouth_aspect_ratio <- _calculate_mouth_aspect_ratio landmarks ;;
            let '(mouth_score, mouth_closed) :=
              if Qle_bool mouth_aspect_ratio (_mouth_open_threshold self)
              then (1%Q, true)
              else
                let excess := (mouth_aspect_ratio - _mouth_open_threshold self)%Q in
                (Qmax 0 (1 - excess / 0.3), false) in
            expression_score <- _analyze_facial_features landmarks ;;
            let confidence := (mouth_score * 0.6 + expression_score * 0.4)%Q in
            let is_valid :=
              Qge_bool confidence (BaseValidator.threshold (base self)) in
            let message :=
              if is_valid then "Gezichtsuitdrukking is neutraal en correct"
              else if negb mouth_closed then "Sluit uw mond voor de pasfoto"
              else if Qlt_bool expression_score 0.6
              then "Neem een neutrale gezichtsuitdrukking aan"
              else "Gezichtsuitdrukking is niet volledig neutraal" in
            let details := [
              ("mouth_aspect_ratio", DNum mouth_aspect_ratio);
              ("mouth_closed", DBool mouth_closed);
              ("mouth_score", DNum mouth_score);
              ("expression_score", DNum expression_score)
            ] in
            BaseValidator._create_result get_name is_valid confidence message
              (Some details)
        end
  end.

Definition as_IValidator (self : t) : IValidator.t :=
  IValidator.mk (validate self) get_name get_description.

End FacialExpressionValidator.

(** ** validators/eye_validator.py *)

(** [f'{eye}_eye' + suffix], the key of a feature of one eye. *)
Definition eye_key (eye suffix : string) : string :=
  (eye ++ "_eye" ++ suffix)%string.

Module EyeVisibilityValidator.

Record t : Type := mk {
  base : BaseValidator.t;
  _min_eye_aspect_ratio : Q
}.

Definition new (threshold min_eye_aspect_ratio : Q) : result t :=
  b <- BaseValidator.new threshold ;;
  Ok (mk b min_eye_aspect_ratio).

Definition default : result t :=
  new ValidatorConfig.EYE_VISIBILITY_THRESHOLD ValidatorConfig.EYE_ASPECT_RATIO_MIN.

Definition get_name : string := "EyeVisibilityValidator".
Definition get_description : string :=
  "Controleert of beide ogen goed zichtbaar zijn en niet bedekt".

Definition _calculate_eye_aspect_ratio (landmarks : gmap string landmark_value)
    (eye : string) : result Q :=
  if has_key landmarks (eye_key eye "_height")
  then landmark_number landmarks (eye_key eye "_height")
  else Ok 0.10%Q.

(** The score of one eye from its aspect ratio. *)
Definition eye_score (ear closed_threshold min_acceptable : Q) : Q :=
  if Qge_bool ear min_acceptable then 1%Q
  else if Qge_bool ear closed_threshold then
    (0.6 + (ear - closed_threshold) / (min_acceptable - closed_threshold) * 0.4)%Q
  else Qmax 0 (ear / closed_threshold * 0.5).

Section Validate.
Context `{OpenCV}.

Definition _check_eye_coverage (photo : Photo.t) (face_detection : FaceDetectionResult.t)
    (eye : string) : result Q :=
  match FaceDetectionResult.landmarks face_detection with
  | None => Raise (TypeError "argument of type 'NoneType' is not iterable")
  | Some landmarks =>
      if has_key landmarks (eye_key eye "_region") then
        region <- landmark_box landmarks (eye_key eye "_region") ;;
        let '(x, y, w, h) := region in
        match Photo.image_data photo with
        | None => Raise (TypeError "'NoneType' object is not subscriptable")
        | Some img =>
            let eye_region := ndarray_crop y (y + h) x (x + w) img in
            if ndarray_size eye_region =? 0 then Ok 0.5%Q
            else
              let eye_gray :=
                match eye_region with
                | Color rows => cvtColor_BGR2GRAY rows
                | Gray rows => rows
                end in
              let bright_pixels := count_gt 240 eye_gray in
              let total_pixels := gray_size eye_gray in
              let bright_ratio :=
                (inject_Z bright_pixels / inject_Z total_pixels)%Q in
              if Qgt_bool bright_ratio 0.3 then Ok 0.5%Q
              else if Qgt_bool bright_ratio 0.15 then Ok 0.7%Q
              else Ok 1%Q
        end
      else Ok 0.8%Q
  end.

Definition validate (self : t) (photo : Photo.t)
    (face_detection : option FaceDetectionResult.t) : result ValidationResult.t :=
  BaseValidator._validate_image_data photo ;;;
  match face_detection with
  | None =>
      BaseValidator._create_result get_name false 0 "Geen gezicht gedetecteerd"
        (Some [("error", DStr "no_face_detected")])
  | Some fd =>
      if negb (FaceDetectionResult.face_found fd) then
        BaseValidator._create_result get_name false 0 "Geen gezicht gedetecteerd"
          (Some [("error", DStr "no_face_detected")])
      else
        match nonempty_landmarks (FaceDetectionResult.landmarks fd) with
        | None =>
            BaseValidator._create_result get_name false 0
              "Ogen konden niet worden gedetecteerd"
              (Some [("error", DStr "no_landmarks")])
        | Some landmarks =>
            left_ear <- _calculate_eye_aspect_ratio landmarks "left" ;;
            right_ear <- _calculate_eye_aspect_ratio landmarks "right" ;;
            let closed_threshold := 0.22%Q in
            let left_eye_open := Qge_bool left_ear closed_threshold in
            let right_eye_open := Qge_bool right_ear closed_threshold in
            let min_acceptable := 0.25%Q in
            let left_score := eye_score left_ear closed_threshold min_acceptable in
            let right_score := eye_score right_ear closed_threshold min_acceptable in
            left_coverage <- _check_eye_coverage photo fd "left" ;;
            right_coverage <- _check_eye_coverage photo fd "right" ;;
            let coverage_score := ((left_coverage + right_coverage) / 2)%Q in
            let eye_openness_score := ((left_score + right_score) / 2)%Q in
            let confidence :=
              (eye_openness_score * 0.7 + coverage_score * 0.3)%Q in
            let is_valid :=
              Qge_bool confidence (BaseValidator.threshold (base self))
              && left_eye_open && right_eye_open in
            let message :=
              if is_valid then "Beide ogen zijn goed zichtbaar"
              else if negb left_eye_open && negb right_eye_open
              then "Open uw ogen voor de pasfoto"
              else if negb left_eye_open
              then "Open uw rechteroog voor de pasfoto"
              else if negb right_eye_open
              then "Open uw linkeroog voor de pasfoto"
              else if Qlt_bool coverage_score 0.7
              then "Zorg dat uw ogen niet bedekt zijn door reflecties of haar"
              else "Ogen zijn niet volledig zichtbaar" in
            let details := [
              ("left_eye_aspect_ratio", DNum left_ear);
              ("right_eye_aspect_ratio", DNum right_ear);
              ("left_eye_open", DBool left_eye_open);
              ("right_eye_open", DBool right_eye_open);
              ("left_score", DNum left_score);
              ("right_score", DNum right_score);
              ("coverage_score", DNum coverage_score)
            ] in
            BaseValidator._create_result get_name is_valid confidence message
              (Some details)
        end
  end.

Definition as_IValidator (self : t) : IValidator.t :=
  IValidator.mk (validate self) get_name get_description.

End Validate.

End EyeVisibilityValidator.

(** ** validators/reflection_validator.py *)

Module ReflectionValidator.

Record t : Type := mk {
  base : BaseValidator.t;
  _brightness_threshold : Z;
  _max_reflection_ratio : Q
}.

Definition new (threshold : Q) (brightness_threshold : Z) (max_reflection_ratio : Q)
  : result t :=
  b <- BaseValidator.new threshold ;;
  Ok (mk b brightness_threshold max_reflection_ratio).

Definition default : result t :=
  new ValidatorConfig.REFLECTION_THRESHOLD
      ValidatorConfig.REFLECTION_BRIGHTNESS_THRESHOLD
      ValidatorConfig.REFLECTION_MAX_RATIO.

Definition get_name : string := "ReflectionValidator".
Definition get_description : string :=
  "Controleert op ongewenste reflecties in de foto".

Section Validate.
Context `{OpenCV}.

Definition validate (self : t) (photo : Photo.t)
    (face_detection : option FaceDetectionResult.t) : result ValidationResult.t :=
  BaseValidator._validate_image_data photo ;;;
  gray <- BaseValidator._get_grayscale_image photo ;;
  let analysis_region :=
    match face_box face_detection with
    | Some (x, y, w, h) => crop y (y + h) x (x + w) gray
    | None => gray
    end in
  let bright_mask := threshold_binary (_brightness_threshold self) analysis_region in
  bright_mask <- morphologyEx_OPEN 3 bright_mask ;;
  let reflection_pixels := count_gt 0 bright_mask in
  let total_pixels := gray_size analysis_region in
  let reflection_ratio := (inject_Z reflection_pixels / inject_Z total_pixels)%Q in
  stats <- connectedComponentsWithStats bright_mask ;;
  (* labels 1 .. num_labels - 1: label 0 is the background *)
  let large := List.filter (fun c : Z * (Q * Q) => 50 <? fst c) (tl stats) in
  let significant_reflections := Z.of_nat (length large) in
  let large_reflections :=
    map (fun c : Z * (Q * Q) =>
           DDict [("area", DNum (inject_Z (fst c)));
                  ("center", DList [DNum (fst (snd c)); DNum (snd (snd c))])])
        large in
  let ratio_score :=
    if Qle_bool reflection_ratio (_max_reflection_ratio self) then 1%Q
    else
      let excess := (reflection_ratio - _max_reflection_ratio self)%Q in
      Qmax 0 (1 - excess / _max_reflection_ratio self) in
  let count_score :=
    if significant_reflections =? 0 then 1%Q
    else if significant_reflections <=? 2 then 0.7%Q
    else Qmax 0 (1 - inject_Z (significant_reflections - 2) * 0.15) in
  let confidence := (ratio_score * 0.6 + count_score * 0.4)%Q in
  let is_valid := Qge_bool confidence (BaseValidator.threshold (base self)) in
  let message :=
    if is_valid then "Geen significante reflecties gedetecteerd"
    else if 3 <? significant_reflections
    then "Meerdere reflecties gedetecteerd. Vermijd direct licht en bril reflectie"
    else if Qgt_bool reflection_ratio (_max_reflection_ratio self * 2)
    then "Sterke reflectie gedetecteerd. Pas belichting aan"
    else "Lichte reflectie gedetecteerd. Pas positie of belichting aan" in
  let details := [
    ("reflection_ratio", DNum reflection_ratio);
    ("reflection_pixels", DNum (inject_Z reflection_pixels));
    ("significant_reflections", DNum (inject_Z significant_reflections));
    ("large_reflections", DList large_reflections);
    ("ratio_score", DNum ratio_score);
    ("count_score", DNum count_score)
  ] in
  BaseValidator._create_result get_name is_valid confidence message (Some details).

Definition as_IValidator (self : t) : IValidator.t :=
  IValidator.mk (validate self) get_name get_description.

End Validate.

End ReflectionValidator.

(** ** validators/shadow_validator.py *)

Module ShadowValidator.

Record t : Type := mk {
  base : BaseValidator.t;
  _darkness_threshold : Z;
  _max_shadow_ratio : Q
}.

Definition new (threshold : Q) (darkness_threshold : Z) (max_shadow_ratio : Q)
  : result t :=
  b <- BaseValidator.new threshold ;;
  Ok (mk b darkness_threshold max_shadow_ratio).

Definition default : result t :=
  new ValidatorConfig.SHADOW_THRESHOLD ValidatorConfig.SHADOW_DARKNESS_THRESHOLD
      ValidatorConfig.SHADOW_MAX_RATIO.

Definition get_name : string := "ShadowValidator".
Definition get_description : string :=
  "Controleert op storende schaduwen in de foto".

Section Validate.
Context `{OpenCV}.

Definition validate (self : t) (photo : Photo.t)
    (face_detection : option FaceDetectionResult.t) : result ValidationResult.t :=
  BaseValidator._validate_image_data photo ;;;
  gray <- BaseValidator._get_grayscale_image photo ;;
  let analysis_region :=
    match face_box face_detection with
    | Some (x, y, w, h) =>
        let padding := py_int (inject_Z h * 0.2) in
        let x := Z.max 0 (x - padding) in
        let y := Z.max 0 (y - padding) in
        let w := Z.min (gray_width gray - x) (w + 2 * padding) in
        let h := Z.min (gray_height gray - y) (h + 2 * padding) in
        crop y (y + h) x (x + w) gray
    | None => gray
    end in
  let dark_mask := threshold_binary_inv (_darkness_threshold self) analysis_region in
  dark_mask <- morphologyEx_OPEN 5 dark_mask ;;
  let shadow_pixels := count_gt 0 dark_mask in
  let total_pixels := gray_size analysis_region in
  let shadow_ratio := (inject_Z shadow_pixels / inject_Z total_pixels)%Q in
  edges <- Canny 50 150 dark_mask ;;
  let edge_pixels := count_gt 0 edges in
  let std_dev := np_std (concat analysis_region) in
  let ratio_score :=
    if Qle_bool shadow_ratio (_max_shadow_ratio self) then 1%Q
    else
      let excess := (shadow_ratio - _max_shadow_ratio self)%Q in
      Qmax 0 (1 - excess / _max_shadow_ratio self) in
  let edge_ratio := (inject_Z edge_pixels / inject_Z total_pixels)%Q in
  let edge_score :=
    if Qlt_bool edge_ratio 0.02 then 1%Q
    else Qmax 0 (1 - (edge_ratio - 0.02) / 0.05) in
  let uniformity_score :=
    if Qlt_bool std_dev 30 then 1%Q
    else if Qlt_bool std_dev 50 then 0.8%Q
    else Qmax 0 (1 - (std_dev - 50) / 50) in
  let confidence :=
    (ratio_score * 0.5 + edge_score * 0.3 + uniformity_score * 0.2)%Q in
  let is_valid := Qge_bool confidence (BaseValidator.threshold (base self)) in
  let message :=
    if is_valid then "Geen storende schaduwen gedetecteerd"
    else if Qgt_bool shadow_ratio (_max_shadow_ratio self * 2)
    then "Veel schaduw gedetecteerd. Verbeter de belichting"
    else if Qlt_bool edge_score 0.5
    then "Harde schaduwen gedetecteerd. Gebruik diffuus licht"
    else if Qlt_bool uniformity_score 0.6
    then "Ongelijkmatige belichting. Pas lichtbronnen aan"
    else "Lichte schaduwen gedetecteerd. Pas belichting aan voor optimaal resultaat" in
  let details := [
    ("shadow_ratio", DNum shadow_ratio);
    ("shadow_pixels", DNum (inject_Z shadow_pixels));
    ("edge_ratio", DNum edge_ratio);
    ("std_deviation", DNum std_dev);
    ("ratio_score", DNum ratio_score);
    ("edge_score", DNum edge_score);
    ("uniformity_score", DNum uniformity_score)
  ] in
  BaseValidator._create_result get_name is_valid confidence message (Some details).

Definition as_IValidator (self : t) : IValidator.t :=
  IValidator.mk (validate self) get_name get_description.

End Validate.

End ShadowValidator.

(** ** validators/headwear_validator.py *)

Module HeadwearValidator.

Record t : Type := mk { base : BaseValidator.t }.

Definition new (threshold : Q) : result t :=
  b <- BaseValidator.new threshold ;;
  Ok (mk b).

Definition default : result t := new 0.5.

Definition get_name : string := "HeadwearValidator".
Definition get_description : string :=
  "Controleert of er geen hoofddeksel wordt gedragen".

Section Validate.
Context `{OpenCV}.

Definition validate (self : t) (photo : Photo.t)
    (face_detection : option FaceDetectionResult.t) : result ValidationResult.t :=
  BaseValidator._validate_image_data photo ;;;
  match face_box face_detection with
  | None =>
      BaseValidator._create_result get_name false 0 "Geen gezicht gedetecteerd"
        (Some [("error", DStr "no_face_detected")])
  | Some (x, y, w, h) =>
      match Photo.image_data photo with
      | None => Raise (OtherException "AttributeError")
      | Some img =>
          let forehead_top := Z.max 0 (y - py_int (inject_Z h * 0.3)) in
          let forehead_region := ndarray_crop forehead_top y x (x + w) img in
          if ndarray_size forehead_region =? 0 then
            BaseValidator._create_result get_name true 0.8
              "Geen hoofddeksel gedetecteerd"
              (Some [("note", DStr "small_region")])
          else
            match forehead_region with
            | Gray _ => Raise (cv2_error "Invalid number of channels in input image")
            | Color region =>
                let hsv := cvtColor_BGR2HSV region in
                let skin_mask1 := inRange (0, 20, 70) (20, 255, 255) hsv in
                let skin_mask2 := inRange (0, 10, 40) (25, 200, 255) hsv in
                let skin_mask := bitwise_or skin_mask1 skin_mask2 in
                let skin_ratio :=
                  (inject_Z (count_gt 0 skin_mask) / inject_Z (gray_size skin_mask))%Q in
                let gray := cvtColor_BGR2GRAY region in
                let dark_ratio :=
                  (inject_Z (count_lt 60 gray) / inject_Z (gray_size gray))%Q in
                let std_color :=
                  np_std (flat_map (fun p : Z * Z * Z =>
                                      let '(b, g, r) := p in [b; g; r])
                                   (concat region)) in
                let '(has_headwear, confidence) := (false, 1%Q) in
                let '(has_headwear, confidence) :=
                  if Qlt_bool skin_ratio 0.3 && Qgt_bool dark_ratio 0.4
                  then (true, 0.2%Q) else (has_headwear, confidence) in
                let '(has_headwear, confidence) :=
                  if Qlt_bool skin_ratio 0.15
                  then (true, 0.1%Q) else (has_headwear, confidence) in
                let '(has_headwear, confidence) :=
                  if Qlt_bool std_color 25 && Qlt_bool skin_ratio 0.4
                  then (true, 0.3%Q) else (has_headwear, confidence) in
                let is_valid := negb has_headwear in
                let message :=
                  if is_valid then "Geen hoofddeksel gedetecteerd"
                  else "Verwijder hoofddeksel (pet, hoed) voor de pasfoto" in
                let details := [
                  ("skin_ratio", DNum skin_ratio);
                  ("dark_ratio", DNum dark_ratio);
                  ("color_std", DNum std_color);
                  ("has_headwear", DBool has_headwear)
                ] in
                BaseValidator._create_result get_name is_valid confidence message
                  (Some details)
            end
      end
  end.

Definition as_IValidator (self : t) : IValidator.t :=
  IValidator.mk (validate self) get_name get_description.

End Validate.

End HeadwearValidator.

(** ** validators/background_validator.py *)

(** [l[lo:hi] = v], elementwise through [f]. *)
Definition assign_slice {A : Type} (lo hi : Z) (f : A -> A) (l : list A) : list A :=
  let n := Z.of_nat (length l) in
  let lo' := slice_bound n lo in
  let hi' := slice_bound n hi in
  map (fun ia : nat * A =>
         let i := Z.of_nat (fst ia) in
         if (lo' <=? i) && (i <? hi') then f (snd ia) else snd ia)
      (combine (seq 0 (length l)) l).

(** [mask[y0:y1, x0:x1] = v]. *)
Definition assign_region (y0 y1 x0 x1 v : Z) (mask : GrayImage) : GrayImage :=
  assign_slice y0 y1 (assign_slice x0 x1 (fun _ => v)) mask.

(** [np.zeros((height, width), dtype=np.uint8)]. *)
Definition np_zeros (height width : Z) : GrayImage :=
  repeat (repeat 0 (Z.to_nat width)) (Z.to_nat height).

(** [img[mask > 0]]: the pixels under the mask, row by row. *)
Definition mask_select {A : Type} (mask : GrayImage) (img : list (list A)) : list A :=
  map snd (List.filter (fun mp : Z * A => 0 <? fst mp) (combine (concat mask) (concat img))).

Module BackgroundValidator.

Record t : Type := mk { base : BaseValidator.t }.

Definition new (threshold : Q) : result t :=
  b <- BaseValidator.new threshold ;;
  Ok (mk b).

Definition default : result t := new 0.5.

Definition get_name : string := "BackgroundValidator".
Definition get_description : string :=
  "Controleert of de achtergrond neutraal en uniform is".

Section Validate.
Context `{OpenCV}.

(** The scoring of [validate], from the measurements of the background. *)
Definition score (self : t) (bg_std bg_mean bg_color_std edge_ratio : Q)
  : result ValidationResult.t :=
  let uniformity_score :=
    if Qlt_bool bg_std 20 then 1%Q
    else if Qlt_bool bg_std 40 then 0.7%Q
    else if Qlt_bool bg_std 60 then 0.5%Q
    else 0.3%Q in
  let color_score :=
    if Qlt_bool bg_color_std 15 then 1%Q
    else if Qlt_bool bg_color_std 30 then 0.7%Q
    else 0.4%Q in
  let edge_score :=
    if Qlt_bool edge_ratio 0.05 then 1%Q
    else if Qlt_bool edge_ratio 0.10 then 0.7%Q
    else if Qlt_bool edge_ratio 0.20 then 0.5%Q
    else 0.3%Q in
  let brightness_bonus :=
    if Qgt_bool bg_mean 180 then 0.1%Q
    else if Qgt_bool bg_mean 150 then 0.05%Q
    else 0%Q in
  let confidence :=
    ((uniformity_score * 0.4 + color_score * 0.3 + edge_score * 0.3)
     + brightness_bonus)%Q in
  let confidence := Qmin 1 confidence in
  let is_valid := Qge_bool confidence (BaseValidator.threshold (base self)) in
  let message :=
    if is_valid then "Achtergrond is acceptabel"
    else if Qlt_bool edge_score 0.5
    then "Achtergrond bevat storende objecten. Gebruik een neutrale achtergrond"
    else if Qlt_bool uniformity_score 0.5
    then "Achtergrond is niet uniform genoeg. Gebruik een effen achtergrond"
    else "Gebruik een neutrale, lichte achtergrond voor de pasfoto" in
  let details := [
    ("bg_std", DNum bg_std);
    ("bg_mean", DNum bg_mean);
    ("bg_color_std", DNum bg_color_std);
    ("edge_ratio", DNum edge_ratio);
    ("uniformity_score", DNum uniformity_score);
    ("color_score", DNum color_score);
    ("edge_score", DNum edge_score)
  ] in
  BaseValidator._create_result get_name is_valid confidence message (Some details).

Definition validate (self : t) (photo : Photo.t)
    (face_detection : option FaceDetectionResult.t) : result ValidationResult.t :=
  BaseValidator._validate_image_data photo ;;;
  match face_box face_detection with
  | None =>
      BaseValidator._create_result get_name true 0.5
        "Achtergrond kon niet worden geanalyseerd"
        (Some [("error", DStr "no_face_for_reference")])
  | Some (x, y, w, h) =>
      match Photo.image_data photo with
      | None => Raise (OtherException "AttributeError")
      | Some img =>
          let '(img_height, img_width) := ndarray_shape2 img in
          let face_mask := np_zeros img_height img_width in
          let expanded_x := Z.max 0 (x - py_int (inject_Z w * 0.3)) in
          let expanded_y := Z.max 0 (y - py_int (inject_Z h * 0.2)) in
          let expanded_w :=
            Z.min (img_width - expanded_x) (py_int (inject_Z w * 1.6)) in
          let expanded_h :=
            Z.min (img_height - expanded_y) (py_int (inject_Z h * 1.8)) in
          let face_mask :=
            assign_region expanded_y (expanded_y + expanded_h)
                          expanded_x (expanded_x + expanded_w) 255 face_mask in
          let bg_mask := bitwise_not face_mask in
          let len_bg_pixels :=
            match img with
            | Gray rows => Z.of_nat (length (mask_select bg_mask rows))
            | Color rows => Z.of_nat (length (mask_select bg_mask rows))
            end in
          if len_bg_pixels <? 100 then
            BaseValidator._create_result get_name true 0.7
              "Achtergrond is acceptabel"
              (Some [("note", DStr "small_background")])
          else
            match img with
            | Gray _ => Raise (cv2_error "Invalid number of channels in input image")
            | Color rows =>
                let bg_pixels := mask_select bg_mask rows in
                let gray := cvtColor_BGR2GRAY rows in
                let bg_gray := mask_select bg_mask gray in
                let bg_std := np_std bg_gray in
                let bg_mean := mean_of bg_gray in
                let bg_color_std :=
                  ((np_std (map (fun p : Z * Z * Z => fst (fst p)) bg_pixels)
                    + np_std (map (fun p : Z * Z * Z => snd (fst p)) bg_pixels)
                    + np_std (map (fun p : Z * Z * Z => snd p) bg_pixels)) / 3)%Q in
                edges <- Canny 50 150 gray ;;
                let bg_edges := mask_select bg_mask edges in
                let edge_ratio :=
                  if 0 <? Z.of_nat (length bg_edges)
                  then (inject_Z (Z.of_nat (length (List.filter (fun v => 0 <? v) bg_edges)))
                        / inject_Z (Z.of_nat (length bg_edges)))%Q
                  else 0%Q in
                score self bg_std bg_mean bg_color_std edge_ratio
            end
      end
  end.

Definition as_IValidator (self : t) : IValidator.t :=
  IValidator.mk (validate self) get_name get_description.

End Validate.

End BackgroundValidator.

(** ** models/face_detection_model.py *)

(** MediaPipe's face mesh is a parameter: [FaceMesh_process] stands for
    [FaceMesh(static_image_mode=True, max_num_faces=1, ...).process(image_rgb)
    .multi_face_landmarks], the faces found, each a list of points with
    coordinates relative to the image size. *)
Class MediaPipe : Type := {
  FaceMesh_process : Q -> Q -> ColorImage -> result (list (list (Q * Q)))
}.

(** [min(xs)] and [max(xs)] of Python: [ValueError] on an empty sequence. *)
Definition py_min (xs : list Q) : result Q :=
  match xs with
  | [] => Raise (ValueError "min() arg is an empty sequence")
  | x :: xs => Ok (fold_left Qmin xs x)
  end.
Definition py_max (xs : list Q) : result Q :=
  match xs with
  | [] => Raise (ValueError "max() arg is an empty sequence")
  | x :: xs => Ok (fold_left Qmax xs x)
  end.

Module FaceDetectionModel.

Record t : Type := mk {
  _min_detection_confidence : Q;
  _min_tracking_confidence : Q
}.

Definition new (min_detection_confidence min_tracking_confidence : Q) : t :=
  mk min_detection_confidence min_tracking_confidence.

(** The entries of [_LANDMARK_INDICES] that the model reads. *)
Definition left_eye_top_idx : nat := 159.
Definition left_eye_bottom_idx : nat := 145.
Definition left_eye_left_idx : nat := 33.
Definition left_eye_right_idx : nat := 133.
Definition right_eye_top_idx : nat := 386.
Definition right_eye_bottom_idx : nat := 374.
Definition right_eye_left_idx : nat := 362.
Definition right_eye_right_idx : nat := 263.
Definition mouth_top_idx : nat := 13.
Definition mouth_bottom_idx : nat := 14.
Definition mouth_left_idx : nat := 61.
Definition mouth_right_idx : nat := 291.
Definition left_eyebrow_inner_idx : nat := 107.
Definition left_eyebrow_outer_idx : nat := 66.

Definition _calculate_bounding_box (face_landmarks : list (Q * Q)) (h w : Z)
  : result (Z * Z * Z * Z) :=
  let x_coords := map (fun lm : Q * Q => (fst lm * inject_Z w)%Q) face_landmarks in
  let y_coords := map (fun lm : Q * Q => (snd lm * inject_Z h)%Q) face_landmarks in
  x_min <- py_min x_coords ;;
  x_max <- py_max x_coords ;;
  y_min <- py_min y_coords ;;
  y_max <- py_max y_coords ;;
  let x_min := py_int x_min in
  let x_max := py_int x_max in
  let y_min := py_int y_min in
  let y_max := py_int y_max in
  let padding_x := py_int (inject_Z (x_max - x_min) * 0.1) in
  let padding_y := py_int (inject_Z (y_max - y_min) * 0.1) in
  let x_min := Z.max 0 (x_min - padding_x) in
  let y_min := Z.max 0 (y_min - padding_y) in
  let x_max := Z.min w (x_max + padding_x) in
  let y_max := Z.min h (y_max + padding_y) in
  let width := x_max - x_min in
  let height := y_max - y_min in
  Ok (x_min, y_min, width, height).

(** The local helper [get_point] of [_extract_landmarks]. *)
Definition get_point (face_landmarks : list (Q * Q)) (h w : Z) (idx : nat)
  : result (Z * Z) :=
  match nth_error face_landmarks idx with
  | None => Raise (OtherException "IndexError")
  | Some lm => Ok (py_int (fst lm * inject_Z w), py_int (snd lm * inject_Z h))
  end.

Definition _extract_landmarks (face_landmarks : list (Q * Q)) (h w : Z)
  : result (gmap string landmark_value) :=
  let get_point := get_point face_landmarks h w in
  let landmarks_dict : gmap string landmark_value := ∅ in
  left_eye_top <- get_point left_eye_top_idx ;;
  left_eye_bottom <- get_point left_eye_bottom_idx ;;
  left_eye_left <- get_point left_eye_left_idx ;;
  left_eye_right <- get_point left_eye_right_idx ;;
  right_eye_top <- get_point right_eye_top_idx ;;
  right_eye_bottom <- get_point right_eye_bottom_idx ;;
  right_eye_left <- get_point right_eye_left_idx ;;
  right_eye_right <- get_point right_eye_right_idx ;;
  let left_eye_height := Z.abs (snd left_eye_top - snd left_eye_bottom) in
  let left_eye_width := Z.abs (fst left_eye_right - fst left_eye_left) in
  let right_eye_height := Z.abs (snd right_eye_top - snd right_eye_bottom) in
  let right_eye_width := Z.abs (fst right_eye_right - fst right_eye_left) in
  let landmarks_dict :=
    <["left_eye_height" :=
        LNum (if 0 <? left_eye_width
              then inject_Z left_eye_height / inject_Z left_eye_width else 0)%Q]>
      landmarks_dict in
  let landmarks_dict :=
    <["left_eye_width" := LNum (inject_Z left_eye_width)]> landmarks_dict in
  let landmarks_dict :=
    <["right_eye_height" :=
        LNum (if 0 <? right_eye_width
              then inject_Z right_eye_height / inject_Z right_eye_width else 0)%Q]>
      landmarks_dict in
  let landmarks_dict :=
    <["right_eye_width" := LNum (inject_Z right_eye_width)]> landmarks_dict in
  let left_eye_x := Z.min (fst left_eye_left) (fst left_eye_right) in
  let left_eye_y := Z.min (snd left_eye_top) (snd left_eye_bottom) in
  let left_eye_w := Z.abs (fst left_eye_right - fst left_eye_left) in
  let left_eye_h := Z.abs (snd left_eye_bottom - snd left_eye_top) in
  let right_eye_x := Z.min (fst right_eye_left) (fst right_eye_right) in
  let right_eye_y := Z.min (snd right_eye_top) (snd right_eye_bottom) in
  let right_eye_w := Z.abs (fst right_eye_right - fst right_eye_left) in
  let right_eye_h := Z.abs (snd right_eye_bottom - snd right_eye_top) in
  let landmarks_dict :=
    <["left_eye_region" := LBox (left_eye_x, left_eye_y, left_eye_w, left_eye_h)]>
      landmarks_dict in
  let landmarks_dict :=
    <["right_eye_region" := LBox (right_eye_x, right_eye_y, right_eye_w, right_eye_h)]>
      landmarks_dict in
  mouth_top <- get_point mouth_top_idx ;;
  mouth_bottom <- get_point mouth_bottom_idx ;;
  mouth_left <- get_point mouth_left_idx ;;
  mouth_right <- get_point mouth_right_idx ;;
  let mouth_width := Z.abs (fst mouth_right - fst mouth_left) in
  let landmarks_dict :=
    <["mouth_upper" := LNum (inject_Z (snd mouth_top))]> landmarks_dict in
  let landmarks_dict :=
    <["mouth_lower" := LNum (inject_Z (snd mouth_bottom))]> landmarks_dict in
  let landmarks_dict :=
    <["mouth_width" := LNum (inject_Z mouth_width)]> landmarks_dict in
  left_eyebrow_inner <- get_point left_eyebrow_inner_idx ;;
  left_eyebrow_outer <- get_point left_eyebrow_outer_idx ;;
  let eyebrow_eye_distance := Z.abs (snd left_eyebrow_inner - snd left_eye_top) in
  let face_height := h in
  eyebrow_raise <- py_div (inject_Z eyebrow_eye_distance) (inject_Z face_height) ;;
  let landmarks_dict := <["eyebrow_raise" := LNum eyebrow_raise]> landmarks_dict in
  let mouth_center_x := (inject_Z (fst mouth_left + fst mouth_right) / 2)%Q in
  let face_center_x := (inject_Z w / 2)%Q in
  mouth_offset <- py_div (Qabs (mouth_center_x - face_center_x)) (inject_Z w) ;;
  let landmarks_dict :=
    <["mouth_symmetry" := LNum (1 - Qmin 1 (mouth_offset * 10))]> landmarks_dict in
  Ok landmarks_dict.

Section Detect.
Context `{MediaPipe}.

Definition detect_face (self : t) (image : option ndarray)
  : result FaceDetectionResult.t :=
  match image with
  | None => Raise (cv2_error "src is not a numpy array, neither a scalar")
  | Some (Gray _) => Raise (cv2_error "Invalid number of channels in input image")
  | Some (Color rows) =>
      (* cv2.COLOR_BGR2RGB swaps the first and the last channel *)
      let image_rgb :=
        map (map (fun p : Z * Z * Z => let '(b, g, r) := p in (r, g, b))) rows in
      faces <- FaceMesh_process (_min_detection_confidence self)
                                (_min_tracking_confidence self) image_rgb ;;
      match faces with
      | [] => Ok (FaceDetectionResult.mk false 0 None None)
      | face_landmarks :: _ =>
          let '(h, w) := ndarray_shape2 (Color rows) in
          bbox <- _calculate_bounding_box face_landmarks h w ;;
          landmarks <- _extract_landmarks face_landmarks h w ;;
          let confidence :=
            Qmin 1 (inject_Z (Z.of_nat (length face_landmarks)) / 468) in
          Ok (FaceDetectionResult.mk true confidence (Some bbox) (Some landmarks))
      end
  end.

End Detect.

End FaceDetectionModel.

Module FaceDetectionModelFactory.

Definition create_mediapipe_model (min_detection_confidence min_tracking_confidence : Q)
  : FaceDetectionModel.t :=
  FaceDetectionModel.new min_detection_confidence min_tracking_confidence.

Definition create_default_model : FaceDetectionModel.t :=
  FaceDetectionModel.new 0.7 0.5.

End FaceDetectionModelFactory.

(** ** services/validation_service.py *)

(** What an observer receives: the event type with its data.  The progress
    text ["Running <name>... (<i>/<n>)"] is kept as its three parts. *)
Inductive Event : Type :=
| face_detection_event (message : string)
| validation_progress_event (validator_name : string) (i n : nat)
| validation_result_event (validator : string) (result : ValidationResult.t)
| validation_complete_event (photo : Photo.t) (is_valid : bool) (confidence : Q).

(** The records written to the module's [logger], by the call that writes
    them and with the values that are formatted into the text. *)
Inductive LogRecord : Type :=
| info_initialized (validators : nat)
| info_added_validator (name : string)
| info_removed_validator (name : string)
| info_starting
| warning_no_face
| info_validator (validator_name : string) (passed : bool) (confidence : Q)
| error_in_validator (validator_name : string) (e : exn)
| error_notifying_observer (e : exn)
| info_complete (status : PhotoStatus) (confidence : Q).

(** An observer object: its [update(event_type, data)] method, which may
    raise; an observer does not modify the photo or the result it is handed. *)
Module Observer.
Record t : Type := mk { update : Event -> result unit }.
End Observer.

Module ValidationService.

Record t : Type := mk {
  _face_detection_model : FaceDetectionModel.t;
  _validators : list IValidator.t;
  _observers : list Observer.t
}.

Definition _notify_observers (self : t) (event : Event) : list LogRecord :=
  flat_map (fun observer =>
              match Observer.update observer event with
              | Ok _ => []
              | Raise e => [error_notifying_observer e]
              end)
           (_observers self).

Definition add_validator (self : t) (validator : IValidator.t) : list LogRecord * t :=
  ([info_added_validator (IValidator.get_name validator)],
   mk (_face_detection_model self) (_validators self ++ [validator]) (_observers self)).

(** The loop of [remove_validator]: the list without the first validator of
    that name, when there is one. *)
Fixpoint remove_first (validator_name : string) (vs : list IValidator.t)
  : option (list IValidator.t) :=
  match vs with
  | [] => None
  | v :: vs' =>
      if String.eqb (IValidator.get_name v) validator_name then Some vs'
      else option_map (cons v) (remove_first validator_name vs')
  end.

Definition remove_validator (self : t) (validator_name : string)
  : list LogRecord * (t * bool) :=
  match remove_first validator_name (_validators self) with
  | Some vs =>
      ([info_removed_validator validator_name],
       (mk (_face_detection_model self) vs (_observers self), true))
  | None => ([], (self, false))
  end.

Definition get_validators (self : t) : list IValidator.t := _validators self.

Definition add_observer (self : t) (observer : Observer.t) : t :=
  mk (_face_detection_model self) (_validators self) (_observers self ++ [observer]).

(** The dictionary [get_validation_summary] returns, its keys as fields; an
    entry of ["results"] holds the validator, whether it passed, its confidence
    and its message. *)
Record summary : Type := mk_summary {
  summary_status : string;
  summary_is_valid : bool;
  summary_overall_confidence : Q;
  summary_total_validators : nat;
  summary_passed_validators : nat;
  summary_failed_validators : nat;
  summary_results : list (string * bool * Q * string)
}.

Definition get_validation_summary (self : t) (photo : Photo.t) : summary :=
  mk_summary
    (PhotoStatus_value (Photo.status photo))
    (Photo.is_valid photo)
    (Photo.get_overall_confidence photo)
    (length (Photo.validation_results photo))
    (length (List.filter ValidationResult.is_valid (Photo.validation_results photo)))
    (length (Photo.get_failed_validations photo))
    (map (fun r => (ValidationResult.validator_name r, ValidationResult.is_valid r,
                    ValidationResult.confidence r, ValidationResult.message r))
         (Photo.validation_results photo)).

Section Service.
Context `{OpenCV} `{MediaPipe}.

Definition _create_default_validators : result (list IValidator.t) :=
  v1 <- BrightnessValidator.default ;;
  v2 <- SharpnessValidator.default ;;
  v3 <- FacePositionValidator.default ;;
  v4 <- FacialExpressionValidator.default ;;
  v5 <- EyeVisibilityValidator.default ;;
  v6 <- ReflectionValidator.default ;;
  v7 <- ShadowValidator.default ;;
  Ok [ BrightnessValidator.as_IValidator v1;
       SharpnessValidator.as_IValidator v2;
       FacePositionValidator.as_IValidator v3;
       FacialExpressionValidator.as_IValidator v4;
       EyeVisibilityValidator.as_IValidator v5;
       ReflectionValidator.as_IValidator v6;
       ShadowValidator.as_IValidator v7 ].

(** [ValidationService(face_detection_model, validators)] *)
Definition new (face_detection_model : option FaceDetectionModel.t)
    (validators : option (list IValidator.t)) : list LogRecord * result t :=
  let model :=
    match face_detection_model with
    | None => FaceDetectionModelFactory.create_default_model
    | Some m => m
    end in
  match (match validators with
         | None => _create_default_validators
         | Some vs => Ok vs
         end) with
  | Raise e => ([], Raise e)
  | Ok vs => ([info_initialized (length vs)], Ok (mk model vs []))
  end.

(** One turn of the loop over [enumerate(self._validators)]: the photo and
    the log before the turn, and after it. *)
Definition run_validator (self : t) (face_detection : FaceDetectionResult.t)
    (state : Photo.t * list LogRecord) (turn : nat * IValidator.t)
  : Photo.t * list LogRecord :=
  let '(photo, log) := state in
  let '(i, validator) := turn in
  let validator_name := IValidator.get_name validator in
  let log :=
    log ++ _notify_observers self
             (validation_progress_event validator_name (i + 1)
                                  (length (_validators self))) in
  match IValidator.validate validator photo (Some face_detection) with
  | Ok result =>
      let photo := Photo.add_validation_result photo result in
      let log :=
        log ++ _notify_observers self (validation_result_event validator_name result) in
      let log :=
        log ++ [info_validator validator_name (ValidationResult.is_valid result)
                               (ValidationResult.confidence result)] in
      (photo, log)
  | Raise e => (photo, log ++ [error_in_validator validator_name e])
  end.

Definition validate_photo (self : t) (photo : Photo.t)
  : list LogRecord * result Photo.t :=
  let log := [info_starting] in
  let log := log ++ _notify_observers self (face_detection_event "Detecting face...") in
  match FaceDetectionModel.detect_face (_face_detection_model self)
                                       (Photo.image_data photo) with
  | Raise e => (log, Raise e)
  | Ok face_detection =>
      let log :=
        if negb (FaceDetectionResult.face_found face_detection)
        then log ++ [warning_no_face] else log in
      let '(photo, log) :=
        fold_left (run_validator self face_detection)
                  (combine (seq 0 (length (_validators self))) (_validators self))
                  (photo, log) in
      let photo := Photo.update_status photo in
      let log :=
        log ++ _notify_observers self
                 (validation_complete_event photo (Photo.is_valid photo)
                                      (Photo.get_overall_confidence photo)) in
      let log :=
        log ++ [info_complete (Photo.status photo)
                              (Photo.get_overall_confidence photo)] in
      (log, Ok photo)
  end.

End Service.

End ValidationService.

(** ** The inherited [threshold] property *)

(** Every check strategy is a subclass of [BaseValidator]: it holds the
    attributes of the base class and inherits the [threshold] property and its
    setter, which reads and assigns [_threshold] only. *)
Class Strategy (V : Type) : Type := {
  base_of : V -> BaseValidator.t;
  with_base : BaseValidator.t -> V -> V;
  base_of_with_base : forall b v, base_of (with_base b v) = b;
  with_base_base_of : forall v, with_base (base_of v) v = v
}.

#[export] Instance BaseValidator_Strategy : Strategy BaseValidator.t :=
  {| base_of := fun v => v; with_base := fun b _ => b;
     base_of_with_base := fun _ _ => eq_refl;
     with_base_base_of := fun _ => eq_refl |}.

#[export] Instance BrightnessValidator_Strategy : Strategy BrightnessValidator.t :=
  {| base_of := BrightnessValidator.base;
     with_base := fun b v =>
       BrightnessValidator.mk b (BrightnessValidator._min_brightness v)
                              (BrightnessValidator._max_brightness v);
     base_of_with_base := fun _ _ => eq_refl;
     with_base_base_of := ltac:(now intros []) |}.

#[export] Instance SharpnessValidator_Strategy : Strategy SharpnessValidator.t :=
  {| base_of := SharpnessValidator.base;
     with_base := fun b v => SharpnessValidator.mk b (SharpnessValidator._min_variance v);
     base_of_with_base := fun _ _ => eq_refl;
     with_base_base_of := ltac:(now intros []) |}.

#[export] Instance FacePositionValidator_Strategy
  : Strategy FacePositionValidator.t :=
  {| base_of := FacePositionValidator.base;
     with_base := fun b v =>
       FacePositionValidator.mk b (FacePositionValidator._center_tolerance v)
                                (FacePositionValidator._min_size_ratio v)
                                (FacePositionValidator._max_size_ratio v);
     base_of_with_base := fun _ _ => eq_refl;
     with_base_base_of := ltac:(now intros []) |}.

#[export] Instance FacialExpressionValidator_Strategy
  : Strategy FacialExpressionValidator.t :=
  {| base_of := FacialExpressionValidator.base;
     with_base := fun b v =>
       FacialExpressionValidator.mk b (FacialExpressionValidator._mouth_open_threshold v);
     base_of_with_base := fun _ _ => eq_refl;
     with_base_base_of := ltac:(now intros []) |}.

#[export] Instance EyeVisibilityValidator_Strategy
  : Strategy EyeVisibilityValidator.t :=
  {| base_of := EyeVisibilityValidator.base;
     with_base := fun b v =>
       EyeVisibilityValidator.mk b (EyeVisibilityValidator._min_eye_aspect_ratio v);
     base_of_with_base := fun _ _ => eq_refl;
     with_base_base_of := ltac:(now intros []) |}.

#[export] Instance ReflectionValidator_Strategy : Strategy ReflectionValidator.t :=
  {| base_of := ReflectionValidator.base;
     with_base := fun b v =>
       ReflectionValidator.mk b (ReflectionValidator._brightness_threshold v)
                              (ReflectionValidator._max_reflection_ratio v);
     base_of_with_base := fun _ _ => eq_refl;
     with_base_base_of := ltac:(now intros []) |}.

#[export] Instance ShadowValidator_Strategy : Strategy ShadowValidator.t :=
  {| base_of := ShadowValidator.base;
     with_base := fun b v =>
       ShadowValidator.mk b (ShadowValidator._darkness_threshold v)
                          (ShadowValidator._max_shadow_ratio v);
     base_of_with_base := fun _ _ => eq_refl;
     with_base_base_of := ltac:(now intros []) |}.

#[export] Instance HeadwearValidator_Strategy : Strategy HeadwearValidator.t :=
  {| base_of := HeadwearValidator.base;
     with_base := fun b _ => HeadwearValidator.mk b;
     base_of_with_base := fun _ _ => eq_refl;
     with_base_base_of := ltac:(now intros []) |}.

#[export] Instance BackgroundValidator_Strategy : Strategy BackgroundValidator.t :=
  {| base_of := BackgroundValidator.base;
     with_base := fun b _ => BackgroundValidator.mk b;
     base_of_with_base := fun _ _ => eq_refl;
     with_base_base_of := ltac:(now intros []) |}.

(** [validator.threshold] and [validator.threshold = value] on a strategy. *)
Definition threshold {V : Type} `{Strategy V} (self : V) : Q :=
  BaseValidator.threshold (base_of self).

Definition set_threshold {V : Type} `{Strategy V} (self : V) (value : Q)
  : V * result unit :=
  let '(b, outcome) := BaseValidator.set_threshold (base_of self) value in
  (with_base b self, outcome).


(** ** Instances and inputs for examples *)

(** A simple instance of the image operations, to evaluate the embedding on
    concrete inputs; the theorems below hold for every instance.  Grey levels
    follow OpenCV's fixed-point luma weights. *)
Definition example_cv : OpenCV :=
  {| cvtColor_BGR2GRAY :=
       map (map (fun p : Z * Z * Z =>
                   let '(b, g, r) := p in
                   (r * 4899 + g * 9617 + b * 1868 + 8192) / 16384));
     cvtColor_BGR2HSV := fun img => img;
     Laplacian_var := fun _ => Ok 100%Q;
     morphologyEx_OPEN := fun _ mask => Ok mask;
     connectedComponentsWithStats := fun _ => Ok [(0, (0%Q, 0%Q))];
     Canny := fun _ _ img => Ok (map (map (fun _ => 0)) img);
     np_std := fun _ => 0%Q |}.

(** A face mesh that finds no face. *)
Definition example_mesh : MediaPipe :=
  {| FaceMesh_process := fun _ _ _ => Ok [] |}.

(** A solid grey image of [h] rows and [w] columns. *)
Definition solid (h w : nat) (v : Z) : GrayImage := repeat (repeat v w) h.

(** A solid three-channel image. *)
Definition solid_color (h w : nat) (v : Z) : ColorImage := repeat (repeat (v, v, v) w) h.

Definition example_photo : Photo.t := Photo.new (Some (Color (solid_color 2 2 140))) 0.

(** A check whose evaluation always raises. *)
Definition failing_check : IValidator.t :=
  IValidator.mk (fun _ _ => Raise (OtherException "RuntimeError"))
                "FailingCheck" "Raises on every photo".

(** A check that always passes with confidence 1. *)
Definition passing_check : IValidator.t :=
  IValidator.mk (fun _ _ => ValidationResult.new "PassingCheck" true 1 "ok" None)
                "PassingCheck" "Accepts every photo".

Definition no_face : FaceDetectionResult.t := FaceDetectionResult.mk false 0 None None.

(** ** Statements about the threshold *)

Definition threshold_error : exn := ValueError "Threshold must be between 0.0 and 1.0".

(** A constructor, as a function of the threshold it is given, accepts exactly
    the thresholds of [0, 1] and stores the accepted one unchanged. *)
Definition constructor_checks_threshold {V : Type} `{Strategy V}
    (ctor : Q -> result V) : Prop :=
  forall t : Q,
    ((0 <= t)%Q /\ (t <= 1)%Q /\ exists v, ctor t = Ok v /\ threshold v = t)
    \/ (~ ((0 <= t)%Q /\ (t <= 1)%Q) /\ ctor t = Raise threshold_error).

(** The setter accepts exactly the thresholds of [0, 1]: an accepted value
    replaces [_threshold] and nothing else, a rejected one raises and leaves
    the object as it was. *)
Definition setter_checks_threshold (V : Type) `{Strategy V} : Prop :=
  forall (self : V) (value : Q),
    ((0 <= value)%Q /\ (value <= 1)%Q /\
     set_threshold self value = (with_base (BaseValidator.mk value) self, Ok tt) /\
     threshold (fst (set_threshold self value)) = value)
    \/ (~ ((0 <= value)%Q /\ (value <= 1)%Q) /\
        set_threshold self value = (self, Raise threshold_error)).

(** ** Statements about a run of the service *)

(** What a run is to append to the photo: going through the checks in
    registration order, the result of every check whose evaluation returns,
    each evaluated on the photo as the checks before it left it; a check whose
    evaluation raises contributes nothing. *)
Fixpoint returned_results (face_detection : FaceDetectionResult.t)
    (checks : list IValidator.t) (photo : Photo.t) : list ValidationResult.t :=
  match checks with
  | [] => []
  | check :: checks' =>
      match IValidator.validate check photo (Some face_detection) with
      | Ok r =>
          r :: returned_results face_detection checks'
                                (Photo.add_validation_result photo r)
      | Raise _ => returned_results face_detection checks' photo
      end
  end.

(** The check a log record reports on, when it reports the outcome of a
    check: its result, or the exception it raised. *)
Definition reported_check (record : LogRecord) : option string :=
  match record with
  | info_validator name _ _ => Some name
  | error_in_validator name _ => Some name
  | _ => None
  end.

(** The checks whose outcome a log reports, in the order of the log. *)
Definition checks_run (log : list LogRecord) : list string :=
  omap reported_check log.

Definition is_check_error (record : LogRecord) : bool :=
  match record with error_in_validator _ _ => true | _ => false end.

(** The log records of checks that raised. *)
Definition check_errors (log : list LogRecord) : list LogRecord :=
  List.filter is_check_error log.

(** A service with three registered checks, the second of which raises. *)
Definition example_service : ValidationService.t :=
  ValidationService.mk FaceDetectionModelFactory.create_default_model
                       [passing_check; failing_check; passing_check] [].

(** The check names of the default registration, in order. *)
Definition default_check_names : list string :=
  [ "BrightnessValidator"; "SharpnessValidator"; "FacePositionValidator";
    "FacialExpressionValidator"; "EyeVisibilityValidator"; "ReflectionValidator";
    "ShadowValidator" ].

(** ** Statements about the eye check *)

(** The grey levels of an eye region of the image, as the coverage check
    reads them. *)
Definition eye_region_gray `{OpenCV} (img : ndarray) (box : Z * Z * Z * Z) : GrayImage :=
  let '(x, y, w, h) := box in
  match ndarray_crop y (y + h) x (x + w) img with
  | Color rows => cvtColor_BGR2GRAY rows
  | Gray rows => rows
  end.

(** The eye has a region in the landmarks, the region holds pixels, and at most
    15% of them are bright (above 240). *)
Definition low_glare `{OpenCV} (img : ndarray) (landmarks : gmap string landmark_value)
    (eye : string) : Prop :=
  exists x y w h,
    landmarks !! eye_key eye "_region" = Some (LBox (x, y, w, h)) /\
    ndarray_size (ndarray_crop y (y + h) x (x + w) img) <> 0 /\
    (inject_Z (count_gt 240 (eye_region_gray img (x, y, w, h)))
     / inject_Z (gray_size (eye_region_gray img (x, y, w, h))) <= 0.15)%Q.

(** The region stored for the eye, if any, is a box and not a number. *)
Definition region_is_box (landmarks : gmap string landmark_value) (eye : string) : Prop :=
  forall q, landmarks !! eye_key eye "_region" <> Some (LNum q).

(** Landmarks with the given aspect ratio for both eyes and a region of
    2 x 2 pixels for each. *)
Definition example_landmarks (ear : Q) : gmap string landmark_value :=
  <["left_eye_height" := LNum ear]>
    (<["right_eye_height" := LNum ear]>
       (<["left_eye_region" := LBox (0, 0, 2, 2)]>
          (<["right_eye_region" := LBox (4, 0, 2, 2)]> ∅))).

Definition example_face (ear : Q) : FaceDetectionResult.t :=
  FaceDetectionResult.mk true 1 (Some (0, 0, 8, 4)) (Some (example_landmarks ear)).

Definition example_gray_photo : Photo.t := Photo.new (Some (Gray (solid 4 8 100))) 0.

Definition example_eye_validator : EyeVisibilityValidator.t :=
  EyeVisibilityValidator.mk (BaseValidator.mk 0.4) 0.12.

(** ** Statements about the brightness check *)

(** The number of pixels with an intensity in [lo, hi), and their share of the
    image. *)
Definition count_in (lo hi : Z) (gray : GrayImage) : Z :=
  Z.of_nat (length (List.filter (fun v => (lo <=? v) && (v <? hi)) (concat gray))).

Definition pixel_fraction (lo hi : Z) (gray : GrayImage) : Q :=
  (inject_Z (count_in lo hi gray) / inject_Z (gray_size gray))%Q.

(** The brightness score: 1 for a mean inside [min, max], and otherwise
    max(0, 1 - distance / 30) for the distance of the mean to that range. *)
Definition brightness_score_formula (min_brightness max_brightness mean : Q) : Q :=
  if Qle_bool min_brightness mean && Qle_bool mean max_brightness then 1%Q
  else
    let distance :=
      if Qlt_bool mean min_brightness then (min_brightness - mean)%Q
      else (mean - max_brightness)%Q in
    Qmax 0 (1 - distance / 30).

(** The extremes score: 1 - min(1, 2 (overexposed + underexposed)). *)
Definition extremes_score_formula (overexposed underexposed : Q) : Q :=
  (1 - Qmin 1 (2 * (overexposed + underexposed)))%Q.

(** The confidence: 0.7 brightness score + 0.3 extremes score. *)
Definition confidence_formula (min_brightness max_brightness mean over under : Q) : Q :=
  (0.7 * brightness_score_formula min_brightness max_brightness mean
   + 0.3 * extremes_score_formula over under)%Q.

(** One bin of the histogram of the listed pixels. *)
Definition hist_bin (flat : list Z) (k : nat) : Z :=
  Z.of_nat (length (List.filter (Z.eqb (Z.of_nat k)) flat)).

(** The two ratios the check computes from the normalised histogram. *)
Definition overexposed_ratio (g : GrayImage) : Q :=
  py_sum (skipn 240 (map (fun c => (inject_Z c / inject_Z (Zsum (calcHist g)))%Q)
                         (calcHist g))).
Definition underexposed_ratio (g : GrayImage) : Q :=
  py_sum (firstn 15 (map (fun c => (inject_Z c / inject_Z (Zsum (calcHist g)))%Q)
                         (calcHist g))).

(** A photo with a solid grey image of 4 rows and 8 columns. *)
Definition example_solid_photo (v : Z) : Photo.t := Photo.new (Some (Gray (solid 4 8 v))) 0.


(** ** Statements about the other checks *)

(** The part of the grey image the sharpness check analyses: the face box
    with a padding of a tenth of its smaller side, or the whole image. *)
Definition sharpness_region (gray : GrayImage) (face_detection : option FaceDetectionResult.t)
  : GrayImage :=
  match face_box face_detection with
  | Some (x, y, w, h) =>
      let padding := py_int (inject_Z (Z.min w h) * 0.1) in
      let x := Z.max 0 (x - padding) in
      let y := Z.max 0 (y - padding) in
      let w := Z.min (gray_width gray - x) (w + 2 * padding) in
      let h := Z.min (gray_height gray - y) (h + 2 * padding) in
      crop y (y + h) x (x + w) gray
  | None => gray
  end.

(** Image operations whose Laplacian variance is the intensity of the first
    pixel, to tell example images apart. *)
Definition example_cv_by_pixel : OpenCV :=
  {| cvtColor_BGR2GRAY := @cvtColor_BGR2GRAY example_cv;
     cvtColor_BGR2HSV := @cvtColor_BGR2HSV example_cv;
     Laplacian_var := fun g => Ok (inject_Z (hd 0 (concat g)));
     morphologyEx_OPEN := @morphologyEx_OPEN example_cv;
     connectedComponentsWithStats := @connectedComponentsWithStats example_cv;
     Canny := @Canny example_cv;
     np_std := @np_std example_cv |}.

(** Landmarks that hold the aspect ratio of the "right" eye only. *)
Definition example_landmarks_right_only : gmap string landmark_value :=
  <["right_eye_height" := LNum 0.3]> ∅.

(** The part of the grey image the reflection check analyses: the face box,
    or the whole image. *)
Definition reflection_region (gray : GrayImage)
    (face_detection : option FaceDetectionResult.t) : GrayImage :=
  match face_box face_detection with
  | Some (x, y, w, h) => crop y (y + h) x (x + w) gray
  | None => gray
  end.

(** The part of the grey image the shadow check analyses: the face box with
    a padding of a fifth of its height, or the whole image. *)
Definition shadow_region (gray : GrayImage) (face_detection : option FaceDetectionResult.t)
  : GrayImage :=
  match face_box face_detection with
  | Some (x, y, w, h) =>
      let padding := py_int (inject_Z h * 0.2) in
      let x := Z.max 0 (x - padding) in
      let y := Z.max 0 (y - padding) in
      let w := Z.min (gray_width gray - x) (w + 2 * padding) in
      let h := Z.min (gray_height gray - y) (h + 2 * padding) in
      crop y (y + h) x (x + w) gray
  | None => gray
  end.

(** [cv2.cvtColor(image, cv2.COLOR_BGR2RGB)], as the face detection applies
    it: the first and the last channel change places. *)
Definition bgr_to_rgb (rows : ColorImage) : ColorImage :=
  map (map (fun p : Z * Z * Z => let '(b, g, r) := p in (r, g, b))) rows.

(** A face mesh that finds one face, all 468 points at the image centre. *)
Definition example_mesh_with_face : MediaPipe :=
  {| FaceMesh_process := fun _ _ _ => Ok [repeat (0.5%Q, 0.5%Q) 468] |}.

(** ** repositories/photo_repository.py: [convert_numpy_types] *)

(** The Python values the conversion tells apart: NumPy scalars and arrays,
    lists, dictionaries (with string keys, as the details of a result have),
    and everything else, which it returns unchanged; tuples among them. *)
Inductive np_scalar : Type :=
  | NpInteger (z : Z)
  | NpFloating (q : Q)
  | NpBool (b : bool).

(** The data of an array: an item (a 0-dimensional array) or its sub-arrays
    along the first axis. *)
#[warnings="-register-all"]
Inductive np_data : Type :=
  | NdItem (s : np_scalar)
  | NdAxis (items : list np_data).

#[warnings="-register-all"]
Inductive pyobj : Type :=
  | PyNone
  | PyBool (b : bool)
  | PyInt (z : Z)
  | PyFloat (q : Q)
  | PyStr (s : string)
  | PyList (items : list pyobj)
  | PyTuple (items : list pyobj)
  | PyDict (items : list (string * pyobj))
  | NpScalar (s : np_scalar)
  | NpArray (a : np_data).

(** [int(obj)], [float(obj)] and [bool(obj)] on a NumPy scalar, which is also
    what [tolist] does with the items of an array. *)
Definition np_item (s : np_scalar) : pyobj :=
  match s with
  | NpInteger z => PyInt z
  | NpFloating q => PyFloat q
  | NpBool b => PyBool b
  end.

(** [ndarray.tolist()]. *)
Fixpoint tolist (a : np_data) : pyobj :=
  match a with
  | NdItem s => np_item s
  | NdAxis items => PyList (map tolist items)
  end.

Fixpoint convert_numpy_types (obj : pyobj) : pyobj :=
  match obj with
  | PyDict items =>
      PyDict (map (fun kv : string * pyobj =>
                     let '(key, value) := kv in (key, convert_numpy_types value))
                  items)
  | PyList items => PyList (map convert_numpy_types items)
  | NpScalar s => np_item s
  | NpArray a => tolist a
  | _ => obj
  end.

(** No NumPy value anywhere in the object. *)
Fixpoint numpy_free (obj : pyobj) : bool :=
  match obj with
  | PyList items | PyTuple items => forallb numpy_free items
  | PyDict items => forallb (fun kv : string * pyobj => numpy_free (snd kv)) items
  | NpScalar _ | NpArray _ => false
  | _ => true
  end.

(** No tuple anywhere in the object. *)
Fixpoint tuple_free (obj : pyobj) : bool :=
  match obj with
  | PyList items => forallb tuple_free items
  | PyDict items => forallb (fun kv : string * pyobj => tuple_free (snd kv)) items
  | PyTuple _ => false
  | _ => true
  end.

(** Induction over the values, through the lists they hold. *)
Section PyobjInduction.
Variable P : pyobj -> Prop.
Hypothesis HNone : P PyNone.
Hypothesis HBool : forall b, P (PyBool b).
Hypothesis HInt : forall z, P (PyInt z).
Hypothesis HFloat : forall q, P (PyFloat q).
Hypothesis HStr : forall s, P (PyStr s).
Hypothesis HList : forall items, Forall P items -> P (PyList items).
Hypothesis HTuple : forall items, Forall P items -> P (PyTuple items).
Hypothesis HDict :
  forall items, Forall (fun kv : string * pyobj => P (snd kv)) items -> P (PyDict items).
Hypothesis HScalar : forall s, P (NpScalar s).
Hypothesis HArray : forall a, P (NpArray a).

Fixpoint pyobj_nested_ind (obj : pyobj) : P obj :=
  match obj with
  | PyNone => HNone
  | PyBool b => HBool b
  | PyInt z => HInt z
  | PyFloat q => HFloat q
  | PyStr s => HStr s
  | PyList items =>
      HList items
        ((fix all (l : list pyobj) : Forall P l :=
            match l with
            | [] => @List.Forall_nil _ P
            | o :: l' => @List.Forall_cons _ P o l' (pyobj_nested_ind o) (all l')
            end) items)
  | PyTuple items =>
      HTuple items
        ((fix all (l : list pyobj) : Forall P l :=
            match l with
            | [] => @List.Forall_nil _ P
            | o :: l' => @List.Forall_cons _ P o l' (pyobj_nested_ind o) (all l')
            end) items)
  | PyDict items =>
      HDict items
        ((fix all (l : list (string * pyobj))
            : Forall (fun kv : string * pyobj => P (snd kv)) l :=
            match l with
            | [] => @List.Forall_nil _ (fun kv : string * pyobj => P (snd kv))
            | kv :: l' =>
                @List.Forall_cons _ (fun kv : string * pyobj => P (snd kv)) kv l'
                  (match kv return P (snd kv) with (_, o) => pyobj_nested_ind o end)
                  (all l')
            end) items)
  | NpScalar s => HScalar s
  | NpArray a => HArray a
  end.

End PyobjInduction.

Section NpDataInduction.
Variable P : np_data -> Prop.
Hypothesis HItem : forall s, P (NdItem s).
Hypothesis HAxis : forall items, Forall P items -> P (NdAxis items).

Fixpoint np_data_nested_ind (a : np_data) : P a :=
  match a with
  | NdItem s => HItem s
  | NdAxis items =>
      HAxis items
        ((fix all (l : list np_data) : Forall P l :=
            match l with
            | [] => @List.Forall_nil _ P
            | o :: l' => @List.Forall_cons _ P o l' (np_data_nested_ind o) (all l')
            end) items)
  end.

End NpDataInduction.

(** * Properties *)

(** ** Comparisons *)

Lemma in_unit_interval_true (x : Q) :
  in_unit_interval x = true <-> (0 <= x)%Q /\ (x <= 1)%Q.
Proof.
  unfold in_unit_interval. rewrite andb_true_iff, !Qle_bool_iff. tauto.
Qed.

Lemma in_unit_interval_false (x : Q) :
  in_unit_interval x = false <-> ~ ((0 <= x)%Q /\ (x <= 1)%Q).
Proof.
  rewrite <- in_unit_interval_true. destruct (in_unit_interval x); intuition congruence.
Qed.

Lemma Qlt_bool_true (a b : Q) : Qlt_bool a b = true <-> (a < b)%Q.
Proof.
  unfold Qlt_bool. rewrite negb_true_iff. split; intros Hab.
  - apply Qnot_le_lt. intros Hle. apply Qle_bool_iff in Hle. congruence.
  - destruct (Qle_bool b a) eqn:E; [|reflexivity].
    apply Qle_bool_iff in E. exfalso. exact (Qlt_not_le _ _ Hab E).
Qed.

Lemma Qlt_bool_false (a b : Q) : Qlt_bool a b = false <-> (b <= a)%Q.
Proof.
  unfold Qlt_bool. rewrite negb_false_iff. apply Qle_bool_iff.
Qed.

Lemma Qge_bool_true (a b : Q) : Qge_bool a b = true <-> (b <= a)%Q.
Proof. apply Qle_bool_iff. Qed.

Lemma Qge_bool_false (a b : Q) : Qge_bool a b = false <-> (a < b)%Q.
Proof.
  unfold Qge_bool. rewrite <- Qlt_bool_true. unfold Qlt_bool.
  now rewrite negb_true_iff.
Qed.

(** Division by a numeral becomes a multiplication, which [lra] accepts. *)
Ltac const_div := unfold Qdiv; cbn [Qinv Qnum Qden].

(** ** The result record (C4) *)

(** A confidence in range gives the record with the fields as passed. *)
Lemma new_result_ok name valid c msg d :
  (0 <= c <= 1)%Q ->
  ValidationResult.new name valid c msg d = Ok (ValidationResult.mk name valid c msg d).
Proof.
  intros Hc. unfold ValidationResult.new, ValidationResult.__post_init__. simpl.
  now rewrite (proj2 (in_unit_interval_true c) Hc).
Qed.

(** C4. Constructing a [ValidationResult] with confidence [c] returns the
    record with exactly the given fields when [0 <= c <= 1], and raises
    [ValueError] otherwise; no value is clamped into the range. *)
Theorem ValidationResult_new_checks_confidence
    (name : string) (valid : bool) (c : Q) (msg : string)
    (d : option (list (string * detail))) :
  ((0 <= c)%Q /\ (c <= 1)%Q /\
   ValidationResult.new name valid c msg d = Ok (ValidationResult.mk name valid c msg d))
  \/
  (~ ((0 <= c)%Q /\ (c <= 1)%Q) /\
   ValidationResult.new name valid c msg d
   = Raise (ValueError "Confidence must be between 0.0 and 1.0")).
Proof.
  unfold ValidationResult.new, ValidationResult.__post_init__; simpl.
  destruct (in_unit_interval c) eqn:E; simpl.
  - left. apply in_unit_interval_true in E. tauto.
  - right. apply in_unit_interval_false in E. tauto.
Qed.

(** ** The photo record (C3, C10) *)

Lemma forallb_false_Exists {A : Type} (f : A -> bool) (l : list A) :
  forallb f l = false <-> Exists (fun x => f x = false) l.
Proof.
  induction l as [|a l IH]; simpl.
  - split; [discriminate | intros HE; inversion HE].
  - rewrite andb_false_iff, IH. split.
    + intros [Ha | Hl]; [now left | now right].
    + intros HE. inversion HE; subst; tauto.
Qed.

(** C3. After [update_status] the results are untouched and the status is a
    function of them: PENDING exactly when there are none, APPROVED exactly
    when there is at least one and all passed, REJECTED exactly when there is
    at least one and some result failed. *)
Theorem update_status_is_function_of_results (p : Photo.t) :
  Photo.validation_results (Photo.update_status p) = Photo.validation_results p /\
  (Photo.status (Photo.update_status p) = PENDING
   <-> Photo.validation_results p = []) /\
  (Photo.status (Photo.update_status p) = APPROVED
   <-> Photo.validation_results p <> [] /\
       Forall (fun r => ValidationResult.is_valid r = true) (Photo.validation_results p)) /\
  (Photo.status (Photo.update_status p) = REJECTED
   <-> Photo.validation_results p <> [] /\
       Exists (fun r => ValidationResult.is_valid r = false) (Photo.validation_results p)).
Proof.
  unfold Photo.update_status, Photo.is_valid.
  destruct (Photo.validation_results p) as [|r rs] eqn:Hrs.
  - simpl. rewrite Hrs. repeat split; try congruence; try discriminate.
    + intros [Hne _]. congruence.
    + intros [Hne _]. congruence.
  - destruct (forallb ValidationResult.is_valid (r :: rs)) eqn:Hall; simpl; rewrite Hrs.
    + rewrite forallb_forall in Hall.
      repeat split; try congruence; try discriminate.
      * apply List.Forall_forall. intros x Hx. apply Hall. exact Hx.
      * intros [_ HE]. rewrite <- forallb_false_Exists in HE.
        assert (forallb ValidationResult.is_valid (r :: rs) = true) as Ht
            by (rewrite forallb_forall; exact Hall).
        congruence.
    + repeat split; try congruence; try discriminate.
      * intros [_ HF]. rewrite List.Forall_forall in HF.
        assert (forallb ValidationResult.is_valid (r :: rs) = true) as Ht
            by (rewrite forallb_forall; exact HF).
        congruence.
      * apply forallb_false_Exists. exact Hall.
Qed.

(** C10. A photo without validation results has overall confidence 0: the
    mean is not computed, so nothing is divided by zero. *)
Theorem get_overall_confidence_no_results
    (image : option ndarray) (timestamp : Z) (id : option string) (status : PhotoStatus)
    (file_path : option string) (metadata : list (string * detail)) :
  Photo.get_overall_confidence (Photo.mk image timestamp id status [] file_path metadata)
  = 0%Q.
Proof. reflexivity. Qed.

(** ** The detection record (C9) *)

(** C9. With bounding box (100, 200, 300, 400) the centre is (250, 400) and
    the size 120000, whatever the other fields; without a bounding box both
    are absent. *)
Theorem face_center_and_size
    (found : bool) (c : Q) (lm : option (gmap string landmark_value)) :
  FaceDetectionResult.get_face_center
    (FaceDetectionResult.mk found c (Some (100, 200, 300, 400)) lm) = Some (250, 400) /\
  FaceDetectionResult.get_face_size
    (FaceDetectionResult.mk found c (Some (100, 200, 300, 400)) lm) = Some 120000 /\
  FaceDetectionResult.get_face_center (FaceDetectionResult.mk found c None lm) = None /\
  FaceDetectionResult.get_face_size (FaceDetectionResult.mk found c None lm) = None.
Proof. repeat split. Qed.

(** ** Thresholds (C8) *)

Lemma BaseValidator_new_checks : constructor_checks_threshold BaseValidator.new.
Proof.
  intros t. unfold BaseValidator.new.
  destruct (in_unit_interval t) eqn:E; simpl.
  - left. apply in_unit_interval_true in E. destruct E as [E0 E1].
    repeat split; trivial. exists (BaseValidator.mk t). split; reflexivity.
  - right. apply in_unit_interval_false in E. split; [exact E | reflexivity].
Qed.

(** A subclass constructor that calls [super().__init__(threshold)] and then
    stores its own attributes checks the threshold as the base class does. *)
Lemma subclass_new_checks {V : Type} `{Strategy V} (build : BaseValidator.t -> V) :
  (forall b, base_of (build b) = b) ->
  constructor_checks_threshold (fun t => b <- BaseValidator.new t ;; Ok (build b)).
Proof.
  intros Hbase t. destruct (BaseValidator_new_checks t) as [(H0 & H1 & v & Hv & Ht) | (Hn & Hr)].
  - left. repeat split; trivial. exists (build v). rewrite Hv. simpl. split; [reflexivity|].
    unfold threshold. rewrite Hbase. exact Ht.
  - right. split; [exact Hn|]. rewrite Hr. reflexivity.
Qed.

Lemma setter_checks (V : Type) `{Strategy V} : setter_checks_threshold V.
Proof.
  intros self value. unfold set_threshold, BaseValidator.set_threshold.
  destruct (in_unit_interval value) eqn:E; simpl.
  - left. apply in_unit_interval_true in E. destruct E as [E0 E1].
    repeat split; trivial. unfold threshold. rewrite base_of_with_base. reflexivity.
  - right. apply in_unit_interval_false in E. split; [exact E|].
    rewrite with_base_base_of. reflexivity.
Qed.

(** C8. The constructor of the base class and of each of the nine check
    strategies, whatever the other arguments, and the inherited threshold
    setter on every strategy accept a threshold [t] exactly when
    [0 <= t <= 1]; they raise [ValueError] otherwise, the setter leaving the
    object unchanged; an accepted threshold is stored as given. *)
Theorem threshold_is_range_checked :
  constructor_checks_threshold BaseValidator.new /\
  (forall mn mx, constructor_checks_threshold (fun t => BrightnessValidator.new t mn mx)) /\
  (forall mv, constructor_checks_threshold (fun t => SharpnessValidator.new t mv)) /\
  (forall ct mn mx,
      constructor_checks_threshold (fun t => FacePositionValidator.new t ct mn mx)) /\
  (forall mo, constructor_checks_threshold (fun t => FacialExpressionValidator.new t mo)) /\
  (forall me, constructor_checks_threshold (fun t => EyeVisibilityValidator.new t me)) /\
  (forall bt mr, constructor_checks_threshold (fun t => ReflectionValidator.new t bt mr)) /\
  (forall dt mr, constructor_checks_threshold (fun t => ShadowValidator.new t dt mr)) /\
  constructor_checks_threshold HeadwearValidator.new /\
  constructor_checks_threshold BackgroundValidator.new /\
  (forall (V : Type) (S : Strategy V), setter_checks_threshold V).
Proof.
  repeat split.
  - apply BaseValidator_new_checks.
  - intros mn mx.
    apply (subclass_new_checks (fun b => BrightnessValidator.mk b mn mx)). reflexivity.
  - intros mv. apply (subclass_new_checks (fun b => SharpnessValidator.mk b mv)). reflexivity.
  - intros ct mn mx.
    apply (subclass_new_checks (fun b => FacePositionValidator.mk b ct mn mx)). reflexivity.
  - intros mo.
    apply (subclass_new_checks (fun b => FacialExpressionValidator.mk b mo)). reflexivity.
  - intros me.
    apply (subclass_new_checks (fun b => EyeVisibilityValidator.mk b me)). reflexivity.
  - intros bt mr.
    apply (subclass_new_checks (fun b => ReflectionValidator.mk b bt mr)). reflexivity.
  - intros dt mr.
    apply (subclass_new_checks (fun b => ShadowValidator.mk b dt mr)). reflexivity.
  - apply (subclass_new_checks HeadwearValidator.mk). reflexivity.
  - apply (subclass_new_checks BackgroundValidator.mk). reflexivity.
  - intros V S. apply setter_checks.
Qed.

(** ** A run of the service (C1, C5) *)

Section Run.
Context {mp : MediaPipe}.
Variable self : ValidationService.t.
Variable fd : FaceDetectionResult.t.

Lemma checks_run_app (l1 l2 : list LogRecord) :
  checks_run (l1 ++ l2) = checks_run l1 ++ checks_run l2.
Proof. unfold checks_run. apply omap_app. Qed.

Lemma check_errors_app (l1 l2 : list LogRecord) :
  check_errors (l1 ++ l2) = check_errors l1 ++ check_errors l2.
Proof. unfold check_errors. apply List.filter_app. Qed.

(** Notifying the observers reports on no check. *)
Lemma notify_reports_nothing (event : Event) :
  checks_run (ValidationService._notify_observers self event) = [] /\
  check_errors (ValidationService._notify_observers self event) = [].
Proof.
  unfold ValidationService._notify_observers.
  induction (ValidationService._observers self) as [|o os [IH1 IH2]]; simpl; [easy|].
  rewrite checks_run_app, check_errors_app, IH1, IH2.
  destruct (Observer.update o event); simpl; easy.
Qed.

(** The loop of [validate_photo], from any turn on. *)
Lemma run_validators_spec (checks : list IValidator.t) :
  forall (i : nat) (photo : Photo.t) (log : list LogRecord),
  exists photo' log',
    fold_left (ValidationService.run_validator self fd)
              (combine (seq i (length checks)) checks) (photo, log) = (photo', log') /\
    photo' = Photo.with_results photo
               (Photo.validation_results photo ++ returned_results fd checks photo) /\
    checks_run log' = checks_run log ++ map IValidator.get_name checks /\
    (length (returned_results fd checks photo) + length (check_errors log')
     = length checks + length (check_errors log))%nat.
Proof.
  induction checks as [|check checks IH]; intros i photo log.
  - exists photo, log. simpl. rewrite !app_nil_r. repeat split. now destruct photo.
  - simpl.
    destruct (notify_reports_nothing
                (validation_progress_event (IValidator.get_name check) (i + 1)
                   (length (ValidationService._validators self)))) as [Hp1 Hp2].
    destruct (IValidator.validate check photo (Some fd)) as [r|e] eqn:Hv.
    + destruct (notify_reports_nothing
                  (validation_result_event (IValidator.get_name check) r)) as [Hr1 Hr2].
      edestruct IH as (photo' & log' & Hfold & Hphoto & Hrun & Hcount).
      exists photo', log'. split; [exact Hfold|].
      rewrite Hrun, Hphoto. clear Hfold Hphoto Hrun.
      rewrite !checks_run_app, Hp1, Hr1 in *. rewrite !check_errors_app, Hp2, Hr2 in Hcount.
      simpl in *. rewrite !app_nil_r in *. repeat split.
      * unfold Photo.add_validation_result, Photo.with_results. simpl.
        now rewrite <- app_assoc.
      * now rewrite <- app_assoc.
      * lia.
    + edestruct IH as (photo' & log' & Hfold & Hphoto & Hrun & Hcount).
      exists photo', log'. split; [exact Hfold|].
      rewrite Hrun, Hphoto. clear Hfold Hphoto Hrun.
      rewrite !checks_run_app, Hp1 in *. rewrite !check_errors_app, Hp2 in Hcount.
      simpl in *. rewrite !app_nil_r in *. repeat split.
      * now rewrite <- app_assoc.
      * rewrite !length_app in Hcount. simpl in Hcount. lia.
Qed.

(** When no check raises, every check contributes a result. *)
Lemma returned_results_all (checks : list IValidator.t) :
  (forall check, In check checks ->
     forall photo, returns (IValidator.validate check photo (Some fd))) ->
  forall photo, length (returned_results fd checks photo) = length checks.
Proof.
  induction checks as [|check checks IH]; intros Hall photo; simpl; [reflexivity|].
  destruct (Hall check (or_introl eq_refl) photo) as [r Hr]. rewrite Hr. simpl.
  f_equal. apply IH. intros c Hc. apply Hall. now right.
Qed.

Lemma returned_results_le (checks : list IValidator.t) :
  forall photo, (length (returned_results fd checks photo) <= length checks)%nat.
Proof.
  induction checks as [|check checks IH]; intros photo; simpl; [lia|].
  destruct (IValidator.validate check photo (Some fd)); simpl.
  - specialize (IH (Photo.add_validation_result photo a)). lia.
  - specialize (IH photo). lia.
Qed.

End Run.

Lemma update_status_keeps_results (p : Photo.t) :
  Photo.validation_results (Photo.update_status p) = Photo.validation_results p.
Proof.
  unfold Photo.update_status.
  destruct (Photo.is_valid p); [reflexivity|].
  destruct (Photo.validation_results p) eqn:E; simpl; now rewrite E.
Qed.

(** A run whose face detection returns: the photo it returns and what its log
    reports. *)
Lemma validate_photo_run {mp : MediaPipe}
    (self : ValidationService.t) (photo : Photo.t) (fd : FaceDetectionResult.t) :
  FaceDetectionModel.detect_face (ValidationService._face_detection_model self)
                                 (Photo.image_data photo) = Ok fd ->
  exists log photo',
    ValidationService.validate_photo self photo = (log, Ok photo') /\
    Photo.validation_results photo'
    = Photo.validation_results photo
      ++ returned_results fd (ValidationService._validators self) photo /\
    checks_run log = map IValidator.get_name (ValidationService._validators self) /\
    (length (returned_results fd (ValidationService._validators self) photo)
     + length (check_errors log)
     = length (ValidationService._validators self))%nat.
Proof.
  intros Hdetect. unfold ValidationService.validate_photo. rewrite Hdetect.
  set (log0 := if negb (FaceDetectionResult.face_found fd) then _ else _).
  destruct (run_validators_spec self fd (ValidationService._validators self) 0 photo log0)
    as (photo1 & log1 & Hfold & Hphoto & Hrun & Hcount).
  rewrite Hfold. eexists _, _. split; [reflexivity|].
  assert (checks_run log0 = [] /\ check_errors log0 = []) as [H01 H02].
  { destruct (notify_reports_nothing self (face_detection_event "Detecting face..."))
      as [Hn1 Hn2].
    subst log0. destruct (negb (FaceDetectionResult.face_found fd));
      rewrite ?checks_run_app, ?check_errors_app; simpl; rewrite Hn1, Hn2; easy. }
  destruct (notify_reports_nothing self
              (validation_complete_event (Photo.update_status photo1)
                 (Photo.is_valid (Photo.update_status photo1))
                 (Photo.get_overall_confidence (Photo.update_status photo1))))
    as [Hc1 Hc2].
  rewrite !checks_run_app, !check_errors_app, Hc1, Hc2, Hrun, H01. simpl.
  rewrite !app_nil_r. rewrite H02 in Hcount. simpl in Hcount.
  repeat split.
  - rewrite update_status_keeps_results, Hphoto. reflexivity.
  - lia.
Qed.

(** C1, as the code has it. When face detection returns, [validate_photo]
    returns the photo with, appended to its earlier results and in
    registration order, the result of every registered check whose evaluation
    returns, and nothing for a check whose evaluation raises: that exception
    is caught and logged, and the run goes on, so that the log reports on each
    of the N registered checks in order and the appended results and the
    logged check errors add up to N.  When no check raises, exactly N results
    are appended. *)
Theorem validate_photo_appends_returned_results {mp : MediaPipe}
    (self : ValidationService.t) (photo : Photo.t) (fd : FaceDetectionResult.t) :
  FaceDetectionModel.detect_face (ValidationService._face_detection_model self)
                                 (Photo.image_data photo) = Ok fd ->
  exists log photo',
    ValidationService.validate_photo self photo = (log, Ok photo') /\
    Photo.validation_results photo'
    = Photo.validation_results photo
      ++ returned_results fd (ValidationService._validators self) photo /\
    checks_run log = map IValidator.get_name (ValidationService._validators self) /\
    (length (returned_results fd (ValidationService._validators self) photo)
     + length (check_errors log)
     = length (ValidationService._validators self))%nat /\
    ((forall check, In check (ValidationService._validators self) ->
        forall p, returns (IValidator.validate check p (Some fd))) ->
     length (returned_results fd (ValidationService._validators self) photo)
     = length (ValidationService._validators self)).
Proof.
  intros Hdetect.
  destruct (validate_photo_run self photo fd Hdetect)
    as (log & photo' & Hrun & Hresults & Hlog & Hcount).
  exists log, photo'. repeat split; trivial.
  intros Hall. now apply returned_results_all.
Qed.

Lemma validate_photo_appends_returned_results_witness :
  exists log photo',
    @ValidationService.validate_photo example_mesh example_service example_photo
    = (log, Ok photo') /\
    Photo.validation_results photo'
    = Photo.validation_results example_photo
      ++ returned_results no_face (ValidationService._validators example_service)
                          example_photo /\
    checks_run log
    = map IValidator.get_name (ValidationService._validators example_service) /\
    (length (returned_results no_face (ValidationService._validators example_service)
                              example_photo)
     + length (check_errors log)
     = length (ValidationService._validators example_service))%nat /\
    ((forall check, In check (ValidationService._validators example_service) ->
        forall p, returns (IValidator.validate check p (Some no_face))) ->
     length (returned_results no_face (ValidationService._validators example_service)
                              example_photo)
     = length (ValidationService._validators example_service)).
Proof.
  exact (@validate_photo_appends_returned_results example_mesh example_service
           example_photo no_face eq_refl).
Defined.

(** C1 as stated fails: of three registered checks the second raises, the run
    returns, and the photo, whose image is not empty, has two results. *)
Lemma raising_check_appends_no_result :
  exists log photo',
    @ValidationService.validate_photo example_mesh example_service example_photo
    = (log, Ok photo') /\
    BaseValidator._validate_image_data example_photo = Ok tt /\
    Photo.validation_results example_photo = [] /\
    length (ValidationService._validators example_service) = 3%nat /\
    map ValidationResult.validator_name (Photo.validation_results photo')
    = ["PassingCheck"; "PassingCheck"] /\
    check_errors log = [error_in_validator "FailingCheck" (OtherException "RuntimeError")].
Proof.
  eexists _, _. split; [vm_compute; reflexivity|]. repeat split.
Qed.

Section DefaultChecks.
Context {cv : OpenCV} {mp : MediaPipe}.

(** The seven validators of the default registration, with the thresholds and
    parameters of [ValidatorConfig]. *)
Lemma create_default_validators_eq :
  ValidationService._create_default_validators
  = Ok [ BrightnessValidator.as_IValidator
           (BrightnessValidator.mk (BaseValidator.mk 0.5) 50 230);
         SharpnessValidator.as_IValidator
           (SharpnessValidator.mk (BaseValidator.mk 0.5) 50);
         FacePositionValidator.as_IValidator
           (FacePositionValidator.mk (BaseValidator.mk 0.5) 0.30 0.05 0.70);
         FacialExpressionValidator.as_IValidator
           (FacialExpressionValidator.mk (BaseValidator.mk 0.4) 0.5);
         EyeVisibilityValidator.as_IValidator
           (EyeVisibilityValidator.mk (BaseValidator.mk 0.4) 0.12);
         ReflectionValidator.as_IValidator
           (ReflectionValidator.mk (BaseValidator.mk 0.5) 250 0.12);
         ShadowValidator.as_IValidator
           (ShadowValidator.mk (BaseValidator.mk 0.5) 35 0.20) ].
Proof. reflexivity. Qed.

(** C5, as the code has it. Constructed without a check list, the service
    registers seven checks: brightness, sharpness, face position, expression,
    eye visibility, reflection, shadow, in this order; headwear and background
    are not among them.  A run of a service with this registration whose face
    detection returns reports on these seven, in this order. *)
Theorem default_checks_are_seven :
  exists checks,
    ValidationService._create_default_validators = Ok checks /\
    map IValidator.get_name checks = default_check_names /\
    (forall model,
       exists service,
         ValidationService.new model None = ([info_initialized 7], Ok service) /\
         ValidationService._validators service = checks /\
         ValidationService._observers service = []) /\
    (forall service photo fd,
       ValidationService._validators service = checks ->
       FaceDetectionModel.detect_face (ValidationService._face_detection_model service)
                                      (Photo.image_data photo) = Ok fd ->
       exists log photo',
         ValidationService.validate_photo service photo = (log, Ok photo') /\
         checks_run log = default_check_names).
Proof.
  eexists. split; [apply create_default_validators_eq|]. split; [reflexivity|]. split.
  - intros model. unfold ValidationService.new. rewrite create_default_validators_eq.
    eexists. split; [reflexivity|]. split; reflexivity.
  - intros service photo fd Hchecks Hdetect.
    destruct (validate_photo_run service photo fd Hdetect)
      as (log & photo' & Hrun & _ & Hlog & _).
    exists log, photo'. split; [exact Hrun|]. rewrite Hlog, Hchecks. reflexivity.
Qed.

End DefaultChecks.

(** C5 as stated fails: the default registration has seven checks, and the
    headwear and the background check are not registered. *)
Lemma default_checks_lack_headwear_and_background :
  exists checks,
    @ValidationService._create_default_validators example_cv = Ok checks /\
    length checks = 7%nat /\
    existsb (String.eqb HeadwearValidator.get_name) (map IValidator.get_name checks) = false /\
    existsb (String.eqb BackgroundValidator.get_name) (map IValidator.get_name checks) = false.
Proof.
  eexists. split; [apply create_default_validators_eq|]. repeat split.
Qed.

(** ** Checks that need a face (C2) *)

Lemma validate_image_data_ok (photo : Photo.t) (img : ndarray) :
  Photo.image_data photo = Some img -> ndarray_size img <> 0 ->
  BaseValidator._validate_image_data photo = Ok tt.
Proof.
  intros Himg Hsize. unfold BaseValidator._validate_image_data. rewrite Himg.
  destruct (ndarray_size img =? 0) eqn:E; [|reflexivity].
  apply Z.eqb_eq in E. contradiction.
Qed.

Lemma face_box_absent (fd : option FaceDetectionResult.t) :
  face_present fd = false -> face_box fd = None.
Proof.
  destruct fd as [fd|]; simpl; [|reflexivity]. now intros ->.
Qed.

(** C2, as the code has it. On a photo with non-empty image data and a
    detection result that is missing or reports no face, the face position,
    expression, eye visibility and headwear checks return a failed result with
    confidence 0 and a message that no face was detected ("Geen gezicht
    gedetecteerd"); the background check returns a passed result with
    confidence 0.5 and the message that the background could not be
    analysed.  None of them raises. *)
Theorem checks_without_face {cv : OpenCV}
    (photo : Photo.t) (img : ndarray) (fd : option FaceDetectionResult.t) :
  Photo.image_data photo = Some img ->
  ndarray_size img <> 0 ->
  face_present fd = false ->
  (forall v : FacePositionValidator.t,
     FacePositionValidator.validate v photo fd
     = Ok (ValidationResult.mk "FacePositionValidator" false 0
             "Geen gezicht gedetecteerd. Zorg dat uw gezicht zichtbaar is"
             (Some [("error", DStr "no_face_detected")]))) /\
  (forall v : FacialExpressionValidator.t,
     FacialExpressionValidator.validate v photo fd
     = Ok (ValidationResult.mk "FacialExpressionValidator" false 0
             "Geen gezicht gedetecteerd" (Some [("error", DStr "no_face_detected")]))) /\
  (forall v : EyeVisibilityValidator.t,
     EyeVisibilityValidator.validate v photo fd
     = Ok (ValidationResult.mk "EyeVisibilityValidator" false 0
             "Geen gezicht gedetecteerd" (Some [("error", DStr "no_face_detected")]))) /\
  (forall v : HeadwearValidator.t,
     HeadwearValidator.validate v photo fd
     = Ok (ValidationResult.mk "HeadwearValidator" false 0
             "Geen gezicht gedetecteerd" (Some [("error", DStr "no_face_detected")]))) /\
  (forall v : BackgroundValidator.t,
     BackgroundValidator.validate v photo fd
     = Ok (ValidationResult.mk "BackgroundValidator" true 0.5
             "Achtergrond kon niet worden geanalyseerd"
             (Some [("error", DStr "no_face_for_reference")]))).
Proof.
  intros Himg Hsize Hface.
  pose proof (validate_image_data_ok photo img Himg Hsize) as Hvalid.
  pose proof (face_box_absent fd Hface) as Hbox.
  repeat split; intros v.
  - unfold FacePositionValidator.validate. rewrite Hvalid. simpl.
    destruct fd as [fd|]; [|reflexivity]. simpl in Hface. now rewrite Hface.
  - unfold FacialExpressionValidator.validate. rewrite Hvalid. simpl.
    destruct fd as [fd|]; [|reflexivity]. simpl in Hface. now rewrite Hface.
  - unfold EyeVisibilityValidator.validate. rewrite Hvalid. simpl.
    destruct fd as [fd|]; [|reflexivity]. simpl in Hface. now rewrite Hface.
  - unfold HeadwearValidator.validate. rewrite Hvalid, Hbox. reflexivity.
  - unfold BackgroundValidator.validate. rewrite Hvalid, Hbox. reflexivity.
Qed.

Lemma checks_without_face_witness :
  (forall v : FacePositionValidator.t,
     FacePositionValidator.validate v example_photo (Some no_face)
     = Ok (ValidationResult.mk "FacePositionValidator" false 0
             "Geen gezicht gedetecteerd. Zorg dat uw gezicht zichtbaar is"
             (Some [("error", DStr "no_face_detected")]))) /\
  (forall v : FacialExpressionValidator.t,
     FacialExpressionValidator.validate v example_photo (Some no_face)
     = Ok (ValidationResult.mk "FacialExpressionValidator" false 0
             "Geen gezicht gedetecteerd" (Some [("error", DStr "no_face_detected")]))) /\
  (forall v : EyeVisibilityValidator.t,
     @EyeVisibilityValidator.validate example_cv v example_photo (Some no_face)
     = Ok (ValidationResult.mk "EyeVisibilityValidator" false 0
             "Geen gezicht gedetecteerd" (Some [("error", DStr "no_face_detected")]))) /\
  (forall v : HeadwearValidator.t,
     @HeadwearValidator.validate example_cv v example_photo (Some no_face)
     = Ok (ValidationResult.mk "HeadwearValidator" false 0
             "Geen gezicht gedetecteerd" (Some [("error", DStr "no_face_detected")]))) /\
  (forall v : BackgroundValidator.t,
     @BackgroundValidator.validate example_cv v example_photo (Some no_face)
     = Ok (ValidationResult.mk "BackgroundValidator" true 0.5
             "Achtergrond kon niet worden geanalyseerd"
             (Some [("error", DStr "no_face_for_reference")]))).
Proof.
  apply (@checks_without_face example_cv example_photo
           (Color (solid_color 2 2 140)) (Some no_face)).
  - reflexivity.
  - discriminate.
  - reflexivity.
Defined.

(** C2 as stated fails for the background check: without a face it passes,
    with confidence 0.5. *)
Lemma background_check_passes_without_face :
  exists v r,
    BackgroundValidator.default = Ok v /\
    @BackgroundValidator.validate example_cv v example_photo (Some no_face) = Ok r /\
    FaceDetectionResult.face_found no_face = false /\
    ValidationResult.is_valid r = true /\
    ValidationResult.confidence r = 0.5%Q /\
    ValidationResult.message r = "Achtergrond kon niet worden geanalyseerd".
Proof.
  eexists _, _. split; [reflexivity|]. split; [reflexivity|]. repeat split.
Qed.

(** ** The eye visibility check (C6) *)

Lemma eye_score_range (ear : Q) :
  (0 <= EyeVisibilityValidator.eye_score ear 0.22 0.25 <= 1)%Q.
Proof.
  unfold EyeVisibilityValidator.eye_score.
  destruct (Qge_bool ear 0.25) eqn:E1; [lra|].
  apply Qge_bool_false in E1.
  destruct (Qge_bool ear 0.22) eqn:E2.
  - apply Qge_bool_true in E2.
    assert ((ear - 0.22) / (0.25 - 0.22) == (ear - 0.22) * (100 # 3))%Q as -> by field.
    lra.
  - apply Qge_bool_false in E2.
    assert (ear / 0.22 * 0.5 == ear * (50 # 22))%Q as -> by field.
    destruct (Q.max_spec 0 (ear * (50 # 22))) as [[? ->]|[? ->]]; lra.
Qed.

Lemma eye_score_open (ear : Q) :
  (0.25 <= ear)%Q -> EyeVisibilityValidator.eye_score ear 0.22 0.25 = 1%Q.
Proof.
  intros H. unfold EyeVisibilityValidator.eye_score.
  now rewrite (proj2 (Qge_bool_true ear 0.25) H).
Qed.

Section Eye.
Context {cv : OpenCV}.

Lemma check_eye_coverage_low_glare photo img fd landmarks eye :
  Photo.image_data photo = Some img ->
  FaceDetectionResult.landmarks fd = Some landmarks ->
  low_glare img landmarks eye ->
  EyeVisibilityValidator._check_eye_coverage photo fd eye = Ok 1%Q.
Proof.
  intros Himg Hlm (x & y & w & h & Hbox & Hsize & Hfrac).
  unfold EyeVisibilityValidator._check_eye_coverage, has_key, landmark_box.
  rewrite Hlm, Hbox, Himg. simpl.
  destruct (ndarray_size (ndarray_crop y (y + h) x (x + w) img) =? 0) eqn:E.
  { apply Z.eqb_eq in E. contradiction. }
  unfold eye_region_gray in Hfrac.
  set (g := match ndarray_crop y (y + h) x (x + w) img with
            | Gray rows => rows | Color rows => cvtColor_BGR2GRAY rows end) in *.
  set (ratio := (inject_Z (count_gt 240 g) / inject_Z (gray_size g))%Q) in *.
  assert (Hratio : (ratio <= 0.15)%Q) by exact Hfrac.
  clearbody ratio.
  assert (Qgt_bool ratio 0.3 = false) as ->.
  { apply Qlt_bool_false. lra. }
  assert (Qgt_bool ratio 0.15 = false) as ->.
  { apply Qlt_bool_false. exact Hratio. }
  reflexivity.
Qed.

Lemma check_eye_coverage_returns photo img fd landmarks eye :
  Photo.image_data photo = Some img ->
  FaceDetectionResult.landmarks fd = Some landmarks ->
  region_is_box landmarks eye ->
  exists c, EyeVisibilityValidator._check_eye_coverage photo fd eye = Ok c /\
            (0.5 <= c <= 1)%Q.
Proof.
  intros Himg Hlm Hbox.
  unfold EyeVisibilityValidator._check_eye_coverage, has_key, landmark_box.
  rewrite Hlm, Himg.
  destruct (landmarks !! eye_key eye "_region") as [[q|[[[x y] w] h]]|] eqn:E.
  - exfalso. exact (Hbox q E).
  - simpl.
    repeat match goal with
           | |- context [if ?b then _ else _] => destruct b
           end; eexists; (split; [reflexivity | lra]).
  - eexists; split; [reflexivity | lra].
Qed.

(** C6. For the eye visibility check on a photo with non-empty image data, a
    found face and non-empty landmarks: when both aspect ratios are at least
    0.25 and each eye region holds pixels of which at most 15% are bright, the
    check returns a passed result, for every threshold in [0, 1]; with a
    threshold of at most 0.85, as the default 0.4 is, it passes whatever the
    coverage of the eye regions; when either aspect ratio is below 0.22 the
    check returns a failed result, whatever the threshold and the coverage
    scores. *)
Theorem eye_visibility_decision
    (self : EyeVisibilityValidator.t) (photo : Photo.t) (img : ndarray)
    (fd : FaceDetectionResult.t) (landmarks : gmap string landmark_value)
    (left_ear right_ear : Q) :
  Photo.image_data photo = Some img ->
  ndarray_size img <> 0 ->
  FaceDetectionResult.face_found fd = true ->
  FaceDetectionResult.landmarks fd = Some landmarks ->
  landmarks <> ∅ ->
  EyeVisibilityValidator._calculate_eye_aspect_ratio landmarks "left" = Ok left_ear ->
  EyeVisibilityValidator._calculate_eye_aspect_ratio landmarks "right" = Ok right_ear ->
  ((0 <= threshold self <= 1)%Q ->
   (0.25 <= left_ear)%Q -> (0.25 <= right_ear)%Q ->
   low_glare img landmarks "left" -> low_glare img landmarks "right" ->
   exists r, EyeVisibilityValidator.validate self photo (Some fd) = Ok r /\
             ValidationResult.is_valid r = true) /\
  ((threshold self <= 0.85)%Q ->
   (0.25 <= left_ear)%Q -> (0.25 <= right_ear)%Q ->
   region_is_box landmarks "left" -> region_is_box landmarks "right" ->
   exists r, EyeVisibilityValidator.validate self photo (Some fd) = Ok r /\
             ValidationResult.is_valid r = true) /\
  ((left_ear < 0.22)%Q \/ (right_ear < 0.22)%Q ->
   region_is_box landmarks "left" -> region_is_box landmarks "right" ->
   exists r, EyeVisibilityValidator.validate self photo (Some fd) = Ok r /\
             ValidationResult.is_valid r = false).
Proof.
  intros Himg Hsize Hfound Hlm Hne Hl Hr.
  assert (Hrun : forall lc rc,
    EyeVisibilityValidator._check_eye_coverage photo fd "left" = Ok lc ->
    EyeVisibilityValidator._check_eye_coverage photo fd "right" = Ok rc ->
    (0.5 <= lc <= 1)%Q -> (0.5 <= rc <= 1)%Q ->
    exists r, EyeVisibilityValidator.validate self photo (Some fd) = Ok r /\
      ValidationResult.is_valid r
      = Qge_bool ((EyeVisibilityValidator.eye_score left_ear 0.22 0.25
                   + EyeVisibilityValidator.eye_score right_ear 0.22 0.25) / 2 * 0.7
                  + (lc + rc) / 2 * 0.3)%Q
                 (threshold self)
        && Qge_bool left_ear 0.22 && Qge_bool right_ear 0.22).
  { intros lc rc Hlc Hrc Blc Brc. unfold EyeVisibilityValidator.validate.
    rewrite (validate_image_data_ok photo img Himg Hsize). simpl.
    rewrite Hfound. simpl. unfold nonempty_landmarks. rewrite Hlm.
    rewrite bool_decide_eq_false_2 by exact Hne. rewrite Hl, Hr. simpl.
    rewrite Hlc, Hrc. simpl. unfold BaseValidator._create_result.
    rewrite new_result_ok.
    - eexists. split; [reflexivity|]. reflexivity.
    - pose proof (eye_score_range left_ear). pose proof (eye_score_range right_ear).
      const_div. lra. }
  split; [|split].
  - intros Hthr Hlo Hro Hgl Hgr.
    destruct (Hrun 1%Q 1%Q) as (r & Hv & Hvalid).
    + exact (check_eye_coverage_low_glare photo img fd landmarks "left" Himg Hlm Hgl).
    + exact (check_eye_coverage_low_glare photo img fd landmarks "right" Himg Hlm Hgr).
    + lra.
    + lra.
    + exists r. split; [exact Hv|]. rewrite Hvalid.
      rewrite !eye_score_open by assumption.
      rewrite (proj2 (Qge_bool_true left_ear 0.22)) by lra.
      rewrite (proj2 (Qge_bool_true right_ear 0.22)) by lra.
      rewrite !andb_true_r. apply Qge_bool_true.
      const_div. lra.
  - intros Hthr Hlo Hro Hbl Hbr.
    destruct (check_eye_coverage_returns photo img fd landmarks "left" Himg Hlm Hbl)
      as (lc & Hlc & Blc).
    destruct (check_eye_coverage_returns photo img fd landmarks "right" Himg Hlm Hbr)
      as (rc & Hrc & Brc).
    destruct (Hrun lc rc Hlc Hrc Blc Brc) as (r & Hv & Hvalid).
    exists r. split; [exact Hv|]. rewrite Hvalid.
    rewrite !eye_score_open by assumption.
    rewrite (proj2 (Qge_bool_true left_ear 0.22)) by lra.
    rewrite (proj2 (Qge_bool_true right_ear 0.22)) by lra.
    rewrite !andb_true_r. apply Qge_bool_true.
    const_div. lra.
  - intros Hclosed Hbl Hbr.
    destruct (check_eye_coverage_returns photo img fd landmarks "left" Himg Hlm Hbl)
      as (lc & Hlc & Blc).
    destruct (check_eye_coverage_returns photo img fd landmarks "right" Himg Hlm Hbr)
      as (rc & Hrc & Brc).
    destruct (Hrun lc rc Hlc Hrc Blc Brc) as (r & Hv & Hvalid).
    exists r. split; [exact Hv|]. rewrite Hvalid.
    destruct Hclosed as [Hc | Hc].
    + rewrite (proj2 (Qge_bool_false left_ear 0.22) Hc).
      now rewrite andb_false_r.
    + rewrite (proj2 (Qge_bool_false right_ear 0.22) Hc).
      now rewrite andb_false_r.
Qed.
End Eye.

Lemma example_landmarks_nonempty (ear : Q) : example_landmarks ear <> ∅.
Proof. unfold example_landmarks. apply insert_non_empty. Qed.

Lemma example_low_glare (ear : Q) (eye : string) (x : Z) :
  example_landmarks ear !! eye_key eye "_region" = Some (LBox (x, 0, 2, 2)) ->
  x = 0 \/ x = 4 ->
  @low_glare example_cv (Gray (solid 4 8 100)) (example_landmarks ear) eye.
Proof.
  intros Hbox Hx. exists x, 0, 2, 2. split; [exact Hbox|].
  destruct Hx as [-> | ->]; (split; [discriminate | apply Qle_bool_iff; reflexivity]).
Qed.

Lemma eye_visibility_decision_witness :
  (exists r,
     @EyeVisibilityValidator.validate example_cv example_eye_validator
       example_gray_photo (Some (example_face 0.3)) = Ok r /\
     ValidationResult.is_valid r = true) /\
  (exists r,
     @EyeVisibilityValidator.validate example_cv example_eye_validator
       example_gray_photo (Some (example_face 0.2)) = Ok r /\
     ValidationResult.is_valid r = false).
Proof.
  split.
  - apply (proj1 (@eye_visibility_decision example_cv example_eye_validator
                    example_gray_photo (Gray (solid 4 8 100)) (example_face 0.3)
                    (example_landmarks 0.3) 0.3 0.3
                    eq_refl ltac:(discriminate) eq_refl eq_refl
                    (example_landmarks_nonempty 0.3) eq_refl eq_refl)).
    + split; apply Qle_bool_iff; reflexivity.
    + apply Qle_bool_iff; reflexivity.
    + apply Qle_bool_iff; reflexivity.
    + apply (example_low_glare 0.3 "left" 0); [reflexivity | now left].
    + apply (example_low_glare 0.3 "right" 4); [reflexivity | now right].
  - apply (proj2 (proj2 (@eye_visibility_decision example_cv example_eye_validator
                    example_gray_photo (Gray (solid 4 8 100)) (example_face 0.2)
                    (example_landmarks 0.2) 0.2 0.2
                    eq_refl ltac:(discriminate) eq_refl eq_refl
                    (example_landmarks_nonempty 0.2) eq_refl eq_refl))).
    + left. reflexivity.
    + intros q. discriminate.
    + intros q. discriminate.
Defined.

(** ** The brightness check (C7) *)

Lemma fold_add_shift (l : list Z) (a : Z) : fold_left Z.add l a = a + Zsum l.
Proof.
  unfold Zsum. revert a. induction l as [|x l IH]; intros a; simpl; [lia|].
  rewrite (IH (a + x)), (IH (0 + x)). lia.
Qed.

Lemma Zsum_cons (x : Z) (l : list Z) : Zsum (x :: l) = x + Zsum l.
Proof. unfold Zsum at 1. simpl. apply fold_add_shift. Qed.

Lemma Zsum_app (l1 l2 : list Z) : Zsum (l1 ++ l2) = Zsum l1 + Zsum l2.
Proof.
  induction l1 as [|x l1 IH]; simpl; [reflexivity|].
  rewrite !Zsum_cons, IH. lia.
Qed.

Lemma Zsum_repeat (v : Z) (n : nat) : Zsum (repeat v n) = Z.of_nat n * v.
Proof.
  induction n as [|n IH]; [reflexivity|].
  cbn [repeat]. rewrite Zsum_cons, IH. lia.
Qed.

Lemma fold_Qplus_shift (l : list Q) (a : Q) : (fold_left Qplus l a == a + py_sum l)%Q.
Proof.
  unfold py_sum. revert a. induction l as [|x l IH]; intros a; simpl; [ring|].
  rewrite (IH (a + x)%Q), (IH (0 + x)%Q). ring.
Qed.

Lemma py_sum_cons (x : Q) (l : list Q) : (py_sum (x :: l) == x + py_sum l)%Q.
Proof. unfold py_sum at 1. simpl. rewrite fold_Qplus_shift. ring. Qed.

Lemma py_sum_scaled (T : Q) (l : list Z) :
  (py_sum (map (fun c => inject_Z c / T) l) == inject_Z (Zsum l) / T)%Q.
Proof.
  induction l as [|c l IH]; simpl.
  - unfold py_sum, Zsum, Qdiv. simpl. ring.
  - rewrite py_sum_cons, IH, Zsum_cons, inject_Z_plus. unfold Qdiv. ring.
Qed.

Lemma calcHist_bins (g : GrayImage) : calcHist g = map (hist_bin (concat g)) (seq 0 256).
Proof. reflexivity. Qed.

Lemma Zsum_map_plus {A} (f g : A -> Z) (l : list A) :
  Zsum (map (fun k => f k + g k) l) = Zsum (map f l) + Zsum (map g l).
Proof.
  induction l as [|x l IH]; simpl; [reflexivity|].
  rewrite !Zsum_cons, IH. lia.
Qed.

Lemma Zsum_indicator (v : Z) (a n : nat) :
  Zsum (map (fun k => if Z.of_nat k =? v then 1 else 0) (seq a n))
  = if (Z.of_nat a <=? v) && (v <? Z.of_nat (a + n)) then 1 else 0.
Proof.
  revert a. induction n as [|n IH]; intros a.
  - simpl. destruct (Z.of_nat a <=? v) eqn:E1; [|reflexivity].
    destruct (v <? Z.of_nat (a + 0)) eqn:E2; [|reflexivity].
    apply Z.leb_le in E1. apply Z.ltb_lt in E2. lia.
  - cbn [seq map]. rewrite Zsum_cons, IH.
    destruct (Z.of_nat a =? v) eqn:E0;
      destruct (Z.of_nat (S a) <=? v) eqn:E1;
      destruct (v <? Z.of_nat (S a + n)) eqn:E2;
      destruct (Z.of_nat a <=? v) eqn:E3;
      destruct (v <? Z.of_nat (a + S n)) eqn:E4; simpl; try reflexivity;
      rewrite ?Z.eqb_eq, ?Z.eqb_neq, ?Z.leb_le, ?Z.leb_gt, ?Z.ltb_lt, ?Z.ltb_ge in *; lia.
Qed.

Lemma hist_range_sum (flat : list Z) (a n : nat) :
  Zsum (map (hist_bin flat) (seq a n))
  = Z.of_nat (length (List.filter
                        (fun v => (Z.of_nat a <=? v) && (v <? Z.of_nat (a + n))) flat)).
Proof.
  induction flat as [|v flat IH].
  - simpl. induction (seq a n) as [|k ks IHk]; [reflexivity|].
    simpl. rewrite Zsum_cons, IHk. reflexivity.
  - transitivity (Zsum (map (fun k => (if Z.of_nat k =? v then 1 else 0)
                                      + hist_bin flat k) (seq a n))).
    + f_equal. apply map_ext. intros k. unfold hist_bin. simpl.
      destruct (Z.of_nat k =? v); simpl; lia.
    + rewrite Zsum_map_plus, IH, Zsum_indicator. simpl.
      destruct ((Z.of_nat a <=? v) && (v <? Z.of_nat (a + n))); simpl; lia.
Qed.

Lemma hist_total (g : GrayImage) : Zsum (calcHist g) = count_in 0 256 g.
Proof. rewrite calcHist_bins. apply hist_range_sum. Qed.

Lemma hist_upper_tail (g : GrayImage) : Zsum (skipn 240 (calcHist g)) = count_in 240 256 g.
Proof.
  rewrite calcHist_bins, skipn_map, skipn_seq. apply (hist_range_sum (concat g) 240 16).
Qed.

Lemma hist_lower_tail (g : GrayImage) : Zsum (firstn 15 (calcHist g)) = count_in 0 15 g.
Proof.
  rewrite calcHist_bins, firstn_map.
  change (firstn 15 (seq 0 256)) with (seq 0 15).
  apply (hist_range_sum (concat g) 0 15).
Qed.

Lemma count_in_all (g : GrayImage) :
  Forall (fun v => 0 <= v <= 255) (concat g) -> count_in 0 256 g = gray_size g.
Proof.
  unfold count_in, gray_size. intros Hall. f_equal. f_equal.
  induction Hall as [|v l Hv Hl IH]; simpl; [reflexivity|].
  destruct (0 <=? v) eqn:E1; [|apply Z.leb_gt in E1; lia].
  destruct (v <? 256) eqn:E2; [|apply Z.ltb_ge in E2; lia].
  simpl. now f_equal.
Qed.

Lemma count_in_nonneg (lo hi : Z) (g : GrayImage) : 0 <= count_in lo hi g.
Proof. unfold count_in. lia. Qed.

Lemma overexposed_ratio_eq (g : GrayImage) :
  (overexposed_ratio g == inject_Z (count_in 240 256 g) / inject_Z (count_in 0 256 g))%Q.
Proof.
  unfold overexposed_ratio. rewrite skipn_map, py_sum_scaled, hist_upper_tail, hist_total.
  reflexivity.
Qed.

Lemma underexposed_ratio_eq (g : GrayImage) :
  (underexposed_ratio g == inject_Z (count_in 0 15 g) / inject_Z (count_in 0 256 g))%Q.
Proof.
  unfold underexposed_ratio. rewrite firstn_map, py_sum_scaled, hist_lower_tail, hist_total.
  reflexivity.
Qed.

Lemma ratio_nonneg (a b : Z) : 0 <= a -> 0 <= b -> (0 <= inject_Z a / inject_Z b)%Q.
Proof.
  intros Ha Hb. destruct (Z.eq_dec b 0) as [-> | Hne].
  - unfold Qdiv. simpl. rewrite Qmult_0_r. apply Qle_refl.
  - apply Qle_shift_div_l.
    + change 0%Q with (inject_Z 0). rewrite <- Zlt_Qlt. lia.
    + rewrite Qmult_0_l. change 0%Q with (inject_Z 0). rewrite <- Zle_Qle. lia.
Qed.

Lemma brightness_score_range (mn mx mean : Q) :
  (0 <= brightness_score_formula mn mx mean <= 1)%Q.
Proof.
  unfold brightness_score_formula.
  destruct (Qle_bool mn mean) eqn:E1; simpl.
  - destruct (Qle_bool mean mx) eqn:E2; simpl; [lra|].
    assert (Qlt_bool mean mn = false) as -> by (apply Qlt_bool_false, Qle_bool_iff, E1).
    assert (mx < mean)%Q as Hlt by (apply Qlt_bool_true; unfold Qlt_bool; now rewrite E2).
    const_div.
    destruct (Q.max_spec 0 (1 - (mean - mx) * (1 # 30))) as [[? ->]|[? ->]]; lra.
  - assert (mean < mn)%Q as Hlt by (apply Qlt_bool_true; unfold Qlt_bool; now rewrite E1).
    rewrite (proj2 (Qlt_bool_true mean mn) Hlt).
    const_div.
    destruct (Q.max_spec 0 (1 - (mn - mean) * (1 # 30))) as [[? ->]|[? ->]]; lra.
Qed.

Lemma extremes_score_range (over under : Q) :
  (0 <= over)%Q -> (0 <= under)%Q -> (0 <= 1 - Qmin 1 ((over + under) * 2) <= 1)%Q.
Proof.
  intros Ho Hu.
  destruct (Q.min_spec 1 ((over + under) * 2)) as [[? ->]|[? ->]]; lra.
Qed.

Section BrightnessValidate.
Context {cv : OpenCV}.

Lemma brightness_validate_eq (self : BrightnessValidator.t) (photo : Photo.t) (img : ndarray)
    (fd : option FaceDetectionResult.t) (g : GrayImage) :
  Photo.image_data photo = Some img ->
  ndarray_size img <> 0 ->
  BaseValidator._get_grayscale_image photo = Ok g ->
  exists r,
    BrightnessValidator.validate self photo fd = Ok r /\
    ValidationResult.confidence r
    = (brightness_score_formula (BrightnessValidator._min_brightness self)
                                (BrightnessValidator._max_brightness self) (np_mean g) * 0.7
       + (1 - Qmin 1 ((overexposed_ratio g + underexposed_ratio g) * 2)) * 0.3)%Q /\
    ValidationResult.is_valid r = Qge_bool (ValidationResult.confidence r) (threshold self) /\
    ValidationResult.message r
    = if ValidationResult.is_valid r then "Belichting is correct"
      else if Qlt_bool (np_mean g) (BrightnessValidator._min_brightness self)
      then "Foto is te donker. Zorg voor meer licht"
      else if Qgt_bool (np_mean g) (BrightnessValidator._max_brightness self)
      then "Foto is te licht. Verminder de belichting"
      else if Qgt_bool (overexposed_ratio g) 0.05
      then "Te veel overbelichting gedetecteerd"
      else if Qgt_bool (underexposed_ratio g) 0.05
      then "Te veel onderbelichting gedetecteerd"
      else "Belichting is niet optimaal".
Proof.
  intros Himg Hsize Hgray. unfold BrightnessValidator.validate.
  rewrite (validate_image_data_ok photo img Himg Hsize), Hgray. cbn [bind].
  unfold BaseValidator._create_result.
  fold (overexposed_ratio g) (underexposed_ratio g).
  fold (brightness_score_formula (BrightnessValidator._min_brightness self)
          (BrightnessValidator._max_brightness self) (np_mean g)).
  rewrite new_result_ok.
  - eexists. split; [reflexivity|].
    cbn [ValidationResult.confidence ValidationResult.is_valid ValidationResult.message].
    repeat split; reflexivity.
  - pose proof (brightness_score_range (BrightnessValidator._min_brightness self)
                  (BrightnessValidator._max_brightness self) (np_mean g)) as Hb.
    assert (0 <= overexposed_ratio g)%Q as Ho.
    { rewrite overexposed_ratio_eq. apply ratio_nonneg; apply count_in_nonneg. }
    assert (0 <= underexposed_ratio g)%Q as Hu.
    { rewrite underexposed_ratio_eq. apply ratio_nonneg; apply count_in_nonneg. }
    pose proof (extremes_score_range _ _ Ho Hu) as He.
    lra.
Qed.

End BrightnessValidate.

#[local] Instance Qlt_bool_proper : Proper (Qeq ==> Qeq ==> eq) Qlt_bool.
Proof. intros a a' Ha b b' Hb. unfold Qlt_bool. now rewrite Ha, Hb. Qed.
#[local] Instance Qgt_bool_proper : Proper (Qeq ==> Qeq ==> eq) Qgt_bool.
Proof. intros a a' Ha b b' Hb. unfold Qgt_bool. now rewrite Ha, Hb. Qed.
#[local] Instance Qge_bool_proper : Proper (Qeq ==> Qeq ==> eq) Qge_bool.
Proof. intros a a' Ha b b' Hb. unfold Qge_bool. now rewrite Ha, Hb. Qed.

#[local] Instance brightness_score_formula_proper :
  Proper (Qeq ==> Qeq ==> Qeq ==> Qeq) brightness_score_formula.
Proof.
  intros mn mn' Hmn mx mx' Hmx m m' Hm. unfold brightness_score_formula.
  assert (Qle_bool mn' m' = Qle_bool mn m) as -> by now rewrite Hmn, Hm.
  assert (Qle_bool m' mx' = Qle_bool m mx) as -> by now rewrite Hmx, Hm.
  assert (Qlt_bool m' mn' = Qlt_bool m mn) as -> by now rewrite Hmn, Hm.
  destruct (Qle_bool mn m && Qle_bool m mx); [reflexivity|].
  destruct (Qlt_bool m mn); [now rewrite Hmn, Hm | now rewrite Hmx, Hm].
Qed.

Lemma concat_solid (h w : nat) (v : Z) : concat (solid h w v) = repeat v (h * w).
Proof.
  unfold solid. induction h as [|h IH]; simpl; [reflexivity|].
  rewrite IH. now rewrite repeat_app.
Qed.

Lemma gray_size_solid (h w : nat) (v : Z) : gray_size (solid h w v) = Z.of_nat (h * w).
Proof. unfold gray_size. now rewrite concat_solid, repeat_length. Qed.

Lemma np_mean_solid (h w : nat) (v : Z) :
  (0 < h)%nat -> (0 < w)%nat -> (np_mean (solid h w v) == inject_Z v)%Q.
Proof.
  intros Hh Hw. unfold np_mean, mean_of.
  rewrite concat_solid, Zsum_repeat, repeat_length, inject_Z_mult.
  assert (0 < h * w)%nat as Hpos by (apply Nat.mul_pos_pos; assumption).
  field. change 0%Q with (inject_Z 0). rewrite inject_Z_injective. lia.
Qed.

Lemma count_in_solid (lo hi : Z) (h w : nat) (v : Z) :
  count_in lo hi (solid h w v)
  = if (lo <=? v) && (v <? hi) then Z.of_nat (h * w) else 0.
Proof.
  unfold count_in. rewrite concat_solid.
  induction (h * w)%nat as [|n IH]; simpl.
  - now destruct ((lo <=? v) && (v <? hi)).
  - destruct ((lo <=? v) && (v <? hi)); simpl; [|exact IH].
    rewrite Nat2Z.inj_succ in *. lia.
Qed.

Lemma ratios_solid (h w : nat) (v : Z) :
  (0 < h)%nat -> (0 < w)%nat -> 0 <= v <= 255 ->
  (overexposed_ratio (solid h w v) == if 240 <=? v then 1 else 0)%Q /\
  (underexposed_ratio (solid h w v) == if v <? 15 then 1 else 0)%Q.
Proof.
  intros Hh Hw Hv.
  rewrite overexposed_ratio_eq, underexposed_ratio_eq, !count_in_solid.
  assert (0 < h * w)%nat as Hpos by (apply Nat.mul_pos_pos; assumption).
  assert (~ inject_Z (Z.of_nat (h * w)) == 0)%Q as Hne.
  { change 0%Q with (inject_Z 0). rewrite inject_Z_injective. lia. }
  assert ((0 <=? v) = true) as -> by (apply Z.leb_le; lia).
  assert ((v <? 256) = true) as -> by (apply Z.ltb_lt; lia).
  simpl. split.
  - destruct (240 <=? v); simpl; [now field | unfold Qdiv; now rewrite Qmult_0_l].
  - destruct (v <? 15); simpl; [now field | unfold Qdiv; now rewrite Qmult_0_l].
Qed.

Lemma confidence_formula_eq (mn mx mean o u o' u' : Q) :
  (o == o')%Q -> (u == u')%Q ->
  (brightness_score_formula mn mx mean * 0.7 + (1 - Qmin 1 ((o + u) * 2)) * 0.3
   == confidence_formula mn mx mean o' u')%Q.
Proof.
  intros Ho Hu. unfold confidence_formula, extremes_score_formula.
  rewrite Ho, Hu. assert ((o' + u') * 2 == 2 * (o' + u'))%Q as -> by ring. ring.
Qed.

Section BrightnessSolid.
Context {cv : OpenCV}.

Lemma brightness_on_solid (self : BrightnessValidator.t) (photo : Photo.t) (img : ndarray)
    (fd : option FaceDetectionResult.t) (h w : nat) (v : Z) :
  BrightnessValidator.default = Ok self ->
  Photo.image_data photo = Some img ->
  ndarray_size img <> 0 ->
  (0 < h)%nat -> (0 < w)%nat -> 0 <= v <= 255 ->
  BaseValidator._get_grayscale_image photo = Ok (solid h w v) ->
  exists r,
    BrightnessValidator.validate self photo fd = Ok r /\
    (ValidationResult.confidence r
     == confidence_formula 50 230 (inject_Z v) (if 240 <=? v then 1 else 0)
                           (if v <? 15 then 1 else 0))%Q /\
    ValidationResult.is_valid r = Qge_bool (ValidationResult.confidence r) 0.5 /\
    ValidationResult.message r
    = if ValidationResult.is_valid r then "Belichting is correct"
      else if Qlt_bool (inject_Z v) 50 then "Foto is te donker. Zorg voor meer licht"
      else if Qgt_bool (inject_Z v) 230 then "Foto is te licht. Verminder de belichting"
      else if 240 <=? v then "Te veel overbelichting gedetecteerd"
      else if v <? 15 then "Te veel onderbelichting gedetecteerd"
      else "Belichting is niet optimaal".
Proof.
  intros Hdef Himg Hsize Hh Hw Hv Hgray.
  assert (self = BrightnessValidator.mk (BaseValidator.mk 0.5) 50 230) as ->
      by (injection Hdef as <-; reflexivity).
  destruct (brightness_validate_eq (BrightnessValidator.mk (BaseValidator.mk 0.5) 50 230)
              photo img fd _ Himg Hsize Hgray)
    as (r & Hr & Hconf & Hvalid & Hmsg).
  destruct (ratios_solid h w v Hh Hw Hv) as [Ho Hu].
  pose proof (np_mean_solid h w v Hh Hw) as Hmean.
  exists r. split; [exact Hr|]. split; [|split].
  - rewrite Hconf. cbn [BrightnessValidator._min_brightness
                         BrightnessValidator._max_brightness].
    rewrite (confidence_formula_eq _ _ _ _ _ _ _ Ho Hu).
    unfold confidence_formula.
    now rewrite Hmean.
  - exact Hvalid.
  - rewrite Hmsg. cbn [BrightnessValidator._min_brightness
                        BrightnessValidator._max_brightness].
    assert (Qlt_bool (np_mean (solid h w v)) 50
            = Qlt_bool (inject_Z v) 50) as -> by now rewrite Hmean.
    assert (Qgt_bool (np_mean (solid h w v)) 230
            = Qgt_bool (inject_Z v) 230) as -> by now rewrite Hmean.
    assert (Qgt_bool (overexposed_ratio (solid h w v)) 0.05 = (240 <=? v)) as ->.
    { rewrite Ho. now destruct (240 <=? v). }
    assert (Qgt_bool (underexposed_ratio (solid h w v)) 0.05 = (v <? 15)) as ->.
    { rewrite Hu. now destruct (v <? 15). }
    reflexivity.
Qed.

End BrightnessSolid.

Section BrightnessScores.
Context {cv : OpenCV}.

(** C7. For the brightness check on a photo with non-empty image data:
    whatever its configuration, on an image with intensities in 0..255 it
    returns a result whose confidence is 0.7 brightness score + 0.3 extremes
    score, the extremes score being taken from the shares of pixels of
    intensity 240 and above and of intensity below 15, and which passes
    exactly when the confidence reaches the threshold; and with the default
    configuration a solid image of intensity 140 passes with confidence above
    0.7, one of intensity 20 fails as too dark, and one of intensity 250 fails
    as too bright. *)
Theorem brightness_check_scores
    (photo : Photo.t) (img : ndarray) (fd : option FaceDetectionResult.t) :
  Photo.image_data photo = Some img ->
  ndarray_size img <> 0 ->
  (forall (self : BrightnessValidator.t) (g : GrayImage),
     BaseValidator._get_grayscale_image photo = Ok g ->
     Forall (fun v => 0 <= v <= 255) (concat g) ->
     exists r,
       BrightnessValidator.validate self photo fd = Ok r /\
       (ValidationResult.confidence r
        == confidence_formula (BrightnessValidator._min_brightness self)
             (BrightnessValidator._max_brightness self) (np_mean g)
             (pixel_fraction 240 256 g) (pixel_fraction 0 15 g))%Q /\
       ValidationResult.is_valid r
       = Qge_bool (ValidationResult.confidence r) (threshold self)) /\
  (forall (self : BrightnessValidator.t) (h w : nat),
     BrightnessValidator.default = Ok self ->
     (0 < h)%nat -> (0 < w)%nat ->
     (BaseValidator._get_grayscale_image photo = Ok (solid h w 140) ->
      exists r,
        BrightnessValidator.validate self photo fd = Ok r /\
        ValidationResult.is_valid r = true /\
        (0.7 < ValidationResult.confidence r)%Q /\
        ValidationResult.message r = "Belichting is correct") /\
     (BaseValidator._get_grayscale_image photo = Ok (solid h w 20) ->
      exists r,
        BrightnessValidator.validate self photo fd = Ok r /\
        ValidationResult.is_valid r = false /\
        ValidationResult.message r = "Foto is te donker. Zorg voor meer licht") /\
     (BaseValidator._get_grayscale_image photo = Ok (solid h w 250) ->
      exists r,
        BrightnessValidator.validate self photo fd = Ok r /\
        ValidationResult.is_valid r = false /\
        ValidationResult.message r = "Foto is te licht. Verminder de belichting")).
Proof.
  intros Himg Hsize. split.
  - intros self g Hgray Hrange.
    destruct (brightness_validate_eq self photo img fd g Himg Hsize Hgray)
      as (r & Hr & Hconf & Hvalid & _).
    exists r. split; [exact Hr|]. split; [|exact Hvalid].
    rewrite Hconf. apply confidence_formula_eq.
    + rewrite overexposed_ratio_eq, (count_in_all g Hrange). reflexivity.
    + rewrite underexposed_ratio_eq, (count_in_all g Hrange). reflexivity.
  - intros self h w Hdef Hh Hw. repeat split.
    + intros Hgray.
      destruct (brightness_on_solid self photo img fd h w 140 Hdef Himg Hsize Hh Hw
                  ltac:(lia) Hgray) as (r & Hr & Hconf & Hvalid & Hmsg).
      assert (ValidationResult.is_valid r = true) as Hv
          by (rewrite Hvalid, Hconf; reflexivity).
      exists r. repeat split; trivial.
      * rewrite Hconf. reflexivity.
      * rewrite Hmsg, Hv. reflexivity.
    + intros Hgray.
      destruct (brightness_on_solid self photo img fd h w 20 Hdef Himg Hsize Hh Hw
                  ltac:(lia) Hgray) as (r & Hr & Hconf & Hvalid & Hmsg).
      assert (ValidationResult.is_valid r = false) as Hv
          by (rewrite Hvalid, Hconf; reflexivity).
      exists r. repeat split; trivial.
      rewrite Hmsg, Hv. reflexivity.
    + intros Hgray.
      destruct (brightness_on_solid self photo img fd h w 250 Hdef Himg Hsize Hh Hw
                  ltac:(lia) Hgray) as (r & Hr & Hconf & Hvalid & Hmsg).
      assert (ValidationResult.is_valid r = false) as Hv
          by (rewrite Hvalid, Hconf; reflexivity).
      exists r. repeat split; trivial.
      rewrite Hmsg, Hv. reflexivity.
Qed.

End BrightnessScores.

Lemma brightness_check_scores_witness :
  (exists r,
     @BrightnessValidator.validate example_cv
       (BrightnessValidator.mk (BaseValidator.mk 0.5) 50 230) (example_solid_photo 140) None
     = Ok r /\
     ValidationResult.is_valid r = true /\
     (0.7 < ValidationResult.confidence r)%Q /\
     ValidationResult.message r = "Belichting is correct") /\
  (exists r,
     @BrightnessValidator.validate example_cv
       (BrightnessValidator.mk (BaseValidator.mk 0.5) 50 230) (example_solid_photo 20) None
     = Ok r /\
     ValidationResult.is_valid r = false /\
     ValidationResult.message r = "Foto is te donker. Zorg voor meer licht") /\
  (exists r,
     @BrightnessValidator.validate example_cv
       (BrightnessValidator.mk (BaseValidator.mk 0.5) 50 230) (example_solid_photo 250) None
     = Ok r /\
     ValidationResult.is_valid r = false /\
     ValidationResult.message r = "Foto is te licht. Verminder de belichting").
Proof.
  split; [|split].
  - apply (proj2 (@brightness_check_scores example_cv (example_solid_photo 140)
                    (Gray (solid 4 8 140)) None eq_refl ltac:(discriminate))
                 _ 4%nat 8%nat eq_refl ltac:(lia) ltac:(lia)).
    reflexivity.
  - apply (proj2 (@brightness_check_scores example_cv (example_solid_photo 20)
                    (Gray (solid 4 8 20)) None eq_refl ltac:(discriminate))
                 _ 4%nat 8%nat eq_refl ltac:(lia) ltac:(lia)).
    reflexivity.
  - apply (proj2 (@brightness_check_scores example_cv (example_solid_photo 250)
                    (Gray (solid 4 8 250)) None eq_refl ltac:(discriminate))
                 _ 4%nat 8%nat eq_refl ltac:(lia) ltac:(lia)).
    reflexivity.
Defined.

(** * Further properties *)

(** ** The photo record *)

Lemma filter_negb_nil_forallb {A : Type} (f : A -> bool) (l : list A) :
  List.filter (fun x => negb (f x)) l = [] <-> forallb f l = true.
Proof.
  induction l as [|a l IH]; simpl; [tauto|].
  destruct (f a); simpl; [exact IH | split; discriminate].
Qed.

(** X1. A photo is valid exactly when it has at least one result and
    [get_failed_validations] finds none. *)
Theorem is_valid_iff_results_and_none_failed (p : Photo.t) :
  Photo.is_valid p = true
  <-> Photo.validation_results p <> [] /\ Photo.get_failed_validations p = [].
Proof.
  unfold Photo.is_valid, Photo.get_failed_validations.
  rewrite filter_negb_nil_forallb.
  destruct (Photo.validation_results p) as [|r rs]; [|split; [split; [discriminate|]|]; tauto].
  split; [discriminate | intros [H _]; congruence].
Qed.

Lemma py_sum_bounds (xs : list Q) :
  Forall (fun x => 0 <= x <= 1)%Q xs ->
  (0 <= py_sum xs <= inject_Z (Z.of_nat (length xs)))%Q.
Proof.
  induction 1 as [|x xs Hx Hxs IH].
  - unfold py_sum; simpl. split; apply Qle_refl.
  - rewrite py_sum_cons. cbn [length]. rewrite Nat2Z.inj_succ, <- Z.add_1_r, inject_Z_plus.
    change (inject_Z 1) with 1%Q. lra.
Qed.

(** X2. When every result has a confidence in [0, 1], as every result built
    by the constructor has, the overall confidence lies in [0, 1]. *)
Theorem overall_confidence_in_unit_interval (p : Photo.t) :
  Forall (fun r => 0 <= ValidationResult.confidence r <= 1)%Q (Photo.validation_results p) ->
  (0 <= Photo.get_overall_confidence p <= 1)%Q.
Proof.
  intros Hall. unfold Photo.get_overall_confidence.
  destruct (Photo.validation_results p) as [|r rs]; [lra|].
  assert (Forall (fun x => 0 <= x <= 1)%Q (map ValidationResult.confidence (r :: rs)))
    as Hmap.
  { apply List.Forall_forall. intros x Hx. apply in_map_iff in Hx.
    destruct Hx as (r' & <- & Hr'). rewrite List.Forall_forall in Hall. now apply Hall. }
  apply py_sum_bounds in Hmap. rewrite length_map in Hmap.
  set (n := inject_Z (Z.of_nat (length (r :: rs)))) in *.
  set (t := py_sum (map ValidationResult.confidence (r :: rs))) in *.
  assert (0 < n)%Q as Hn.
  { subst n. change 0%Q with (inject_Z 0). rewrite <- Zlt_Qlt. simpl. lia. }
  clearbody n t. split.
  - apply Qle_shift_div_l; [exact Hn | lra].
  - apply Qle_shift_div_r; [exact Hn | lra].
Qed.

Lemma overall_confidence_in_unit_interval_witness :
  (0 <= Photo.get_overall_confidence
          (Photo.add_validation_result
             (Photo.add_validation_result example_photo
                (ValidationResult.mk "BrightnessValidator" true 1 "ok" None))
             (ValidationResult.mk "SharpnessValidator" false 0.25 "wazig" None)) <= 1)%Q.
Proof.
  apply overall_confidence_in_unit_interval.
  apply List.Forall_cons; [cbn [ValidationResult.confidence]; lra|].
  apply List.Forall_cons; [cbn [ValidationResult.confidence]; lra|].
  apply List.Forall_nil.
Defined.

Lemma update_status_status (p : Photo.t) :
  Photo.status (Photo.update_status p)
  = match Photo.validation_results p with
    | [] => PENDING
    | _ :: _ =>
        if forallb ValidationResult.is_valid (Photo.validation_results p)
        then APPROVED else REJECTED
    end.
Proof.
  unfold Photo.update_status, Photo.is_valid.
  destruct (Photo.validation_results p) as [|r rs]; simpl; [reflexivity|].
  now destruct (ValidationResult.is_valid r && forallb ValidationResult.is_valid rs).
Qed.

(** X3. After a result is added and the status is updated, the status is
    never PENDING: it is APPROVED when the new result and all earlier ones
    passed, and REJECTED otherwise, so a failed result is never outweighed by
    results added later. *)
Theorem status_after_added_result (p : Photo.t) (r : ValidationResult.t) :
  Photo.status (Photo.update_status (Photo.add_validation_result p r))
  = if forallb ValidationResult.is_valid (Photo.validation_results p)
       && ValidationResult.is_valid r
    then APPROVED else REJECTED.
Proof.
  rewrite update_status_status. unfold Photo.add_validation_result. simpl.
  rewrite forallb_app. simpl. rewrite andb_true_r.
  destruct (Photo.validation_results p ++ [r]) eqn:E; [|reflexivity].
  now apply app_eq_nil in E as [_ E].
Qed.

(** ** The service: registering and removing checks *)

Lemma remove_first_spec (name : string) (vs : list IValidator.t) :
  (Forall (fun v => IValidator.get_name v <> name) vs /\
   ValidationService.remove_first name vs = None)
  \/
  (exists before v after,
      vs = before ++ v :: after /\
      IValidator.get_name v = name /\
      Forall (fun v' => IValidator.get_name v' <> name) before /\
      ValidationService.remove_first name vs = Some (before ++ after)).
Proof.
  induction vs as [|v vs IH]; simpl.
  - left. split; [constructor | reflexivity].
  - destruct (String.eqb (IValidator.get_name v) name) eqn:E.
    + right. apply String.eqb_eq in E. exists [], v, vs. repeat split; trivial.
    + apply String.eqb_neq in E.
      destruct IH as [[Hall ->] | (before & v' & after & -> & Hv' & Hbefore & ->)].
      * left. split; [now constructor | reflexivity].
      * right. exists (v :: before), v', after. repeat split; trivial. now constructor.
Qed.

(** X4. [remove_validator] removes the first registered check of the given
    name and nothing else, keeping the others in their order, logs the
    removal and answers true; when no check has that name it answers false,
    logs nothing and leaves the service as it was. *)
Theorem remove_validator_removes_first_match (self : ValidationService.t) (name : string) :
  (Forall (fun v => IValidator.get_name v <> name) (ValidationService._validators self) /\
   ValidationService.remove_validator self name = ([], (self, false)))
  \/
  (exists before v after,
      ValidationService._validators self = before ++ v :: after /\
      IValidator.get_name v = name /\
      Forall (fun v' => IValidator.get_name v' <> name) before /\
      ValidationService.remove_validator self name
      = ([info_removed_validator name],
         (ValidationService.mk (ValidationService._face_detection_model self)
                               (before ++ after)
                               (ValidationService._observers self), true))).
Proof.
  unfold ValidationService.remove_validator.
  destruct (remove_first_spec name (ValidationService._validators self))
    as [[Hall ->] | (before & v & after & Hvs & Hv & Hbefore & ->)].
  - left. now split.
  - right. exists before, v, after. repeat split; trivial.
Qed.

(** X5. Registering a check whose name no registered check has and removing
    it again by that name gives back the service as it was. *)
Theorem add_then_remove_validator (self : ValidationService.t) (v : IValidator.t) :
  Forall (fun v' => IValidator.get_name v' <> IValidator.get_name v)
         (ValidationService._validators self) ->
  snd (ValidationService.remove_validator
         (snd (ValidationService.add_validator self v)) (IValidator.get_name v))
  = (self, true).
Proof.
  intros Hfresh. unfold ValidationService.remove_validator, ValidationService.add_validator.
  cbn [snd ValidationService._validators ValidationService._face_detection_model
       ValidationService._observers].
  assert (ValidationService.remove_first (IValidator.get_name v)
            (ValidationService._validators self ++ [v])
          = Some (ValidationService._validators self)) as ->.
  { induction Hfresh as [|v' vs Hv' Hvs IH]; simpl.
    - now rewrite String.eqb_refl.
    - apply String.eqb_neq in Hv'. rewrite Hv', IH. reflexivity. }
  now destruct self.
Qed.

Lemma add_then_remove_validator_witness :
  snd (ValidationService.remove_validator
         (snd (ValidationService.add_validator example_service
                 (@HeadwearValidator.as_IValidator example_cv
                    (HeadwearValidator.mk (BaseValidator.mk 0.5)))))
         "HeadwearValidator")
  = (example_service, true).
Proof.
  apply (add_then_remove_validator example_service
           (@HeadwearValidator.as_IValidator example_cv
              (HeadwearValidator.mk (BaseValidator.mk 0.5)))).
  repeat constructor; discriminate.
Defined.

(** ** The service: a run *)

(** A run whose face detection returns gives back the photo with the returned
    results appended and the status updated; the observers play no part. *)
Lemma validate_photo_final {mp : MediaPipe}
    (self : ValidationService.t) (photo : Photo.t) (fd : FaceDetectionResult.t) :
  FaceDetectionModel.detect_face (ValidationService._face_detection_model self)
                                 (Photo.image_data photo) = Ok fd ->
  exists log,
    ValidationService.validate_photo self photo
    = (log, Ok (Photo.update_status
                  (Photo.with_results photo
                     (Photo.validation_results photo
                      ++ returned_results fd (ValidationService._validators self) photo)))).
Proof.
  intros Hdetect. unfold ValidationService.validate_photo. rewrite Hdetect.
  set (log0 := if negb (FaceDetectionResult.face_found fd) then _ else _).
  destruct (run_validators_spec self fd (ValidationService._validators self) 0 photo log0)
    as (photo1 & log1 & Hfold & Hphoto & _).
  rewrite Hfold, Hphoto. eexists. reflexivity.
Qed.


(** X7. The status a run leaves depends on the results alone, those the photo
    had and those of the checks that returned: PENDING when there is none,
    APPROVED when all passed, REJECTED otherwise.  A check that raised counts
    neither for nor against the photo. *)
Theorem status_after_run {mp : MediaPipe}
    (self : ValidationService.t) (photo : Photo.t) (fd : FaceDetectionResult.t) :
  FaceDetectionModel.detect_face (ValidationService._face_detection_model self)
                                 (Photo.image_data photo) = Ok fd ->
  exists log photo',
    ValidationService.validate_photo self photo = (log, Ok photo') /\
    Photo.status photo'
    = match Photo.validation_results photo
            ++ returned_results fd (ValidationService._validators self) photo with
      | [] => PENDING
      | r :: rs =>
          if forallb ValidationResult.is_valid (r :: rs) then APPROVED else REJECTED
      end.
Proof.
  intros Hdetect. destruct (validate_photo_final self photo fd Hdetect) as [log Hrun].
  eexists _, _. split; [exact Hrun|].
  rewrite update_status_status. cbn [Photo.with_results Photo.validation_results].
  now destruct (Photo.validation_results photo
                ++ returned_results fd (ValidationService._validators self) photo).
Qed.

Lemma status_after_run_witness :
  exists log photo',
    @ValidationService.validate_photo example_mesh example_service example_photo
    = (log, Ok photo') /\
    Photo.status photo'
    = match Photo.validation_results example_photo
            ++ returned_results no_face (ValidationService._validators example_service)
                                example_photo with
      | [] => PENDING
      | r :: rs =>
          if forallb ValidationResult.is_valid (r :: rs) then APPROVED else REJECTED
      end.
Proof.
  exact (@status_after_run example_mesh example_service example_photo no_face eq_refl).
Defined.

(** X8. A check registered with [add_validator] runs last: a run of the
    service after the registration reports on the checks registered before,
    in their order, and then on the new one. *)
Theorem added_validator_runs_last {mp : MediaPipe}
    (self : ValidationService.t) (v : IValidator.t) (photo : Photo.t)
    (fd : FaceDetectionResult.t) :
  FaceDetectionModel.detect_face (ValidationService._face_detection_model self)
                                 (Photo.image_data photo) = Ok fd ->
  exists log photo',
    ValidationService.validate_photo (snd (ValidationService.add_validator self v)) photo
    = (log, Ok photo') /\
    checks_run log
    = map IValidator.get_name (ValidationService._validators self)
      ++ [IValidator.get_name v].
Proof.
  intros Hdetect.
  destruct (validate_photo_run (snd (ValidationService.add_validator self v)) photo fd Hdetect)
    as (log & photo' & Hrun & _ & Hlog & _).
  exists log, photo'. split; [exact Hrun|]. rewrite Hlog.
  cbn [ValidationService.add_validator snd ValidationService._validators].
  now rewrite map_app.
Qed.

Lemma added_validator_runs_last_witness :
  exists log photo',
    @ValidationService.validate_photo example_mesh
      (snd (ValidationService.add_validator example_service passing_check)) example_photo
    = (log, Ok photo') /\
    checks_run log
    = map IValidator.get_name (ValidationService._validators example_service)
      ++ [IValidator.get_name passing_check].
Proof.
  exact (@added_validator_runs_last example_mesh example_service passing_check
           example_photo no_face eq_refl).
Defined.

(** ** The service: the summary *)

Lemma filter_partition_length {A : Type} (f : A -> bool) (l : list A) :
  (length (List.filter f l) + length (List.filter (fun x => negb (f x)) l))%nat = length l.
Proof.
  induction l as [|a l IH]; simpl; [reflexivity|].
  destruct (f a); simpl; lia.
Qed.

(** X9. In a validation summary the passed and the failed validators add up
    to the total, which is the number of listed results; and for a photo whose
    status has been updated, as a run leaves it, the status is "approved"
    exactly when the summary says valid and "pending" exactly when the total
    is 0. *)
Theorem validation_summary_is_consistent (self : ValidationService.t) (p : Photo.t) :
  (ValidationService.summary_passed_validators (ValidationService.get_validation_summary self p)
   + ValidationService.summary_failed_validators (ValidationService.get_validation_summary self p)
   = ValidationService.summary_total_validators (ValidationService.get_validation_summary self p))%nat /\
  length (ValidationService.summary_results (ValidationService.get_validation_summary self p))
  = ValidationService.summary_total_validators (ValidationService.get_validation_summary self p) /\
  (ValidationService.summary_status
     (ValidationService.get_validation_summary self (Photo.update_status p)) = "approved"
   <-> ValidationService.summary_is_valid
         (ValidationService.get_validation_summary self (Photo.update_status p)) = true) /\
  (ValidationService.summary_status
     (ValidationService.get_validation_summary self (Photo.update_status p)) = "pending"
   <-> ValidationService.summary_total_validators
         (ValidationService.get_validation_summary self (Photo.update_status p)) = 0%nat).
Proof.
  unfold ValidationService.get_validation_summary, Photo.get_failed_validations.
  cbn [ValidationService.summary_passed_validators ValidationService.summary_failed_validators
       ValidationService.summary_total_validators ValidationService.summary_results
       ValidationService.summary_status ValidationService.summary_is_valid].
  split; [apply filter_partition_length|]. split; [apply length_map|].
  rewrite update_status_status. unfold Photo.is_valid.
  rewrite update_status_keeps_results.
  destruct (Photo.validation_results p) as [|r rs]; simpl.
  - split; split; try discriminate; reflexivity.
  - destruct (ValidationResult.is_valid r && forallb ValidationResult.is_valid rs); simpl;
      split; split; try discriminate; reflexivity.
Qed.

(** ** A run without a face *)

Lemma face_position_without_face (fp : FacePositionValidator.t) (p : Photo.t)
    (img : ndarray) (fd : FaceDetectionResult.t) :
  Photo.image_data p = Some img -> ndarray_size img <> 0 ->
  FaceDetectionResult.face_found fd = false ->
  FacePositionValidator.validate fp p (Some fd)
  = Ok (ValidationResult.mk "FacePositionValidator" false 0
          "Geen gezicht gedetecteerd. Zorg dat uw gezicht zichtbaar is"
          (Some [("error", DStr "no_face_detected")])).
Proof.
  intros Himg Hsize Hface. unfold FacePositionValidator.validate.
  rewrite (validate_image_data_ok p img Himg Hsize). simpl. now rewrite Hface.
Qed.

(** The result of a registered check that returns the same result on every
    photo with the given image is among the returned results. *)
Lemma returned_results_contains (fd : FaceDetectionResult.t) (check : IValidator.t)
    (r : ValidationResult.t) (image : option ndarray) (checks : list IValidator.t) :
  In check checks ->
  (forall p, Photo.image_data p = image -> IValidator.validate check p (Some fd) = Ok r) ->
  forall photo, Photo.image_data photo = image ->
    In r (returned_results fd checks photo).
Proof.
  intros Hin Hcheck. induction checks as [|c checks IH]; [destruct Hin|].
  intros photo Himg. simpl. destruct Hin as [-> | Hin].
  - rewrite (Hcheck photo Himg). now left.
  - destruct (IValidator.validate c photo (Some fd)) as [r'|e].
    + right. apply IH; trivial.
    + apply IH; trivial.
Qed.

(** X10. When face detection returns without a face, a run of a service in
    which the face position check is registered leaves a photo with non-empty
    image data REJECTED, whatever the other checks return or raise. *)
Theorem run_without_face_is_rejected {mp : MediaPipe}
    (self : ValidationService.t) (fp : FacePositionValidator.t) (photo : Photo.t)
    (img : ndarray) (fd : FaceDetectionResult.t) :
  Photo.image_data photo = Some img ->
  ndarray_size img <> 0 ->
  FaceDetectionModel.detect_face (ValidationService._face_detection_model self)
                                 (Photo.image_data photo) = Ok fd ->
  FaceDetectionResult.face_found fd = false ->
  In (FacePositionValidator.as_IValidator fp) (ValidationService._validators self) ->
  exists log photo',
    ValidationService.validate_photo self photo = (log, Ok photo') /\
    Photo.status photo' = REJECTED.
Proof.
  intros Himg Hsize Hdetect Hface Hin.
  destruct (validate_photo_final self photo fd Hdetect) as [log Hrun].
  eexists _, _. split; [exact Hrun|].
  rewrite update_status_status. cbn [Photo.with_results Photo.validation_results].
  pose proof (returned_results_contains fd (FacePositionValidator.as_IValidator fp) _
                (Some img) (ValidationService._validators self) Hin
                (fun p Hp => face_position_without_face fp p img fd Hp Hsize Hface)
                photo Himg) as Hr.
  set (rs := Photo.validation_results photo ++ _) in *.
  assert (In (ValidationResult.mk "FacePositionValidator" false 0
                "Geen gezicht gedetecteerd. Zorg dat uw gezicht zichtbaar is"
                (Some [("error", DStr "no_face_detected")])) rs) as Hrs
      by (apply in_or_app; now right).
  destruct rs as [|r0 rs0]; [destruct Hrs|].
  destruct (forallb ValidationResult.is_valid (r0 :: rs0)) eqn:Hall; [|reflexivity].
  rewrite forallb_forall in Hall. specialize (Hall _ Hrs). discriminate.
Qed.

Lemma run_without_face_is_rejected_witness :
  exists log photo',
    @ValidationService.validate_photo example_mesh
      (ValidationService.mk FaceDetectionModelFactory.create_default_model
         [passing_check;
          FacePositionValidator.as_IValidator
            (FacePositionValidator.mk (BaseValidator.mk 0.5) 0.30 0.05 0.70)] [])
      example_photo
    = (log, Ok photo') /\
    Photo.status photo' = REJECTED.
Proof.
  apply (@run_without_face_is_rejected example_mesh _
           (FacePositionValidator.mk (BaseValidator.mk 0.5) 0.30 0.05 0.70)
           example_photo (Color (solid_color 2 2 140)) no_face).
  - reflexivity.
  - discriminate.
  - reflexivity.
  - reflexivity.
  - right. left. reflexivity.
Defined.

(** ** The brightness check with the default configuration *)

Lemma exposure_ratios_nonneg (g : GrayImage) :
  (0 <= overexposed_ratio g)%Q /\ (0 <= underexposed_ratio g)%Q.
Proof.
  split.
  - rewrite overexposed_ratio_eq. apply ratio_nonneg; apply count_in_nonneg.
  - rewrite underexposed_ratio_eq. apply ratio_nonneg; apply count_in_nonneg.
Qed.

(** X11. With the default configuration the brightness check, on a photo
    with non-empty image data, returns a result that passes whenever the mean
    intensity lies in [50, 230], however many pixels are over- or
    underexposed; when it fails, the mean is below 50 and the message says
    too dark, or the mean is above 230 and the message says too bright. *)
Theorem brightness_default_decision {cv : OpenCV}
    (self : BrightnessValidator.t) (photo : Photo.t) (img : ndarray)
    (fd : option FaceDetectionResult.t) (g : GrayImage) :
  BrightnessValidator.default = Ok self ->
  Photo.image_data photo = Some img ->
  ndarray_size img <> 0 ->
  BaseValidator._get_grayscale_image photo = Ok g ->
  exists r,
    BrightnessValidator.validate self photo fd = Ok r /\
    ((50 <= np_mean g)%Q /\ (np_mean g <= 230)%Q -> ValidationResult.is_valid r = true) /\
    (ValidationResult.is_valid r = false ->
     ((np_mean g < 50)%Q /\
      ValidationResult.message r = "Foto is te donker. Zorg voor meer licht")
     \/
     ((230 < np_mean g)%Q /\
      ValidationResult.message r = "Foto is te licht. Verminder de belichting")).
Proof.
  intros Hdef Himg Hsize Hgray.
  assert (self = BrightnessValidator.mk (BaseValidator.mk 0.5) 50 230) as ->
      by (injection Hdef as <-; reflexivity).
  destruct (brightness_validate_eq (BrightnessValidator.mk (BaseValidator.mk 0.5) 50 230)
              photo img fd g Himg Hsize Hgray) as (r & Hr & Hconf & Hvalid & Hmsg).
  cbn [BrightnessValidator._min_brightness BrightnessValidator._max_brightness] in *.
  destruct (exposure_ratios_nonneg g) as [Ho Hu].
  pose proof (extremes_score_range _ _ Ho Hu) as He.
  set (es := (1 - Qmin 1 ((overexposed_ratio g + underexposed_ratio g) * 2))%Q) in *.
  assert (Hin : (50 <= np_mean g)%Q /\ (np_mean g <= 230)%Q ->
                ValidationResult.is_valid r = true).
  { intros [Hlo Hhi]. rewrite Hvalid, Hconf. apply Qge_bool_true.
    unfold brightness_score_formula.
    rewrite (proj2 (Qle_bool_iff 50 (np_mean g)) Hlo).
    rewrite (proj2 (Qle_bool_iff (np_mean g) 230) Hhi). simpl.
    change (threshold (BrightnessValidator.mk (BaseValidator.mk 0.5) 50 230)) with 0.5%Q.
    clearbody es. lra. }
  exists r. split; [exact Hr|]. split; [exact Hin|].
  intros Hfail. rewrite Hmsg, Hfail.
  destruct (Qlt_bool (np_mean g) 50) eqn:E1.
  - left. split; [now apply Qlt_bool_true | reflexivity].
  - apply Qlt_bool_false in E1.
    destruct (Qgt_bool (np_mean g) 230) eqn:E2.
    + right. split; [now apply Qlt_bool_true | reflexivity].
    + apply Qlt_bool_false in E2. rewrite Hin in Hfail by (split; assumption).
      discriminate.
Qed.

Lemma brightness_default_decision_witness :
  exists r,
    @BrightnessValidator.validate example_cv
      (BrightnessValidator.mk (BaseValidator.mk 0.5) 50 230) (example_solid_photo 20) None
    = Ok r /\
    ((50 <= np_mean (solid 4 8 20))%Q /\ (np_mean (solid 4 8 20) <= 230)%Q ->
     ValidationResult.is_valid r = true) /\
    (ValidationResult.is_valid r = false ->
     ((np_mean (solid 4 8 20) < 50)%Q /\
      ValidationResult.message r = "Foto is te donker. Zorg voor meer licht")
     \/
     ((230 < np_mean (solid 4 8 20))%Q /\
      ValidationResult.message r = "Foto is te licht. Verminder de belichting")).
Proof.
  apply (@brightness_default_decision example_cv _ (example_solid_photo 20)
           (Gray (solid 4 8 20)) None (solid 4 8 20) eq_refl eq_refl).
  - discriminate.
  - reflexivity.
Defined.

(** ** The sharpness check with the default configuration *)

Section SharpnessDefault.
Context {cv : OpenCV}.

Lemma sharpness_validate_eq (self : SharpnessValidator.t) (photo : Photo.t) (img : ndarray)
    (fd : option FaceDetectionResult.t) (g : GrayImage) :
  Photo.image_data photo = Some img ->
  ndarray_size img <> 0 ->
  BaseValidator._get_grayscale_image photo = Ok g ->
  SharpnessValidator.validate self photo fd
  = (variance <- Laplacian_var (sharpness_region g fd) ;;
     let confidence :=
       if Qge_bool variance (SharpnessValidator._min_variance self)
       then Qmin 1 (variance / (SharpnessValidator._min_variance self * 2))
       else (variance / SharpnessValidator._min_variance self)%Q in
     let is_valid := Qge_bool confidence (threshold self) in
     ValidationResult.new "SharpnessValidator" is_valid confidence
       (if is_valid then "Foto is voldoende scherp"
        else if Qlt_bool variance (SharpnessValidator._min_variance self * 0.5)
        then "Foto is wazig. Houd de camera stil en zorg voor goede focus"
        else "Foto is niet scherp genoeg. Probeer opnieuw")
       (Some [("laplacian_variance", DNum variance);
              ("min_variance_threshold", DNum (SharpnessValidator._min_variance self));
              ("focused_on_face", DBool (face_present fd))])).
Proof.
  intros Himg Hsize Hgray. unfold SharpnessValidator.validate.
  rewrite (validate_image_data_ok photo img Himg Hsize), Hgray. reflexivity.
Qed.

(** X12. With the default configuration the sharpness check passes exactly
    when the Laplacian variance of the analysed region is at least 25, half of
    the configured minimum variance of 50; a failing photo is always reported
    as blurred ("wazig"), and an exception of the Laplacian is passed on. *)
Theorem sharpness_default_decision
    (self : SharpnessValidator.t) (photo : Photo.t) (img : ndarray)
    (fd : option FaceDetectionResult.t) (g : GrayImage) :
  SharpnessValidator.default = Ok self ->
  Photo.image_data photo = Some img ->
  ndarray_size img <> 0 ->
  BaseValidator._get_grayscale_image photo = Ok g ->
  (forall e, Laplacian_var (sharpness_region g fd) = Raise e ->
             SharpnessValidator.validate self photo fd = Raise e) /\
  (forall v, Laplacian_var (sharpness_region g fd) = Ok v -> (0 <= v)%Q ->
     exists r,
       SharpnessValidator.validate self photo fd = Ok r /\
       (ValidationResult.is_valid r = true <-> (25 <= v)%Q) /\
       (ValidationResult.is_valid r = false ->
        ValidationResult.message r
        = "Foto is wazig. Houd de camera stil en zorg voor goede focus")).
Proof.
  intros Hdef Himg Hsize Hgray.
  assert (self = SharpnessValidator.mk (BaseValidator.mk 0.5) 50) as ->
      by (injection Hdef as <-; reflexivity).
  rewrite (sharpness_validate_eq _ photo img fd g Himg Hsize Hgray).
  cbn [SharpnessValidator._min_variance].
  change (threshold (SharpnessValidator.mk (BaseValidator.mk 0.5) 50)) with 0.5%Q.
  split.
  - intros e ->. reflexivity.
  - intros v -> Hv. cbn [bind].
    destruct (Qge_bool v 50) eqn:E.
    + apply Qge_bool_true in E.
      assert (0.5 <= Qmin 1 (v / (50 * 2)) <= 1)%Q as Hc.
      { destruct (Q.min_spec 1 (v / (50 * 2))) as [[H1 ->]|[H1 ->]].
        - lra.
        - split; [|exact H1]. apply Qle_shift_div_l; lra. }
      rewrite new_result_ok by lra. eexists. split; [reflexivity|].
      cbn [ValidationResult.is_valid ValidationResult.message].
      rewrite (proj2 (Qge_bool_true _ 0.5) (proj1 Hc)).
      split; [split; [intros _; lra | reflexivity] | discriminate].
    + apply Qge_bool_false in E.
      assert (v / 50 == v * (1 # 50))%Q as Hdiv by (const_div; reflexivity).
      rewrite new_result_ok by (rewrite Hdiv; lra). eexists. split; [reflexivity|].
      cbn [ValidationResult.is_valid ValidationResult.message].
      destruct (Qge_bool (v / 50) 0.5) eqn:E2.
      * apply Qge_bool_true in E2. rewrite Hdiv in E2.
        split; [split; [intros _; lra | reflexivity] | discriminate].
      * apply Qge_bool_false in E2. rewrite Hdiv in E2.
        split; [split; [discriminate | intros H25; lra]|].
        intros _. assert (Qlt_bool v (50 * 0.5) = true) as -> by (apply Qlt_bool_true; lra).
        reflexivity.
Qed.


End SharpnessDefault.

Lemma sharpness_default_decision_witness :
  (forall e, @Laplacian_var example_cv (sharpness_region (solid 4 8 100) None) = Raise e ->
             @SharpnessValidator.validate example_cv
               (SharpnessValidator.mk (BaseValidator.mk 0.5) 50) example_gray_photo None
             = Raise e) /\
  (forall v, @Laplacian_var example_cv (sharpness_region (solid 4 8 100) None) = Ok v ->
     (0 <= v)%Q ->
     exists r,
       @SharpnessValidator.validate example_cv
         (SharpnessValidator.mk (BaseValidator.mk 0.5) 50) example_gray_photo None = Ok r /\
       (ValidationResult.is_valid r = true <-> (25 <= v)%Q) /\
       (ValidationResult.is_valid r = false ->
        ValidationResult.message r
        = "Foto is wazig. Houd de camera stil en zorg voor goede focus")).
Proof.
  apply (@sharpness_default_decision example_cv _ example_gray_photo
           (Gray (solid 4 8 100)) None (solid 4 8 100) eq_refl eq_refl).
  - discriminate.
  - reflexivity.
Defined.


(** ** The expression check *)

Lemma analyze_facial_features_range (landmarks : gmap string landmark_value) (es : Q) :
  FacialExpressionValidator._analyze_facial_features landmarks = Ok es ->
  (0.5 <= es <= 1)%Q.
Proof.
  unfold FacialExpressionValidator._analyze_facial_features.
  destruct (has_key landmarks "eyebrow_raise");
    [destruct (landmark_number landmarks "eyebrow_raise") as [q1|]; [|discriminate]|];
    cbn [bind];
    (destruct (has_key landmarks "mouth_symmetry");
     [destruct (landmark_number landmarks "mouth_symmetry") as [q2|]; [|discriminate]|]);
    cbn [bind];
    repeat match goal with
           | |- context [if ?b then _ else _] => destruct b
           end;
    intros [= <-]; split; apply Qle_bool_iff; reflexivity.
Qed.

Lemma expression_validate_eq (self : FacialExpressionValidator.t) (photo : Photo.t)
    (img : ndarray) (fd : FaceDetectionResult.t) (landmarks : gmap string landmark_value)
    (mar es : Q) :
  Photo.image_data photo = Some img ->
  ndarray_size img <> 0 ->
  FaceDetectionResult.face_found fd = true ->
  nonempty_landmarks (FaceDetectionResult.landmarks fd) = Some landmarks ->
  FacialExpressionValidator._calculate_mouth_aspect_ratio landmarks = Ok mar ->
  FacialExpressionValidator._analyze_facial_features landmarks = Ok es ->
  let mouth_closed := Qle_bool mar (FacialExpressionValidator._mouth_open_threshold self) in
  let mouth_score :=
    if mouth_closed then 1%Q
    else Qmax 0 (1 - (mar - FacialExpressionValidator._mouth_open_threshold self) / 0.3) in
  let confidence := (mouth_score * 0.6 + es * 0.4)%Q in
  let is_valid := Qge_bool confidence (threshold self) in
  FacialExpressionValidator.validate self photo (Some fd)
  = Ok (ValidationResult.mk "FacialExpressionValidator" is_valid confidence
          (if is_valid then "Gezichtsuitdrukking is neutraal en correct"
           else if negb mouth_closed then "Sluit uw mond voor de pasfoto"
           else if Qlt_bool es 0.6 then "Neem een neutrale gezichtsuitdrukking aan"
           else "Gezichtsuitdrukking is niet volledig neutraal")
          (Some [("mouth_aspect_ratio", DNum mar);
                 ("mouth_closed", DBool mouth_closed);
                 ("mouth_score", DNum mouth_score);
                 ("expression_score", DNum es)])).
Proof.
  intros Himg Hsize Hfound Hlm Hmar Hes. cbv zeta.
  pose proof (analyze_facial_features_range landmarks es Hes) as Hrange.
  unfold FacialExpressionValidator.validate.
  rewrite (validate_image_data_ok photo img Himg Hsize). cbn [bind].
  rewrite Hfound. cbn [negb]. rewrite Hlm, Hmar. cbn [bind].
  destruct (Qle_bool mar (FacialExpressionValidator._mouth_open_threshold self)) eqn:E;
    rewrite Hes; cbn [bind]; unfold BaseValidator._create_result.
  - rewrite new_result_ok by lra. reflexivity.
  - rewrite new_result_ok; [reflexivity|].
    assert (Qlt_bool (FacialExpressionValidator._mouth_open_threshold self) mar = true) as Hlt
        by (unfold Qlt_bool; now rewrite E).
    apply Qlt_bool_true in Hlt.
    set (t := FacialExpressionValidator._mouth_open_threshold self) in *.
    const_div.
    destruct (Q.max_spec 0 (1 - (mar - t) * (10 # 3))) as [[? ->]|[? ->]]; lra.
Qed.

(** X14. With the default configuration the expression check, once a face
    with landmarks is found, passes whenever the mouth aspect ratio is at most
    0.5, whatever the eyebrows and the symmetry, and whenever the facial
    features are neutral (score 1), however wide the mouth is open; when it
    fails the mouth aspect ratio is above 0.5, the feature score is below 1
    and the message asks to close the mouth. *)
Theorem expression_default_decision
    (self : FacialExpressionValidator.t) (photo : Photo.t) (img : ndarray)
    (fd : FaceDetectionResult.t) (landmarks : gmap string landmark_value) (mar es : Q) :
  FacialExpressionValidator.default = Ok self ->
  Photo.image_data photo = Some img ->
  ndarray_size img <> 0 ->
  FaceDetectionResult.face_found fd = true ->
  nonempty_landmarks (FaceDetectionResult.landmarks fd) = Some landmarks ->
  FacialExpressionValidator._calculate_mouth_aspect_ratio landmarks = Ok mar ->
  FacialExpressionValidator._analyze_facial_features landmarks = Ok es ->
  exists r,
    FacialExpressionValidator.validate self photo (Some fd) = Ok r /\
    ((mar <= 0.5)%Q -> ValidationResult.is_valid r = true) /\
    ((es == 1)%Q -> ValidationResult.is_valid r = true) /\
    (ValidationResult.is_valid r = false ->
     (0.5 < mar)%Q /\ (es < 1)%Q /\
     ValidationResult.message r = "Sluit uw mond voor de pasfoto").
Proof.
  intros Hdef Himg Hsize Hfound Hlm Hmar Hes.
  assert (self = FacialExpressionValidator.mk (BaseValidator.mk 0.4) 0.5) as ->
      by (injection Hdef as <-; reflexivity).
  pose proof (analyze_facial_features_range landmarks es Hes) as Hrange.
  rewrite (expression_validate_eq _ photo img fd landmarks mar es
             Himg Hsize Hfound Hlm Hmar Hes).
  cbn [FacialExpressionValidator._mouth_open_threshold].
  change (threshold (FacialExpressionValidator.mk (BaseValidator.mk 0.4) 0.5)) with 0.4%Q.
  eexists. split; [reflexivity|].
  cbn [ValidationResult.is_valid ValidationResult.message].
  destruct (Qle_bool mar 0.5) eqn:E.
  - assert (Qge_bool (1 * 0.6 + es * 0.4) 0.4 = true) as -> by (apply Qge_bool_true; lra).
    split; [reflexivity|]. split; [reflexivity|]. discriminate.
  - assert (0.5 < mar)%Q as Hopen
        by (apply Qlt_bool_true; unfold Qlt_bool; now rewrite E).
    set (ms := Qmax 0 (1 - (mar - 0.5) / 0.3)).
    assert (0 <= ms)%Q as Hms by apply Q.le_max_l.
    destruct (Qge_bool (ms * 0.6 + es * 0.4) 0.4) eqn:E2.
    + split; [reflexivity|]. split; [reflexivity|]. discriminate.
    + apply Qge_bool_false in E2. split; [|split].
      * intros Hle. lra.
      * intros He1. rewrite He1 in E2. lra.
      * intros _. split; [exact Hopen|]. split; [lra | reflexivity].
Qed.

Lemma example_landmarks_truthy (ear : Q) :
  nonempty_landmarks (Some (example_landmarks ear)) = Some (example_landmarks ear).
Proof.
  unfold nonempty_landmarks.
  now rewrite bool_decide_eq_false_2 by apply example_landmarks_nonempty.
Qed.

Lemma expression_default_decision_witness :
  exists r,
    FacialExpressionValidator.validate
      (FacialExpressionValidator.mk (BaseValidator.mk 0.4) 0.5)
      example_gray_photo (Some (example_face 0.3)) = Ok r /\
    ((0.1 <= 0.5)%Q -> ValidationResult.is_valid r = true) /\
    ((1 == 1)%Q -> ValidationResult.is_valid r = true) /\
    (ValidationResult.is_valid r = false ->
     (0.5 < 0.1)%Q /\ (1 < 1)%Q /\
     ValidationResult.message r = "Sluit uw mond voor de pasfoto").
Proof.
  apply (expression_default_decision _ example_gray_photo (Gray (solid 4 8 100))
           (example_face 0.3) (example_landmarks 0.3) 0.1 1 eq_refl eq_refl).
  - discriminate.
  - reflexivity.
  - apply example_landmarks_truthy.
  - reflexivity.
  - reflexivity.
Defined.

(** ** The eye visibility check: closed eyes and missing landmarks *)

Section EyeMessages.
Context {cv : OpenCV}.

Lemma eye_validate_eq (self : EyeVisibilityValidator.t) (photo : Photo.t) (img : ndarray)
    (fd : FaceDetectionResult.t) (landmarks : gmap string landmark_value)
    (left_ear right_ear : Q) :
  Photo.image_data photo = Some img ->
  ndarray_size img <> 0 ->
  FaceDetectionResult.face_found fd = true ->
  FaceDetectionResult.landmarks fd = Some landmarks ->
  landmarks <> ∅ ->
  EyeVisibilityValidator._calculate_eye_aspect_ratio landmarks "left" = Ok left_ear ->
  EyeVisibilityValidator._calculate_eye_aspect_ratio landmarks "right" = Ok right_ear ->
  region_is_box landmarks "left" -> region_is_box landmarks "right" ->
  exists r coverage confidence,
    EyeVisibilityValidator.validate self photo (Some fd) = Ok r /\
    ValidationResult.confidence r = confidence /\
    ValidationResult.is_valid r
    = Qge_bool confidence (threshold self)
      && Qge_bool left_ear 0.22 && Qge_bool right_ear 0.22 /\
    ValidationResult.message r
    = (if ValidationResult.is_valid r then "Beide ogen zijn goed zichtbaar"
       else if negb (Qge_bool left_ear 0.22) && negb (Qge_bool right_ear 0.22)
       then "Open uw ogen voor de pasfoto"
       else if negb (Qge_bool left_ear 0.22) then "Open uw rechteroog voor de pasfoto"
       else if negb (Qge_bool right_ear 0.22) then "Open uw linkeroog voor de pasfoto"
       else if Qlt_bool coverage 0.7
       then "Zorg dat uw ogen niet bedekt zijn door reflecties of haar"
       else "Ogen zijn niet volledig zichtbaar").
Proof.
  intros Himg Hsize Hfound Hlm Hne Hl Hr Hbl Hbr.
  destruct (check_eye_coverage_returns photo img fd landmarks "left" Himg Hlm Hbl)
    as (lc & Hlc & Blc).
  destruct (check_eye_coverage_returns photo img fd landmarks "right" Himg Hlm Hbr)
    as (rc & Hrc & Brc).
  unfold EyeVisibilityValidator.validate.
  rewrite (validate_image_data_ok photo img Himg Hsize). cbn [bind].
  rewrite Hfound. cbn [negb]. unfold nonempty_landmarks. rewrite Hlm.
  rewrite bool_decide_eq_false_2 by exact Hne. rewrite Hl, Hr. cbn [bind].
  rewrite Hlc, Hrc. cbn [bind]. unfold BaseValidator._create_result.
  rewrite new_result_ok.
  - eexists _, ((lc + rc) / 2)%Q, _. split; [reflexivity|].
    cbn [ValidationResult.confidence ValidationResult.is_valid ValidationResult.message].
    repeat split.
  - pose proof (eye_score_range left_ear). pose proof (eye_score_range right_ear).
    const_div. lra.
Qed.

(** X15. In the eye visibility check a closed eye is named from the side of
    the photographed person: with the "left" eye of the landmarks below 0.22
    and the "right" one open the message asks to open the right eye, and the
    other way round; with both below 0.22 it asks to open the eyes.  An eye
    whose aspect ratio is missing from the landmarks counts as 0.10, and so
    as closed.  In all these cases the check fails, whatever the threshold. *)
Theorem eye_closed_messages (self : EyeVisibilityValidator.t) (photo : Photo.t)
    (img : ndarray) (fd : FaceDetectionResult.t) (landmarks : gmap string landmark_value)
    (left_ear right_ear : Q) :
  Photo.image_data photo = Some img ->
  ndarray_size img <> 0 ->
  FaceDetectionResult.face_found fd = true ->
  FaceDetectionResult.landmarks fd = Some landmarks ->
  landmarks <> ∅ ->
  EyeVisibilityValidator._calculate_eye_aspect_ratio landmarks "left" = Ok left_ear ->
  EyeVisibilityValidator._calculate_eye_aspect_ratio landmarks "right" = Ok right_ear ->
  region_is_box landmarks "left" -> region_is_box landmarks "right" ->
  (landmarks !! "left_eye_height" = None -> left_ear = 0.10%Q) /\
  (landmarks !! "right_eye_height" = None -> right_ear = 0.10%Q) /\
  exists r,
    EyeVisibilityValidator.validate self photo (Some fd) = Ok r /\
    ((left_ear < 0.22)%Q -> (right_ear < 0.22)%Q ->
     ValidationResult.is_valid r = false /\
     ValidationResult.message r = "Open uw ogen voor de pasfoto") /\
    ((left_ear < 0.22)%Q -> (0.22 <= right_ear)%Q ->
     ValidationResult.is_valid r = false /\
     ValidationResult.message r = "Open uw rechteroog voor de pasfoto") /\
    ((0.22 <= left_ear)%Q -> (right_ear < 0.22)%Q ->
     ValidationResult.is_valid r = false /\
     ValidationResult.message r = "Open uw linkeroog voor de pasfoto").
Proof.
  intros Himg Hsize Hfound Hlm Hne Hl Hr Hbl Hbr.
  split; [|split].
  - intros Hnone. unfold EyeVisibilityValidator._calculate_eye_aspect_ratio, has_key in Hl.
    change (eye_key "left" "_height") with "left_eye_height" in Hl.
    rewrite Hnone in Hl. now injection Hl.
  - intros Hnone. unfold EyeVisibilityValidator._calculate_eye_aspect_ratio, has_key in Hr.
    change (eye_key "right" "_height") with "right_eye_height" in Hr.
    rewrite Hnone in Hr. now injection Hr.
  - destruct (eye_validate_eq self photo img fd landmarks left_ear right_ear
                Himg Hsize Hfound Hlm Hne Hl Hr Hbl Hbr)
      as (r & cov & conf & Hv & _ & Hvalid & Hmsg).
    exists r. split; [exact Hv|]. rewrite Hmsg, Hvalid. clear Hmsg Hvalid.
    split; [|split]; intros H1 H2.
    + rewrite (proj2 (Qge_bool_false left_ear 0.22) H1).
      rewrite (proj2 (Qge_bool_false right_ear 0.22) H2).
      rewrite andb_false_r. split; reflexivity.
    + rewrite (proj2 (Qge_bool_false left_ear 0.22) H1).
      rewrite (proj2 (Qge_bool_true right_ear 0.22) H2).
      rewrite andb_false_r. split; reflexivity.
    + rewrite (proj2 (Qge_bool_true left_ear 0.22) H1).
      rewrite (proj2 (Qge_bool_false right_ear 0.22) H2).
      rewrite andb_false_r. split; reflexivity.
Qed.

End EyeMessages.

Lemma eye_closed_messages_witness :
  exists r,
    @EyeVisibilityValidator.validate example_cv example_eye_validator example_gray_photo
      (Some (FaceDetectionResult.mk true 1 None (Some example_landmarks_right_only)))
    = Ok r /\
    ValidationResult.is_valid r = false /\
    ValidationResult.message r = "Open uw rechteroog voor de pasfoto".
Proof.
  destruct (@eye_closed_messages example_cv example_eye_validator example_gray_photo
              (Gray (solid 4 8 100))
              (FaceDetectionResult.mk true 1 None (Some example_landmarks_right_only))
              example_landmarks_right_only 0.10 0.3
              eq_refl ltac:(discriminate) eq_refl eq_refl
              ltac:(apply insert_non_empty) eq_refl eq_refl
              ltac:(intros q; discriminate) ltac:(intros q; discriminate))
    as (_ & _ & r & Hr & _ & Hright & _).
  exists r. split; [exact Hr|]. apply Hright; [reflexivity | discriminate].
Defined.

(** ** The face position check *)

Lemma py_div_ok (a b : Q) : ~ (b == 0)%Q -> py_div a b = Ok (a / b)%Q.
Proof.
  intros Hb. unfold py_div. destruct (Qeq_bool b 0) eqn:E; [|reflexivity].
  apply Qeq_bool_iff in E. contradiction.
Qed.

Lemma falloff_range (d t : Q) : (0 <= d)%Q -> (0 < t)%Q -> (0 <= Qmax 0 (1 - d / t) <= 1)%Q.
Proof.
  intros Hd Ht.
  assert (0 <= d / t)%Q by (apply Qle_shift_div_l; lra).
  destruct (Q.max_spec 0 (1 - d / t)) as [[? ->]|[? ->]]; lra.
Qed.

(** X16. With a face reported but no bounding box the face position check
    fails with confidence 0 because the face could not be located, and with a
    bounding box of area 0 because it could not be analysed; it raises in
    neither case. *)
Theorem face_position_degenerate_box (self : FacePositionValidator.t) (photo : Photo.t)
    (img : ndarray) (fd : FaceDetectionResult.t) :
  Photo.image_data photo = Some img ->
  ndarray_size img <> 0 ->
  FaceDetectionResult.face_found fd = true ->
  (FaceDetectionResult.face_bbox fd = None ->
   FacePositionValidator.validate self photo (Some fd)
   = Ok (ValidationResult.mk "FacePositionValidator" false 0
           "Gezicht kon niet worden gelokaliseerd"
           (Some [("error", DStr "no_bounding_box")]))) /\
  (forall x y w h,
     FaceDetectionResult.face_bbox fd = Some (x, y, w, h) -> w * h = 0 ->
     FacePositionValidator.validate self photo (Some fd)
     = Ok (ValidationResult.mk "FacePositionValidator" false 0
             "Gezicht kon niet worden geanalyseerd"
             (Some [("error", DStr "invalid_face_data")]))).
Proof.
  intros Himg Hsize Hfound. split.
  - intros Hbox. unfold FacePositionValidator.validate.
    rewrite (validate_image_data_ok photo img Himg Hsize). cbn [bind].
    now rewrite Hfound, Hbox.
  - intros x y w h Hbox Harea. unfold FacePositionValidator.validate.
    rewrite (validate_image_data_ok photo img Himg Hsize). cbn [bind].
    rewrite Hfound, Hbox, Himg. cbn [negb].
    unfold FaceDetectionResult.get_face_center, FaceDetectionResult.get_face_size.
    rewrite Hbox. destruct (ndarray_shape2 img) as [H W].
    now rewrite Harea.
Qed.

Lemma face_position_degenerate_box_witness :
  (FaceDetectionResult.face_bbox (FaceDetectionResult.mk true 1 (Some (1, 1, 0, 5)) None)
   = None ->
   FacePositionValidator.validate
     (FacePositionValidator.mk (BaseValidator.mk 0.5) 0.30 0.05 0.70) example_gray_photo
     (Some (FaceDetectionResult.mk true 1 (Some (1, 1, 0, 5)) None))
   = Ok (ValidationResult.mk "FacePositionValidator" false 0
           "Gezicht kon niet worden gelokaliseerd"
           (Some [("error", DStr "no_bounding_box")]))) /\
  (forall x y w h,
     FaceDetectionResult.face_bbox (FaceDetectionResult.mk true 1 (Some (1, 1, 0, 5)) None)
     = Some (x, y, w, h) -> w * h = 0 ->
     FacePositionValidator.validate
       (FacePositionValidator.mk (BaseValidator.mk 0.5) 0.30 0.05 0.70) example_gray_photo
       (Some (FaceDetectionResult.mk true 1 (Some (1, 1, 0, 5)) None))
     = Ok (ValidationResult.mk "FacePositionValidator" false 0
             "Gezicht kon niet worden geanalyseerd"
             (Some [("error", DStr "invalid_face_data")]))).
Proof.
  apply (face_position_degenerate_box _ example_gray_photo (Gray (solid 4 8 100))).
  - reflexivity.
  - discriminate.
  - reflexivity.
Defined.

Lemma inject_Z_nonzero (z : Z) : z <> 0 -> ~ (inject_Z z == 0)%Q.
Proof.
  intros Hz. change 0%Q with (inject_Z 0). now rewrite inject_Z_injective.
Qed.

Lemma aspect_score_range (a : Q) :
  (0 <= (if Qle_bool 0.55 a && Qle_bool a 1.1 then 1
         else Qmax 0 (1 - (if Qlt_bool a 0.55 then 0.55 - a else a - 1.1) * 2)) <= 1)%Q.
Proof.
  destruct (Qle_bool 0.55 a) eqn:E1; simpl.
  - destruct (Qle_bool a 1.1) eqn:E2; simpl; [lra|].
    apply Qle_bool_iff in E1.
    assert (Qlt_bool a 0.55 = false) as -> by now apply Qlt_bool_false.
    assert (1.1 < a)%Q by (apply Qlt_bool_true; unfold Qlt_bool; now rewrite E2).
    destruct (Q.max_spec 0 (1 - (a - 1.1) * 2)) as [[? ->]|[? ->]]; lra.
  - assert (a < 0.55)%Q as Hlt by (apply Qlt_bool_true; unfold Qlt_bool; now rewrite E1).
    rewrite (proj2 (Qlt_bool_true a 0.55) Hlt).
    destruct (Q.max_spec 0 (1 - (0.55 - a) * 2)) as [[? ->]|[? ->]]; lra.
Qed.

(** The score of the face position check with the default configuration, on
    an image of positive height and width. *)
Lemma face_position_score_default (H W x y w h : Z) :
  0 < H -> 0 < W ->
  let offset_x := (Qabs (inject_Z (x + w / 2) - inject_Z W / 2) / inject_Z W)%Q in
  let offset_y := (Qabs (inject_Z (y + h / 2) - inject_Z H / 2) / inject_Z H)%Q in
  let ratio := (inject_Z (w * h) / inject_Z (W * H))%Q in
  exists r,
    FacePositionValidator.score
      (FacePositionValidator.mk (BaseValidator.mk 0.5) 0.30 0.05 0.70)
      H W (x, y, w, h) (x + w / 2, y + h / 2) (w * h) = Ok r /\
    (0 <= ValidationResult.confidence r <= 1)%Q /\
    ((offset_x <= 0.30)%Q -> (offset_y <= 0.30)%Q ->
     (0.05 <= ratio)%Q -> (ratio <= 0.70)%Q ->
     ValidationResult.is_valid r = true /\ (0.8 <= ValidationResult.confidence r)%Q).
Proof.
  intros HH HW offset_x offset_y ratio.
  unfold FacePositionValidator.score.
  cbn [FacePositionValidator._center_tolerance FacePositionValidator._min_size_ratio
       FacePositionValidator._max_size_ratio FacePositionValidator.base
       BaseValidator.threshold BaseValidator._threshold].
  rewrite (py_div_ok _ (inject_Z W)) by (apply inject_Z_nonzero; lia).
  rewrite (py_div_ok _ (inject_Z H)) by (apply inject_Z_nonzero; lia).
  cbn [bind]. fold offset_x offset_y.
  rewrite (py_div_ok _ 0.30) by lra.
  rewrite (py_div_ok _ (inject_Z (W * H))) by (apply inject_Z_nonzero; nia).
  assert (0 <= offset_x)%Q as Hox.
  { subst offset_x. apply Qle_shift_div_l.
    - change 0%Q with (inject_Z 0). rewrite <- Zlt_Qlt. lia.
    - rewrite Qmult_0_l. apply Qabs_nonneg. }
  assert (0 <= offset_y)%Q as Hoy.
  { subst offset_y. apply Qle_shift_div_l.
    - change 0%Q with (inject_Z 0). rewrite <- Zlt_Qlt. lia.
    - rewrite Qmult_0_l. apply Qabs_nonneg. }
  clearbody offset_x offset_y.
  set (aspect := if 0 <? h then (inject_Z w / inject_Z h)%Q else 0%Q).
  pose proof (aspect_score_range aspect) as Ha.
  set (aspect_score := if Qle_bool 0.55 aspect && Qle_bool aspect 1.1 then 1%Q else _) in *.
  clearbody aspect_score aspect.
  set (off := Qmax offset_x offset_y).
  assert (exists cs,
    (if Qle_bool off 0.30 then Ok 1%Q
     else d <- Ok ((off - 0.30) / 0.30)%Q ;; Ok (Qmax 0 (1 - d))) = Ok cs /\
    (0 <= cs <= 1)%Q /\ ((off <= 0.30)%Q -> cs = 1%Q)) as (cs & -> & Hcs & Hcs1).
  { destruct (Qle_bool off 0.30) eqn:E.
    - exists 1%Q. repeat split; lra.
    - cbn [bind]. eexists. split; [reflexivity|].
      assert (0.30 < off)%Q by (apply Qlt_bool_true; unfold Qlt_bool; now rewrite E).
      split; [apply falloff_range; lra | intros; lra]. }
  cbn [bind]. fold ratio. clearbody ratio.
  rewrite (py_div_ok _ 0.05) by lra.
  rewrite (py_div_ok _ 0.70) by lra.
  assert (exists ss,
    (if Qle_bool 0.05 ratio && Qle_bool ratio 0.70 then Ok 1%Q
     else if Qlt_bool ratio 0.05
          then d <- Ok ((0.05 - ratio) / 0.05)%Q ;; Ok (Qmax 0 (1 - d))
          else d <- Ok ((ratio - 0.70) / 0.70)%Q ;; Ok (Qmax 0 (1 - d))) = Ok ss /\
    (0 <= ss <= 1)%Q /\ ((0.05 <= ratio)%Q -> (ratio <= 0.70)%Q -> ss = 1%Q))
    as (ss & -> & Hss & Hss1).
  { destruct (Qle_bool 0.05 ratio) eqn:E1; cbn [andb].
    - destruct (Qle_bool ratio 0.70) eqn:E2.
      + exists 1%Q. repeat split; lra.
      + apply Qle_bool_iff in E1.
        assert (Qlt_bool ratio 0.05 = false) as -> by now apply Qlt_bool_false.
        assert (0.70 < ratio)%Q by (apply Qlt_bool_true; unfold Qlt_bool; now rewrite E2).
        cbn [bind]. eexists. split; [reflexivity|].
        split; [apply falloff_range; lra | intros; lra].
    - assert (ratio < 0.05)%Q as Hlt
          by (apply Qlt_bool_true; unfold Qlt_bool; now rewrite E1).
      rewrite (proj2 (Qlt_bool_true ratio 0.05) Hlt).
      cbn [bind]. eexists. split; [reflexivity|].
      split; [apply falloff_range; lra | intros; lra]. }
  cbn [bind]. unfold BaseValidator._create_result.
  rewrite new_result_ok by lra.
  eexists. split; [reflexivity|].
  cbn [ValidationResult.confidence ValidationResult.is_valid].
  split; [lra|].
  intros H1 H2 H3 H4.
  assert (off <= 0.30)%Q as Hoff by (subst off; apply Q.max_lub; assumption).
  rewrite (Hcs1 Hoff), (Hss1 H3 H4).
  split; [apply Qge_bool_true|]; lra.
Qed.

(** X17. With the default configuration the face position check, on an
    image of positive height and width and a face box of non-zero area,
    returns a result with a confidence in [0, 1]; when the centre of the box
    lies within 30% of the image centre in both directions and the box covers
    between 5% and 70% of the image, the check passes with a confidence of at
    least 0.8, whatever the proportions of the box. *)
Theorem face_position_default_decision (self : FacePositionValidator.t) (photo : Photo.t)
    (img : ndarray) (fd : FaceDetectionResult.t) (H W x y w h : Z) :
  FacePositionValidator.default = Ok self ->
  Photo.image_data photo = Some img ->
  ndarray_size img <> 0 ->
  ndarray_shape2 img = (H, W) -> 0 < H -> 0 < W ->
  FaceDetectionResult.face_found fd = true ->
  FaceDetectionResult.face_bbox fd = Some (x, y, w, h) ->
  w * h <> 0 ->
  exists r,
    FacePositionValidator.validate self photo (Some fd) = Ok r /\
    (0 <= ValidationResult.confidence r <= 1)%Q /\
    ((Qabs (inject_Z (x + w / 2) - inject_Z W / 2) / inject_Z W <= 0.30)%Q ->
     (Qabs (inject_Z (y + h / 2) - inject_Z H / 2) / inject_Z H <= 0.30)%Q ->
     (0.05 <= inject_Z (w * h) / inject_Z (W * H))%Q ->
     (inject_Z (w * h) / inject_Z (W * H) <= 0.70)%Q ->
     ValidationResult.is_valid r = true /\ (0.8 <= ValidationResult.confidence r)%Q).
Proof.
  intros Hdef Himg Hsize Hshape HH HW Hfound Hbox Harea.
  assert (self = FacePositionValidator.mk (BaseValidator.mk 0.5) 0.30 0.05 0.70) as ->
      by (injection Hdef as <-; reflexivity).
  unfold FacePositionValidator.validate.
  rewrite (validate_image_data_ok photo img Himg Hsize). cbn [bind].
  rewrite Hfound, Hbox, Himg, Hshape. cbn [negb].
  unfold FaceDetectionResult.get_face_center, FaceDetectionResult.get_face_size.
  rewrite Hbox.
  destruct (w * h =? 0) eqn:E; [apply Z.eqb_eq in E; contradiction|].
  exact (face_position_score_default H W x y w h HH HW).
Qed.

Lemma face_position_default_decision_witness :
  exists r,
    FacePositionValidator.validate
      (FacePositionValidator.mk (BaseValidator.mk 0.5) 0.30 0.05 0.70)
      (Photo.new (Some (Gray (solid 480 640 0))) 0)
      (Some (FaceDetectionResult.mk true 1 (Some (160, 120, 320, 240)) None)) = Ok r /\
    ValidationResult.is_valid r = true /\ (0.8 <= ValidationResult.confidence r)%Q.
Proof.
  destruct (face_position_default_decision _
              (Photo.new (Some (Gray (solid 480 640 0))) 0) (Gray (solid 480 640 0))
              (FaceDetectionResult.mk true 1 (Some (160, 120, 320, 240)) None)
              480 640 160 120 320 240 eq_refl eq_refl ltac:(discriminate)
              eq_refl eq_refl eq_refl eq_refl eq_refl ltac:(discriminate))
    as (r & Hr & _ & Hgood).
  exists r. split; [exact Hr|].
  apply Hgood; apply Qle_bool_iff; reflexivity.
Defined.

(** ** The reflection and the shadow check with the default configuration *)

Lemma excess_score_range (ratio limit : Q) :
  (0 < limit)%Q ->
  (0 <= (if Qle_bool ratio limit then 1
         else Qmax 0 (1 - (ratio - limit) / limit)) <= 1)%Q.
Proof.
  intros Hl. destruct (Qle_bool ratio limit) eqn:E; [lra|].
  assert (limit < ratio)%Q by (apply Qlt_bool_true; unfold Qlt_bool; now rewrite E).
  apply falloff_range; lra.
Qed.

Lemma count_score_range (n : Z) :
  0 <= n ->
  (0 <= (if n =? 0 then 1
         else if n <=? 2 then 0.7
         else Qmax 0 (1 - inject_Z (n - 2) * 0.15)) <= 1)%Q.
Proof.
  intros Hn. destruct (n =? 0); [lra|]. destruct (n <=? 2) eqn:E; [lra|].
  apply Z.leb_gt in E.
  assert (0 <= inject_Z (n - 2))%Q
    by (change 0%Q with (inject_Z 0); rewrite <- Zle_Qle; lia).
  destruct (Q.max_spec 0 (1 - inject_Z (n - 2) * 0.15)) as [[? ->]|[? ->]]; lra.
Qed.

Section ReflectionShadowDefault.
Context {cv : OpenCV}.

(** X18. With the default configuration the reflection check, when the
    image operations return, returns a result with a confidence in [0, 1].
    It passes whenever at most 12% of the analysed region is brighter than
    250 after opening, however many large reflections are found; and with no
    large reflection it passes exactly when that share is at most 22%. *)
Theorem reflection_default_decision
    (self : ReflectionValidator.t) (photo : Photo.t) (img : ndarray)
    (fd : option FaceDetectionResult.t) (g mask : GrayImage)
    (stats : list (Z * (Q * Q))) :
  ReflectionValidator.default = Ok self ->
  Photo.image_data photo = Some img ->
  ndarray_size img <> 0 ->
  BaseValidator._get_grayscale_image photo = Ok g ->
  gray_size (reflection_region g fd) <> 0 ->
  morphologyEx_OPEN 3 (threshold_binary 250 (reflection_region g fd)) = Ok mask ->
  connectedComponentsWithStats mask = Ok stats ->
  let ratio :=
    (inject_Z (count_gt 0 mask) / inject_Z (gray_size (reflection_region g fd)))%Q in
  let large := List.filter (fun c : Z * (Q * Q) => 50 <? fst c) (tl stats) in
  exists r,
    ReflectionValidator.validate self photo fd = Ok r /\
    (0 <= ValidationResult.confidence r <= 1)%Q /\
    ((ratio <= 0.12)%Q ->
     ValidationResult.is_valid r = true /\ (0.6 <= ValidationResult.confidence r)%Q) /\
    (large = [] -> (ValidationResult.is_valid r = true <-> (ratio <= 0.22)%Q)).
Proof.
  intros Hdef Himg Hsize Hgray _ Hmask Hstats ratio large.
  assert (self = ReflectionValidator.mk (BaseValidator.mk 0.5) 250 0.12) as ->
      by (injection Hdef as <-; reflexivity).
  unfold ReflectionValidator.validate.
  rewrite (validate_image_data_ok photo img Himg Hsize), Hgray. cbn [bind].
  change (match face_box fd with
          | Some (x, y, w, h) => crop y (y + h) x (x + w) g
          | None => g
          end) with (reflection_region g fd).
  cbn [ReflectionValidator._brightness_threshold ReflectionValidator._max_reflection_ratio
       ReflectionValidator.base BaseValidator.threshold BaseValidator._threshold].
  rewrite Hmask. cbn [bind]. rewrite Hstats. cbn [bind].
  fold ratio. fold large.
  set (n := Z.of_nat (length large)).
  assert (0 <= n) as Hn by (subst n; lia).
  pose proof (excess_score_range ratio 0.12 ltac:(lra)) as Hrs.
  pose proof (count_score_range n Hn) as Hcs.
  assert (large = [] -> n = 0) as Hn0 by (intros E; subst n; now rewrite E).
  assert ((if Qle_bool ratio 0.12 then 1 else Qmax 0 (1 - (ratio - 0.12) / 0.12)) == 1
          <-> ratio <= 0.12)%Q as Hone.
  { destruct (Qle_bool ratio 0.12) eqn:E.
    - apply Qle_bool_iff in E. split; [intros _; exact E | reflexivity].
    - assert (0.12 < ratio)%Q by (apply Qlt_bool_true; unfold Qlt_bool; now rewrite E).
      assert (0 < (ratio - 0.12) / 0.12)%Q by (apply Qlt_shift_div_l; lra).
      split; [|lra].
      destruct (Q.max_spec 0 (1 - (ratio - 0.12) / 0.12)) as [[? ->]|[? ->]]; lra. }
  assert (large = [] ->
          (1 # 6 <= (if Qle_bool ratio 0.12 then 1 else Qmax 0 (1 - (ratio - 0.12) / 0.12))
           <-> ratio <= 0.22)%Q) as Hsixth.
  { intros _. destruct (Qle_bool ratio 0.12) eqn:E.
    - apply Qle_bool_iff in E. split; intros; lra.
    - assert (0.12 < ratio)%Q by (apply Qlt_bool_true; unfold Qlt_bool; now rewrite E).
      assert ((ratio - 0.12) / 0.12 == (ratio - 0.12) * (25 # 3))%Q as Hd
          by (const_div; lra).
      rewrite Hd.
      destruct (Q.max_spec 0 (1 - (ratio - 0.12) * (25 # 3))) as [[? ->]|[? ->]];
        split; intros; lra. }
  set (ratio_score := if Qle_bool ratio 0.12 then 1%Q else _) in *.
  set (count_score := if n =? 0 then 1%Q else _) in *.
  assert (n = 0 -> count_score = 1%Q) as Hc1 by (intros E; subst count_score; now rewrite E).
  clearbody ratio_score count_score.
  unfold BaseValidator._create_result.
  rewrite new_result_ok by lra.
  eexists. split; [reflexivity|].
  cbn [ValidationResult.confidence ValidationResult.is_valid].
  split; [lra|]. split.
  - intros Hr. apply Hone in Hr. split; [apply Qge_bool_true|]; lra.
  - intros Hl. rewrite (Hc1 (Hn0 Hl)). specialize (Hsixth Hl).
    rewrite <- Hsixth. rewrite Qge_bool_true. split; intros; lra.
Qed.

(** X19. With the default configuration the shadow check, when the image
    operations return, returns a result with a confidence in [0, 1], and it
    passes whenever at most 20% of the analysed region is darker than 35
    after opening, whatever the edges of the shadows and the uniformity of
    the light. *)
Theorem shadow_default_decision
    (self : ShadowValidator.t) (photo : Photo.t) (img : ndarray)
    (fd : option FaceDetectionResult.t) (g mask edges : GrayImage) :
  ShadowValidator.default = Ok self ->
  Photo.image_data photo = Some img ->
  ndarray_size img <> 0 ->
  BaseValidator._get_grayscale_image photo = Ok g ->
  gray_size (shadow_region g fd) <> 0 ->
  morphologyEx_OPEN 5 (threshold_binary_inv 35 (shadow_region g fd)) = Ok mask ->
  Canny 50 150 mask = Ok edges ->
  let ratio :=
    (inject_Z (count_gt 0 mask) / inject_Z (gray_size (shadow_region g fd)))%Q in
  exists r,
    ShadowValidator.validate self photo fd = Ok r /\
    (0 <= ValidationResult.confidence r <= 1)%Q /\
    ((ratio <= 0.20)%Q ->
     ValidationResult.is_valid r = true /\
     ValidationResult.message r = "Geen storende schaduwen gedetecteerd").
Proof.
  intros Hdef Himg Hsize Hgray _ Hmask Hedges ratio.
  assert (self = ShadowValidator.mk (BaseValidator.mk 0.5) 35 0.20) as ->
      by (injection Hdef as <-; reflexivity).
  unfold ShadowValidator.validate.
  rewrite (validate_image_data_ok photo img Himg Hsize), Hgray. cbn [bind].
  cbn [ShadowValidator._darkness_threshold ShadowValidator._max_shadow_ratio
       ShadowValidator.base BaseValidator.threshold BaseValidator._threshold].
  set (region := match face_box fd with Some _ => _ | None => _ end).
  assert (morphologyEx_OPEN 5 (threshold_binary_inv 35 region) = Ok mask) as ->
      by exact Hmask.
  cbn [bind]. rewrite Hedges. cbn [bind].
  change (inject_Z (count_gt 0 mask) / inject_Z (gray_size region))%Q with ratio.
  pose proof (excess_score_range ratio 0.20 ltac:(lra)) as Hrs.
  assert ((ratio <= 0.20)%Q ->
          (if Qle_bool ratio 0.20 then 1 else Qmax 0 (1 - (ratio - 0.20) / 0.20))%Q = 1%Q)
    as Hone by (intros Hr; apply Qle_bool_iff in Hr; now rewrite Hr).
  set (ratio_score := if Qle_bool ratio 0.20 then 1%Q else _) in *.
  set (edge_ratio := (inject_Z (count_gt 0 edges) / _)%Q).
  assert (0 <= (if Qlt_bool edge_ratio 0.02 then 1
                else Qmax 0 (1 - (edge_ratio - 0.02) / 0.05)) <= 1)%Q as Hes.
  { destruct (Qlt_bool edge_ratio 0.02) eqn:E; [lra|].
    apply Qlt_bool_false in E. apply falloff_range; lra. }
  set (edge_score := if Qlt_bool edge_ratio 0.02 then 1%Q else _) in *.
  set (std_dev := np_std _).
  assert (0 <= (if Qlt_bool std_dev 30 then 1
                else if Qlt_bool std_dev 50 then 0.8
                else Qmax 0 (1 - (std_dev - 50) / 50)) <= 1)%Q as Hus.
  { destruct (Qlt_bool std_dev 30); [lra|].
    destruct (Qlt_bool std_dev 50) eqn:E; [lra|].
    apply Qlt_bool_false in E. apply falloff_range; lra. }
  set (uniformity_score := if Qlt_bool std_dev 30 then 1%Q else _) in *.
  clearbody ratio_score edge_score uniformity_score.
  unfold BaseValidator._create_result.
  rewrite new_result_ok by lra.
  eexists. split; [reflexivity|].
  cbn [ValidationResult.confidence ValidationResult.is_valid ValidationResult.message].
  split; [lra|].
  intros Hr. rewrite (Hone Hr).
  assert (Qge_bool (1 * 0.5 + edge_score * 0.3 + uniformity_score * 0.2) 0.5 = true) as ->
      by (apply Qge_bool_true; lra).
  split; reflexivity.
Qed.

End ReflectionShadowDefault.

Lemma reflection_default_decision_witness :
  exists r,
    @ReflectionValidator.validate example_cv
      (ReflectionValidator.mk (BaseValidator.mk 0.5) 250 0.12) example_gray_photo None
    = Ok r /\
    ValidationResult.is_valid r = true.
Proof.
  destruct (@reflection_default_decision example_cv _ example_gray_photo
              (Gray (solid 4 8 100)) None (solid 4 8 100)
              (threshold_binary 250 (solid 4 8 100)) [(0, (0%Q, 0%Q))]
              eq_refl eq_refl ltac:(discriminate) eq_refl ltac:(discriminate)
              eq_refl eq_refl)
    as (r & Hr & _ & Hlow & _).
  exists r. split; [exact Hr|]. apply Hlow. apply Qle_bool_iff. reflexivity.
Defined.

Lemma shadow_default_decision_witness :
  exists r,
    @ShadowValidator.validate example_cv
      (ShadowValidator.mk (BaseValidator.mk 0.5) 35 0.20) example_gray_photo None
    = Ok r /\
    ValidationResult.is_valid r = true.
Proof.
  destruct (@shadow_default_decision example_cv _ example_gray_photo
              (Gray (solid 4 8 100)) None (solid 4 8 100)
              (threshold_binary_inv 35 (solid 4 8 100))
              (map (map (fun _ => 0)) (threshold_binary_inv 35 (solid 4 8 100)))
              eq_refl eq_refl ltac:(discriminate) eq_refl ltac:(discriminate)
              eq_refl eq_refl)
    as (r & Hr & _ & Hlow).
  exists r. split; [exact Hr|]. apply Hlow. apply Qle_bool_iff. reflexivity.
Defined.

(** ** The headwear and the background check *)

Section HeadwearBackground.
Context {cv : OpenCV}.

(** X20. The headwear check never reads its threshold: a check with any
    other threshold returns the same result, and a returned result is valid
    exactly when its confidence is at least 0.8; a result that reports
    headwear has a confidence of at most 0.3. *)
Theorem headwear_decision_ignores_threshold
    (self self' : HeadwearValidator.t) (photo : Photo.t)
    (fd : option FaceDetectionResult.t) (r : ValidationResult.t) :
  HeadwearValidator.validate self photo fd = Ok r ->
  HeadwearValidator.validate self' photo fd = Ok r /\
  (ValidationResult.is_valid r = true <-> (0.8 <= ValidationResult.confidence r)%Q) /\
  (ValidationResult.is_valid r = false -> (ValidationResult.confidence r <= 0.3)%Q).
Proof.
  intros Hr. split; [exact Hr|].
  revert Hr. unfold HeadwearValidator.validate.
  destruct (BaseValidator._validate_image_data photo); [|discriminate]. cbn [bind].
  unfold BaseValidator._create_result.
  destruct (face_box fd) as [[[[x y] w] h]|].
  - destruct (Photo.image_data photo) as [img|]; [|discriminate].
    destruct (ndarray_size _ =? 0).
    + rewrite new_result_ok by lra. intros [= <-].
      cbn [ValidationResult.is_valid ValidationResult.confidence].
      split; [split; [intros _; lra | reflexivity] | discriminate].
    + destruct (ndarray_crop _ _ _ _ img) as [rows|rows]; [discriminate|].
      cbv zeta.
      destruct (Qlt_bool _ 0.3 && Qgt_bool _ 0.4);
        destruct (Qlt_bool _ 0.15);
        destruct (Qlt_bool _ 25 && Qlt_bool _ 0.4);
        cbn [negb]; rewrite new_result_ok by lra; intros [= <-];
        cbn [ValidationResult.is_valid ValidationResult.confidence];
        (split; [split; [first [discriminate | intros _; lra]
                        | first [reflexivity | intros Hc; exfalso; lra]]
                | first [discriminate | intros _; lra]]).
  - rewrite new_result_ok by lra. intros [= <-].
    cbn [ValidationResult.is_valid ValidationResult.confidence].
    split; [split; [discriminate | intros Hc; exfalso; lra] | intros _; lra].
Qed.

Lemma background_score_range (self : BackgroundValidator.t)
    (bg_std bg_mean bg_color_std edge_ratio : Q) :
  exists r,
    BackgroundValidator.score self bg_std bg_mean bg_color_std edge_ratio = Ok r /\
    (0.33 <= ValidationResult.confidence r <= 1)%Q /\
    ValidationResult.is_valid r
    = Qge_bool (ValidationResult.confidence r) (BaseValidator.threshold (BackgroundValidator.base self)).
Proof.
  unfold BackgroundValidator.score.
  set (u := if Qlt_bool bg_std 20 then 1%Q else _).
  assert (0.3 <= u <= 1)%Q as Hu
      by (subst u; destruct (Qlt_bool bg_std 20); [lra|];
          destruct (Qlt_bool bg_std 40); [lra|]; destruct (Qlt_bool bg_std 60); lra).
  set (c := if Qlt_bool bg_color_std 15 then 1%Q else _).
  assert (0.4 <= c <= 1)%Q as Hc
      by (subst c; destruct (Qlt_bool bg_color_std 15); [lra|];
          destruct (Qlt_bool bg_color_std 30); lra).
  set (e := if Qlt_bool edge_ratio 0.05 then 1%Q else _).
  assert (0.3 <= e <= 1)%Q as He
      by (subst e; destruct (Qlt_bool edge_ratio 0.05); [lra|];
          destruct (Qlt_bool edge_ratio 0.10); [lra|];
          destruct (Qlt_bool edge_ratio 0.20); lra).
  set (b := if Qgt_bool bg_mean 180 then 0.1%Q else _).
  assert (0 <= b <= 0.1)%Q as Hb
      by (subst b; destruct (Qgt_bool bg_mean 180); [lra|];
          destruct (Qgt_bool bg_mean 150); lra).
  clearbody u c e b.
  assert (0.33 <= Qmin 1 (u * 0.4 + c * 0.3 + e * 0.3 + b) <= 1)%Q as Hm
      by (destruct (Q.min_spec 1 (u * 0.4 + c * 0.3 + e * 0.3 + b)) as [[? ->]|[? ->]]; lra).
  unfold BaseValidator._create_result.
  rewrite new_result_ok by lra.
  eexists. split; [reflexivity|]. split; [exact Hm | reflexivity].
Qed.


End HeadwearBackground.

Lemma headwear_decision_ignores_threshold_witness :
  @HeadwearValidator.validate example_cv (HeadwearValidator.mk (BaseValidator.mk 1))
    example_photo (Some (example_face 0.3))
  = Ok (ValidationResult.mk "HeadwearValidator" true 0.8 "Geen hoofddeksel gedetecteerd"
          (Some [("note", DStr "small_region")])).
Proof.
  apply (@headwear_decision_ignores_threshold example_cv
           (HeadwearValidator.mk (BaseValidator.mk 0.5))).
  reflexivity.
Defined.


(** ** The face detection model *)

Lemma py_int_floor (q : Q) : (0 <= q)%Q -> py_int q = Qfloor q.
Proof.
  intros Hq. destruct q as [n d]. unfold py_int, Qfloor. cbn [Qnum Qden].
  apply Z.quot_div_nonneg; [|lia].
  unfold Qle in Hq. cbn in Hq. lia.
Qed.

Lemma py_int_range (q : Q) (n : Z) :
  (0 <= q)%Q -> (q <= inject_Z n)%Q -> 0 <= py_int q <= n.
Proof.
  intros H0 Hn. rewrite (py_int_floor q H0). split.
  - change 0 with (Qfloor 0). now apply Qfloor_resp_le.
  - rewrite <- (Qfloor_Z n). now apply Qfloor_resp_le.
Qed.

Lemma py_int_mono (p q : Q) : (0 <= p)%Q -> (p <= q)%Q -> py_int p <= py_int q.
Proof.
  intros H0 Hpq. rewrite (py_int_floor p H0), (py_int_floor q) by lra.
  now apply Qfloor_resp_le.
Qed.

Lemma fold_Qmin_le_init (xs : list Q) (x : Q) : (fold_left Qmin xs x <= x)%Q.
Proof.
  revert x. induction xs as [|y ys IH]; intros x; cbn [fold_left]; [lra|].
  specialize (IH (Qmin x y)). pose proof (Q.le_min_l x y). lra.
Qed.

Lemma fold_Qmax_ge_init (xs : list Q) (x : Q) : (x <= fold_left Qmax xs x)%Q.
Proof.
  revert x. induction xs as [|y ys IH]; intros x; cbn [fold_left]; [lra|].
  specialize (IH (Qmax x y)). pose proof (Q.le_max_l x y). lra.
Qed.

Lemma fold_Qmin_range (lo hi : Q) (xs : list Q) (x : Q) :
  (lo <= x <= hi)%Q -> Forall (fun y => lo <= y <= hi)%Q xs ->
  (lo <= fold_left Qmin xs x <= hi)%Q.
Proof.
  intros Hx Hall. revert x Hx.
  induction Hall as [|y ys Hy Hys IH]; intros x Hx; cbn [fold_left]; [exact Hx|].
  apply IH. destruct (Q.min_spec x y) as [[? ->]|[? ->]]; lra.
Qed.

Lemma fold_Qmax_range (lo hi : Q) (xs : list Q) (x : Q) :
  (lo <= x <= hi)%Q -> Forall (fun y => lo <= y <= hi)%Q xs ->
  (lo <= fold_left Qmax xs x <= hi)%Q.
Proof.
  intros Hx Hall. revert x Hx.
  induction Hall as [|y ys Hy Hys IH]; intros x Hx; cbn [fold_left]; [exact Hx|].
  apply IH. destruct (Q.max_spec x y) as [[? ->]|[? ->]]; lra.
Qed.

Lemma scaled_coordinate_range (c : Q) (n : Z) :
  (0 <= c <= 1)%Q -> 0 <= n -> (0 <= c * inject_Z n <= inject_Z n)%Q.
Proof.
  intros Hc Hn.
  assert (0 <= inject_Z n)%Q by (change 0%Q with (inject_Z 0); now rewrite <- Zle_Qle).
  split.
  - apply Qmult_le_0_compat; lra.
  - rewrite <- (Qmult_1_l (inject_Z n)) at 2. apply Qmult_le_compat_r; lra.
Qed.

(** The extent of scaled coordinates along one axis, as the bounding box
    computes it. *)
Lemma axis_extent (cs : list Q) (c : Q) (n : Z) :
  0 <= n -> Forall (fun y => 0 <= y <= inject_Z n)%Q (c :: cs) ->
  let lo := py_int (fold_left Qmin cs c) in
  let hi := py_int (fold_left Qmax cs c) in
  let padding := py_int (inject_Z (hi - lo) * 0.1) in
  0 <= Z.max 0 (lo - padding) /\
  0 <= Z.min n (hi + padding) - Z.max 0 (lo - padding) /\
  Z.max 0 (lo - padding) + (Z.min n (hi + padding) - Z.max 0 (lo - padding)) <= n.
Proof.
  intros Hn Hall lo hi padding.
  inversion Hall as [|? ? Hc Hcs]; subst.
  pose proof (fold_Qmin_range 0 (inject_Z n) cs c Hc Hcs) as Hmin.
  pose proof (fold_Qmax_range 0 (inject_Z n) cs c Hc Hcs) as Hmax.
  pose proof (fold_Qmin_le_init cs c) as H1.
  pose proof (fold_Qmax_ge_init cs c) as H2.
  assert (0 <= lo <= n) as Hlo by (apply py_int_range; lra).
  assert (0 <= hi <= n) as Hhi by (apply py_int_range; lra).
  assert (lo <= hi) as Hle by (apply py_int_mono; lra).
  assert (0 <= padding) as Hp.
  { subst padding.
    assert (0 <= inject_Z (hi - lo))%Q
      by (change 0%Q with (inject_Z 0); rewrite <- Zle_Qle; lia).
    rewrite py_int_floor by lra. change 0 with (Qfloor 0).
    apply Qfloor_resp_le. lra. }
  lia.
Qed.

Lemma calculate_bounding_box_bounds (face_landmarks : list (Q * Q)) (h w : Z) :
  face_landmarks <> [] ->
  Forall (fun lm : Q * Q => (0 <= fst lm <= 1)%Q /\ (0 <= snd lm <= 1)%Q) face_landmarks ->
  0 <= h -> 0 <= w ->
  exists x y bw bh,
    FaceDetectionModel._calculate_bounding_box face_landmarks h w = Ok (x, y, bw, bh) /\
    0 <= x /\ 0 <= y /\ 0 <= bw /\ 0 <= bh /\ x + bw <= w /\ y + bh <= h.
Proof.
  intros Hne Hall Hh Hw.
  destruct face_landmarks as [|lm lms]; [contradiction|].
  unfold FaceDetectionModel._calculate_bounding_box. cbn [map py_min py_max bind].
  assert (Forall (fun y => 0 <= y <= inject_Z w)%Q
                 (map (fun lm : Q * Q => (fst lm * inject_Z w)%Q) (lm :: lms))) as Hxs.
  { apply List.Forall_forall. intros c Hc. apply in_map_iff in Hc.
    destruct Hc as (p & <- & Hp). rewrite List.Forall_forall in Hall.
    apply scaled_coordinate_range; [apply (Hall p Hp) | exact Hw]. }
  assert (Forall (fun y => 0 <= y <= inject_Z h)%Q
                 (map (fun lm : Q * Q => (snd lm * inject_Z h)%Q) (lm :: lms))) as Hys.
  { apply List.Forall_forall. intros c Hc. apply in_map_iff in Hc.
    destruct Hc as (p & <- & Hp). rewrite List.Forall_forall in Hall.
    apply scaled_coordinate_range; [apply (Hall p Hp) | exact Hh]. }
  cbn [map] in Hxs, Hys.
  destruct (axis_extent _ _ w Hw Hxs) as (Hx1 & Hx2 & Hx3).
  destruct (axis_extent _ _ h Hh Hys) as (Hy1 & Hy2 & Hy3).
  eexists _, _, _, _. split; [reflexivity|].
  repeat split; assumption.
Qed.

(** X22. The bounding box of a face whose landmarks have relative
    coordinates in [0, 1] lies within the image: its corner is not negative,
    its width and height are not negative and it does not reach beyond the
    width or the height of the image.  Without landmarks the computation
    raises [ValueError]. *)
Theorem bounding_box_within_image (face_landmarks : list (Q * Q)) (h w : Z) :
  0 <= h -> 0 <= w ->
  Forall (fun lm : Q * Q => (0 <= fst lm <= 1)%Q /\ (0 <= snd lm <= 1)%Q) face_landmarks ->
  match face_landmarks with
  | [] =>
      FaceDetectionModel._calculate_bounding_box face_landmarks h w
      = Raise (ValueError "min() arg is an empty sequence")
  | _ :: _ =>
      exists x y bw bh,
        FaceDetectionModel._calculate_bounding_box face_landmarks h w = Ok (x, y, bw, bh) /\
        0 <= x /\ 0 <= y /\ 0 <= bw /\ 0 <= bh /\ x + bw <= w /\ y + bh <= h
  end.
Proof.
  intros Hh Hw Hall. destruct face_landmarks as [|lm lms]; [reflexivity|].
  apply calculate_bounding_box_bounds; [discriminate | exact Hall | exact Hh | exact Hw].
Qed.

Lemma bounding_box_within_image_witness :
  exists x y bw bh,
    FaceDetectionModel._calculate_bounding_box [(0.25%Q, 0.25%Q); (0.75%Q, 0.5%Q)] 480 640
    = Ok (x, y, bw, bh) /\
    0 <= x /\ 0 <= y /\ 0 <= bw /\ 0 <= bh /\ x + bw <= 640 /\ y + bh <= 480.
Proof.
  apply (bounding_box_within_image [(0.25%Q, 0.25%Q); (0.75%Q, 0.5%Q)] 480 640); [lia | lia |].
  repeat constructor; apply Qle_bool_iff; reflexivity.
Defined.

Lemma get_point_ok (face_landmarks : list (Q * Q)) (h w : Z) (idx : nat) :
  (idx < length face_landmarks)%nat ->
  exists p, FaceDetectionModel.get_point face_landmarks h w idx = Ok p.
Proof.
  intros Hlt. unfold FaceDetectionModel.get_point.
  destruct (nth_error face_landmarks idx) eqn:E; [eexists; reflexivity|].
  apply nth_error_None in E. lia.
Qed.

Lemma ratio_or_zero_nonneg (a b : Z) :
  (0 <= (if 0 <? Z.abs b then inject_Z (Z.abs a) / inject_Z (Z.abs b) else 0))%Q.
Proof.
  destruct (0 <? Z.abs b) eqn:E; [|lra].
  apply Z.ltb_lt in E.
  apply Qle_shift_div_l.
  - change 0%Q with (inject_Z 0). now rewrite <- Zlt_Qlt.
  - rewrite Qmult_0_l. change 0%Q with (inject_Z 0). rewrite <- Zle_Qle. lia.
Qed.

Ltac get_point_step idx p :=
  let Hp := fresh "Hp" in
  let Hlt := fresh "Hlt" in
  match goal with
  | |- context [FaceDetectionModel.get_point ?face ?h ?w idx] =>
      assert (idx < length face)%nat as Hlt by (unfold idx; lia);
      destruct (get_point_ok face h w idx Hlt) as [p Hp];
      rewrite Hp; cbn [bind]; clear Hp Hlt
  end.

(** The entries of the extracted landmarks. *)
Lemma extract_landmarks_entries (face_landmarks : list (Q * Q)) (h w : Z) :
  (386 < length face_landmarks)%nat -> 0 < h -> 0 < w ->
  exists d left_ear right_ear lx ly lw lh rx ry rw rh upper lower width eyebrow symmetry,
    FaceDetectionModel._extract_landmarks face_landmarks h w = Ok d /\
    d !! "left_eye_height" = Some (LNum left_ear) /\
    d !! "right_eye_height" = Some (LNum right_ear) /\
    d !! "left_eye_region" = Some (LBox (lx, ly, lw, lh)) /\
    d !! "right_eye_region" = Some (LBox (rx, ry, rw, rh)) /\
    d !! "mouth_upper" = Some (LNum (inject_Z upper)) /\
    d !! "mouth_lower" = Some (LNum (inject_Z lower)) /\
    d !! "mouth_width" = Some (LNum (inject_Z width)) /\
    d !! "eyebrow_raise" = Some (LNum eyebrow) /\
    d !! "mouth_symmetry" = Some (LNum symmetry) /\
    (0 <= left_ear)%Q /\ (0 <= right_ear)%Q /\
    0 <= lw /\ 0 <= lh /\ 0 <= rw /\ 0 <= rh /\ 0 <= width.
Proof.
  intros Hlen Hh Hw. unfold FaceDetectionModel._extract_landmarks. cbv zeta.
  get_point_step FaceDetectionModel.left_eye_top_idx plt.
  get_point_step FaceDetectionModel.left_eye_bottom_idx plb.
  get_point_step FaceDetectionModel.left_eye_left_idx pll.
  get_point_step FaceDetectionModel.left_eye_right_idx plr.
  get_point_step FaceDetectionModel.right_eye_top_idx prt.
  get_point_step FaceDetectionModel.right_eye_bottom_idx prb.
  get_point_step FaceDetectionModel.right_eye_left_idx prl.
  get_point_step FaceDetectionModel.right_eye_right_idx prr.
  get_point_step FaceDetectionModel.mouth_top_idx pmt.
  get_point_step FaceDetectionModel.mouth_bottom_idx pmb.
  get_point_step FaceDetectionModel.mouth_left_idx pml.
  get_point_step FaceDetectionModel.mouth_right_idx pmr.
  get_point_step FaceDetectionModel.left_eyebrow_inner_idx pbi.
  get_point_step FaceDetectionModel.left_eyebrow_outer_idx pbo.
  rewrite (py_div_ok _ (inject_Z h)) by (apply inject_Z_nonzero; lia). cbn [bind].
  rewrite (py_div_ok _ (inject_Z w)) by (apply inject_Z_nonzero; lia). cbn [bind].
  pose proof (ratio_or_zero_nonneg (snd plt - snd plb) (fst plr - fst pll)) as Hle.
  pose proof (ratio_or_zero_nonneg (snd prt - snd prb) (fst prr - fst prl)) as Hre.
  set (left_ear := if 0 <? Z.abs (fst plr - fst pll) then _ else 0%Q) in *.
  set (right_ear := if 0 <? Z.abs (fst prr - fst prl) then _ else 0%Q) in *.
  clearbody left_ear right_ear.
  eexists _, left_ear, right_ear, _, _, _, _, _, _, _, _, _, _, _, _, _.
  split; [reflexivity|].
  repeat (split; [reflexivity|]).
  repeat split; solve [assumption | lia].
Qed.



Section DetectFace.
Context {mp : MediaPipe}.

(** X24. On a colour image of positive height and width on which the face
    mesh returns, detection returns a consistent result with a confidence in
    [0, 1]: without a face it holds neither a box nor landmarks and its
    confidence is 0; with a face (of at least 387 points with relative
    coordinates in [0, 1]) it holds a box that lies within the image and
    landmarks that are not empty. *)
Theorem detect_face_result_is_consistent (self : FaceDetectionModel.t) (rows : ColorImage)
    (h w : Z) (faces : list (list (Q * Q))) :
  ndarray_shape2 (Color rows) = (h, w) -> 0 < h -> 0 < w ->
  FaceMesh_process (FaceDetectionModel._min_detection_confidence self)
                   (FaceDetectionModel._min_tracking_confidence self)
                   (bgr_to_rgb rows) = Ok faces ->
  (forall face, hd_error faces = Some face ->
     (386 < length face)%nat /\
     Forall (fun lm : Q * Q => (0 <= fst lm <= 1)%Q /\ (0 <= snd lm <= 1)%Q) face) ->
  exists fd,
    FaceDetectionModel.detect_face self (Some (Color rows)) = Ok fd /\
    (0 <= FaceDetectionResult.confidence fd <= 1)%Q /\
    (FaceDetectionResult.face_found fd = false ->
     faces = [] /\ FaceDetectionResult.confidence fd = 0%Q /\
     FaceDetectionResult.face_bbox fd = None /\ FaceDetectionResult.landmarks fd = None) /\
    (FaceDetectionResult.face_found fd = true ->
     faces <> [] /\
     (exists x y bw bh,
        FaceDetectionResult.face_bbox fd = Some (x, y, bw, bh) /\
        0 <= x /\ 0 <= y /\ 0 <= bw /\ 0 <= bh /\ x + bw <= w /\ y + bh <= h) /\
     (exists d, nonempty_landmarks (FaceDetectionResult.landmarks fd) = Some d)).
Proof.
  intros Hshape Hh Hw Hfaces Hface.
  unfold FaceDetectionModel.detect_face.
  set (rgb := map _ rows).
  assert (FaceMesh_process (FaceDetectionModel._min_detection_confidence self)
            (FaceDetectionModel._min_tracking_confidence self) rgb = Ok faces) as ->
      by exact Hfaces.
  cbn [bind]. destruct faces as [|face rest].
  - eexists. split; [reflexivity|].
    cbn [FaceDetectionResult.confidence FaceDetectionResult.face_found
         FaceDetectionResult.face_bbox FaceDetectionResult.landmarks].
    split; [lra|]. split; [intros _; repeat split | discriminate].
  - destruct (Hface face eq_refl) as [Hlen Hall].
    rewrite Hshape.
    destruct (calculate_bounding_box_bounds face h w) as (x & y & bw & bh & -> & Hbox);
      [intros E; rewrite E in Hlen; cbn in Hlen; lia | exact Hall | lia | lia |].
    cbn [bind].
    destruct (extract_landmarks_entries face h w Hlen Hh Hw)
      as (d & left_ear & _ & _ & _ & _ & _ & _ & _ & _ & _ & _ & _ & _ & _ & _ & -> & Hl1 & _).
    cbn [bind].
    assert (d <> ∅) as Hne by (intros E; rewrite E in Hl1; discriminate Hl1).
    eexists. split; [reflexivity|].
    cbn [FaceDetectionResult.confidence FaceDetectionResult.face_found
         FaceDetectionResult.face_bbox FaceDetectionResult.landmarks].
    split; [|split; [discriminate|]].
    + assert (0 < inject_Z (Z.of_nat (length face)))%Q as Hpos
        by (change 0%Q with (inject_Z 0); rewrite <- Zlt_Qlt; lia).
      assert (inject_Z (Z.of_nat (length face)) / 468
              == inject_Z (Z.of_nat (length face)) * (1 # 468))%Q as Hd
        by (const_div; reflexivity).
      destruct (Q.min_spec 1 (inject_Z (Z.of_nat (length face)) / 468)) as [[? ->]|[? ->]];
        [lra|]. rewrite Hd. split; lra.
    + intros _. split; [discriminate|]. split.
      * exists x, y, bw, bh. split; [reflexivity | exact Hbox].
      * exists d. unfold nonempty_landmarks. now rewrite bool_decide_eq_false_2.
Qed.


End DetectFace.

Lemma detect_face_result_is_consistent_witness :
  exists fd,
    @FaceDetectionModel.detect_face example_mesh_with_face
      FaceDetectionModelFactory.create_default_model
      (Some (Color (solid_color 4 8 140))) = Ok fd /\
    (0 <= FaceDetectionResult.confidence fd <= 1)%Q /\
    (FaceDetectionResult.face_found fd = true ->
     exists x y bw bh,
       FaceDetectionResult.face_bbox fd = Some (x, y, bw, bh) /\
       0 <= x /\ 0 <= y /\ 0 <= bw /\ 0 <= bh /\ x + bw <= 8 /\ y + bh <= 4).
Proof.
  destruct (@detect_face_result_is_consistent example_mesh_with_face
              FaceDetectionModelFactory.create_default_model (solid_color 4 8 140) 4 8
              [repeat (0.5%Q, 0.5%Q) 468] eq_refl eq_refl eq_refl eq_refl)
    as (fd & Hfd & Hconf & _ & Hsome).
  - intros face Hface.
    assert (face = repeat (0.5%Q, 0.5%Q) 468) as ->
        by (symmetry; exact (f_equal (fun o => match o with Some f => f | None => face end)
                               Hface)).
    split; [rewrite repeat_length; lia|].
    apply List.Forall_forall. intros lm Hin. apply repeat_spec in Hin. subst lm.
    cbn [fst snd]. lra.
  - exists fd. split; [exact Hfd|]. split; [exact Hconf|].
    intros Hfound. exact (proj1 (proj2 (Hsome Hfound))).
Defined.


(** ** The conversion of NumPy values *)

Lemma map_id_on {A : Type} (f : A -> A) (l : list A) :
  Forall (fun x => f x = x) l -> map f l = l.
Proof.
  induction 1 as [|x xs Hx Hxs IH]; [reflexivity|]. cbn [map]. now rewrite Hx, IH.
Qed.

Lemma tolist_clean (a : np_data) :
  numpy_free (tolist a) = true /\ tuple_free (tolist a) = true.
Proof.
  induction a as [s|items IH] using np_data_nested_ind.
  - destruct s; split; reflexivity.
  - cbn [tolist numpy_free tuple_free]. rewrite !forallb_forall.
    split; intros o Ho; apply in_map_iff in Ho; destruct Ho as (a & <- & Ha);
      rewrite List.Forall_forall in IH; apply (IH a Ha).
Qed.

Lemma numpy_free_fixed (obj : pyobj) :
  numpy_free obj = true -> convert_numpy_types obj = obj.
Proof.
  induction obj as [| | | | |items IH|items IH|items IH| |] using pyobj_nested_ind;
    cbn [numpy_free convert_numpy_types]; try reflexivity; try discriminate.
  - intros Hfree. f_equal. apply map_id_on.
    rewrite forallb_forall in Hfree. rewrite List.Forall_forall in IH |- *.
    intros o Ho. apply (IH o Ho), (Hfree o Ho).
  - intros Hfree. f_equal. apply map_id_on.
    rewrite forallb_forall in Hfree. rewrite List.Forall_forall in IH |- *.
    intros [k o] Ho. f_equal. apply (IH (k, o) Ho), (Hfree (k, o) Ho).
Qed.

